(** * Electrophilicity descriptors from Gaussian logs

    A shallow embedding of [write_electro_nbo.py] and
    [write_electro_properties.py]: the log scanner, the value parser, the
    global-property calculator and the local-property combiner of both
    scripts, followed by the properties proved about them.

    Conventions of the embedding.
    - A Python [str] is a [string]; its characters are the code points
      below 256.
    - A Python [float] is an IEEE 754 binary64 number, [spec_float] with
      the operations of [SpecFloat] at precision 53.
    - A Python [list] is a [list]; a [dict] is an association list in
      insertion order.
    - A function that can raise returns a [result]; the exception classes
      are the ones the scripts can raise.
    - The file system is a map from a path to the text that [f.read()]
      returns for it. *)

From Stdlib Require Import Bool Arith ZArith Lia List Ascii String.
From Stdlib Require Import DecimalString DecimalNat.
From Stdlib Require Import SpecFloat.
Import ListNotations.

Local Open Scope string_scope.
Local Open Scope list_scope.

(** ** Exceptions and results *)

(** The exception classes that the two scripts can raise.  [Exception]
    carries the text the script gives it. *)
Inductive exn : Type :=
| IndexError
| ValueError
| ZeroDivisionError
| OverflowError
| OSError
| Exception (msg : string).

(** The text of an exception where it is fixed by the raise site: the
    script's own literal, or the interpreter's text for a list index out
    of range.  The other texts are composed from run-time values. *)
Definition exn_message (e : exn) : option string :=
  match e with
  | IndexError => Some "list index out of range"
  | Exception msg => Some msg
  | _ => None
  end.

Inductive result (A : Type) : Type :=
| Ok (a : A)
| Raise (e : exn).

Arguments Ok {A} a.
Arguments Raise {A} e.

Definition bind {A B : Type} (r : result A) (k : A -> result B) : result B :=
  match r with
  | Ok a => k a
  | Raise e => Raise e
  end.

Declare Scope py_scope.
Delimit Scope py_scope with py.
Notation "x <- r ;; k" := (bind r (fun x => k))
  (at level 61, r at next level, right associativity) : py_scope.
Local Open Scope py_scope.

(** [[f x for x in l]] where [f] can raise: the first exception wins. *)
Fixpoint map_result {A B : Type} (f : A -> result B) (l : list A) : result (list B) :=
  match l with
  | [] => Ok []
  | x :: l' => y <- f x ;; ys <- map_result f l' ;; Ok (y :: ys)
  end.

(** [[x for x in l if p x]] where [p] can raise. *)
Fixpoint filter_result {A : Type} (p : A -> result bool) (l : list A) : result (list A) :=
  match l with
  | [] => Ok []
  | x :: l' =>
      b <- p x ;; ys <- filter_result p l' ;; Ok (if b then x :: ys else ys)
  end.

(** ** Lists *)

(** [l[i]] for a Python list: a negative index counts from the end, an
    index out of range raises [IndexError]. *)
Definition getitem {A : Type} (l : list A) (i : Z) : result A :=
  let n := Z.of_nat (List.length l) in
  let j := if (i <? 0)%Z then (i + n)%Z else i in
  if ((j <? 0) || (n <=? j))%Z then Raise IndexError
  else match nth_error l (Z.to_nat j) with
       | Some x => Ok x
       | None => Raise IndexError
       end.

(** [[i for i, x in enumerate(l) if p x]], counting from [start]. *)
Fixpoint indices_from {A : Type} (p : A -> bool) (start : nat) (l : list A) : list nat :=
  match l with
  | [] => []
  | x :: l' =>
      if p x then start :: indices_from p (S start) l'
      else indices_from p (S start) l'
  end.

Definition indices {A : Type} (p : A -> bool) (l : list A) : list nat :=
  indices_from p 0 l.

(** ** Strings *)

(** [str.isspace] on one character, for the code points below 256: the
    separators of [str.split()]. *)
Definition isspace (c : ascii) : bool :=
  let n := nat_of_ascii c in
  (((9 <=? n) && (n <=? 13)) || ((28 <=? n) && (n <=? 32))
   || (n =? 133) || (n =? 160))%nat.

(** [s.split()]: the maximal runs of characters that are not white
    space.  [cur] is the run being read, reversed. *)
Fixpoint split_ws_aux (cur : list ascii) (s : string) : list string :=
  match s with
  | EmptyString =>
      match cur with
      | [] => []
      | _ => [string_of_list_ascii (rev cur)]
      end
  | String c s' =>
      if isspace c then
        match cur with
        | [] => split_ws_aux [] s'
        | _ => string_of_list_ascii (rev cur) :: split_ws_aux [] s'
        end
      else split_ws_aux (c :: cur) s'
  end.

Definition split_ws (s : string) : list string := split_ws_aux [] s.

(** [s.split("\n")]: the pieces between line feeds, empty pieces kept. *)
Fixpoint split_lines_aux (cur : list ascii) (s : string) : list string :=
  match s with
  | EmptyString => [string_of_list_ascii (rev cur)]
  | String c s' =>
      if Ascii.eqb c "010"%char
      then string_of_list_ascii (rev cur) :: split_lines_aux [] s'
      else split_lines_aux (c :: cur) s'
  end.

Definition split_lines (s : string) : list string := split_lines_aux [] s.

(** [s.startswith(p)]. *)
Definition startswith (s p : string) : bool := String.prefix p s.

(** [sub in s]. *)
Fixpoint contains (sub s : string) : bool :=
  String.prefix sub s ||
  match s with
  | EmptyString => false
  | String _ s' => contains sub s'
  end.

(** [s[:-4]]: the string without its last four characters. *)
Definition drop_last4 (s : string) : string :=
  String.substring 0 (String.length s - 4) s.

(** [f"{n}"] for a non-negative [int]. *)
Definition str_of_nat (n : nat) : string :=
  NilZero.string_of_uint (Nat.to_uint n).

Definition lf : string := String "010"%char EmptyString.

(** ** Floats *)

(** A Python [float]: an IEEE 754 binary64 number. *)
Definition float : Type := spec_float.

Definition prec : Z := 53.
Definition emax : Z := 1024.

Definition float_add : float -> float -> float := SFadd prec emax.
Definition float_sub : float -> float -> float := SFsub prec emax.
Definition float_mul : float -> float -> float := SFmul prec emax.

(** [x == 0.0]: either zero. *)
Definition is_zero (x : float) : bool :=
  match x with
  | S754_zero _ => true
  | _ => false
  end.

Definition is_inf (x : float) : bool :=
  match x with
  | S754_infinity _ => true
  | _ => false
  end.

(** The [float] of a small [int] operand, as [-1 * x], [x / 2] and
    [1 / x] convert it: the integer, rounded to nearest. *)
Definition float_of_int (z : Z) : float := binary_normalize prec emax z 0 false.

(** [a / b] on floats: a zero divisor raises, there is no infinity from a
    division by zero. *)
Definition float_truediv (a b : float) : result float :=
  if is_zero b then Raise ZeroDivisionError
  else Ok (SFdiv prec emax a b).

(** *** [float(s)] *)

Definition is_digit (c : ascii) : bool :=
  let n := nat_of_ascii c in ((48 <=? n) && (n <=? 57))%nat.

Definition digit_value (c : ascii) : Z := Z.of_nat (nat_of_ascii c - 48).

Definition digits_value (ds : list ascii) : Z :=
  fold_left (fun acc c => (10 * acc + digit_value c)%Z) ds 0%Z.

(** The value [n * 10^k] with the sign [neg], rounded to the nearest
    binary64 number, ties to even; too large a value is an infinity. *)
Definition decimal_to_float (neg : bool) (n : Z) (k : Z) : float :=
  match n with
  | Zpos p =>
      match k with
      | Zneg q =>
          SFdiv prec emax (S754_finite neg p 0) (S754_finite false (Pos.pow 10 q) 0)
      | _ => binary_normalize prec emax ((if neg then Z.opp n else n) * 10 ^ k) 0 false
      end
  | _ => S754_zero neg
  end.

(** What [float] does to a character before it parses: a character
    below 127 is kept, white space above becomes a blank, anything else
    there becomes a question mark (no code point from 128 to 255 is a
    decimal digit). *)
Definition to_ascii_number_char (c : ascii) : ascii :=
  let n := nat_of_ascii c in
  if (n <? 127)%nat then c
  else if ((n =? 133) || (n =? 160))%nat then " "%char
  else "?"%char.

(** C's [isspace] in the C locale, which [float] strips at both ends. *)
Definition c_isspace (c : ascii) : bool :=
  let n := nat_of_ascii c in
  (((9 <=? n) && (n <=? 13)) || (n =? 32))%nat.

Fixpoint lstrip (cs : list ascii) : list ascii :=
  match cs with
  | c :: cs' => if c_isspace c then lstrip cs' else cs
  | [] => []
  end.

(** The trailing strip keeps one character at least. *)
Fixpoint rstrip_rev (rcs : list ascii) : list ascii :=
  match rcs with
  | c :: ((_ :: _) as rcs') => if c_isspace c then rstrip_rev rcs' else rcs
  | _ => rcs
  end.

Definition rstrip (cs : list ascii) : list ascii := rev (rstrip_rev (rev cs)).

(** Underscores in a numeric literal: one is allowed only between two
    digits.  Returns the characters without them. *)
Fixpoint remove_underscores (prev : ascii) (cs : list ascii) : option (list ascii) :=
  match cs with
  | [] => if Ascii.eqb prev "_" then None else Some []
  | c :: cs' =>
      if Ascii.eqb c "_" then
        if is_digit prev then remove_underscores c cs' else None
      else if Ascii.eqb prev "_" && negb (is_digit c) then None
      else option_map (cons c) (remove_underscores c cs')
  end.

Fixpoint span_digits (cs : list ascii) : list ascii * list ascii :=
  match cs with
  | c :: cs' =>
      if is_digit c then let (ds, r) := span_digits cs' in (c :: ds, r)
      else ([], cs)
  | [] => ([], [])
  end.

Definition read_sign (cs : list ascii) : bool * list ascii :=
  match cs with
  | "-"%char :: r => (true, r)
  | "+"%char :: r => (false, r)
  | _ => (false, cs)
  end.

(** ASCII lower case, as [Py_TOLOWER]. *)
Definition to_lower (c : ascii) : ascii :=
  let n := nat_of_ascii c in
  if ((65 <=? n) && (n <=? 90))%nat then ascii_of_nat (n + 32) else c.

(** [[sign] inf | [sign] infinity | [sign] nan], in any letter case. *)
Definition parse_inf_or_nan (cs : list ascii) : option float :=
  let (neg, r) := read_sign cs in
  let w := string_of_list_ascii (map to_lower r) in
  if String.eqb w "inf" || String.eqb w "infinity" then Some (S754_infinity neg)
  else if String.eqb w "nan" then Some S754_nan
  else None.

(** [[sign] digits [. digits] [(e|E) [sign] digits]] with a digit in the
    mantissa at least, where the whole text must be consumed. *)
Definition parse_decimal (cs : list ascii) : option float :=
  let (neg, cs1) := read_sign cs in
  let (ip, cs2) := span_digits cs1 in
  let (fp, cs3) :=
    match cs2 with
    | "."%char :: r => span_digits r
    | _ => ([], cs2)
    end in
  match ip ++ fp with
  | [] => None
  | mant =>
      let (ex, cs4) :=
        match cs3 with
        | e :: r =>
            if Ascii.eqb e "e" || Ascii.eqb e "E" then
              let (eneg, r1) := read_sign r in
              let (ed, r2) := span_digits r1 in
              match ed with
              | [] => (0%Z, cs3)
              | _ => ((if eneg then Z.opp (digits_value ed) else digits_value ed), r2)
              end
            else (0%Z, cs3)
        | [] => (0%Z, cs3)
        end in
      match cs4 with
      | [] => Some (decimal_to_float neg (digits_value mant)
                      (ex - Z.of_nat (List.length fp)))
      | _ => None
      end
  end.

(** [float(s)] for a string [s]: the decimal literal or the infinity or
    NaN that [s] spells, correctly rounded; [ValueError] otherwise. *)
Definition float_of_str (s : string) : result float :=
  let cs := rstrip (lstrip (map to_ascii_number_char (list_ascii_of_string s))) in
  match cs with
  | [] => Raise ValueError
  | _ =>
      match remove_underscores "000"%char cs with
      | None => Raise ValueError
      | Some ds =>
          match parse_decimal ds with
          | Some x => Ok x
          | None =>
              match parse_inf_or_nan ds with
              | Some x => Ok x
              | None => Raise ValueError
              end
          end
      end
  end.

(** *** The platform's [pow] *)

(** What a call of C's [pow] leaves in [errno]. *)
Inductive errno : Type :=
| ENONE
| ERANGE
| EOTHER.

(** The C library the interpreter is linked with.  [x ** 2] on floats
    ends in its [pow], whose last bit differs between libraries.
    [c_pow x y] is the value of [pow(x, y)] and the [errno] it sets. *)
Class Libm : Type := { c_pow : float -> float -> float * errno }.

(** [x ** 2] for a float [x]: the cases of [float.__pow__] that the
    exponent 2.0 reaches.  A NaN, an infinity, a zero and a magnitude of
    one are answered by the interpreter; the rest is [pow] of the
    magnitude, and a range error raises [OverflowError]. *)
Definition float_pow_2 {L : Libm} (x : float) : result float :=
  match x with
  | S754_nan => Ok x
  | S754_infinity _ => Ok (S754_infinity false)
  | S754_zero _ => Ok (S754_zero false)
  | S754_finite _ m e =>
      let iv := S754_finite false m e in
      if SFeqb iv (float_of_int 1) then Ok (float_of_int 1)
      else
        let (ix, en) := c_pow iv (float_of_int 2) in
        let en' :=
          match en with
          | ENONE => if is_inf ix then ERANGE else ENONE
          | ERANGE => if is_zero ix then ENONE else ERANGE
          | EOTHER => EOTHER
          end in
        match en' with
        | ENONE => Ok ix
        | ERANGE => Raise OverflowError
        | EOTHER => Raise ValueError
        end
  end.

(** ** Files *)

(** The text [f.read()] returns for a path, if the file can be read. *)
Definition filesystem : Type := string -> option string.

(** [open(path, "r")] followed by [f.read().split("\n")]. *)
Definition read_lines (fs : filesystem) (path : string) : result (list string) :=
  match fs path with
  | Some text => Ok (split_lines text)
  | None => Raise OSError
  end.

(** ** Tables *)

(** A row of a charge table, the list [[label, charge, ...]]: what
    follows the charge is kept as read. *)
Record atom_charge : Type := mk_atom_charge {
  label : string;
  charge : float;
  rest : list string
}.

(** A [dict] with [str] keys, in insertion order. *)
Definition dict (V : Type) : Type := list (string * V).

(** [d[k]], [None] standing for [KeyError]. *)
Fixpoint dict_get {V : Type} (d : dict V) (k : string) : option V :=
  match d with
  | [] => None
  | (k', v) :: d' => if String.eqb k' k then Some v else dict_get d' k
  end.

(** [d[k] = v]: a key already there keeps its place. *)
Fixpoint dict_set {V : Type} (d : dict V) (k : string) (v : V) : dict V :=
  match d with
  | [] => [(k, v)]
  | (k', v') :: d' =>
      if String.eqb k' k then (k', v) :: d' else (k', v') :: dict_set d' k v
  end.

Definition keys {V : Type} (d : dict V) : list string := map fst d.

(** A loop [for x in l] whose body updates [acc] and can raise. *)
Fixpoint for_each {A S : Type} (body : S -> A -> result S) (l : list A) (acc : S) : result S :=
  match l with
  | [] => Ok acc
  | x :: l' => acc' <- body acc x ;; for_each body l' acc'
  end.

(** [[f x for x in l if p x]]: for each element the condition, then the
    expression; the first exception wins. *)
Fixpoint comprehension {A B : Type} (p : A -> result bool) (f : A -> result B)
  (l : list A) : result (list B) :=
  match l with
  | [] => Ok []
  | x :: l' =>
      b <- p x ;;
      if b then y <- f x ;; ys <- comprehension p f l' ;; Ok (y :: ys)
      else comprehension p f l'
  end.

(** The literal [27.212]. *)
Definition c27_212 : float := S754_finite false 7659497066250371 (-48).

(** The five global reactivity indices, in the order the scripts return
    them: electronegativity, hardness, softness, global electrophilicity,
    global nucleophilicity. *)
Definition properties : Type := (float * float * float * float * float)%type.

(** * write_electro_nbo.py *)

Module Nbo.

Definition SECTION_HEADER : string :=
  "******************************Gaussian NBO Version 3.1******************************".
Definition TABLE_HEADER : string := " Summary of Natural Population Analysis:".
Definition TABLE_END : string :=
  " =======================================================================".

(** [get_homo_lumo(path)] *)
Definition get_homo_lumo (fs : filesystem) (path : string) : result (float * float) :=
  raw_text <- read_lines fs path ;;
  let pop_indices :=
    indices (contains "Population analysis using the SCF density.") raw_text in
  start <- getitem pop_indices (-1) ;;
  let raw_text := skipn start raw_text in
  occ <- getitem (filter (contains "Alpha  occ. eigenvalues") raw_text) (-1) ;;
  homo_token <- getitem (split_ws occ) (-1) ;;
  homo <- float_of_str homo_token ;;
  virt <- getitem (filter (contains "Alpha virt. eigenvalues") raw_text) 0 ;;
  lumo_token <- getitem (split_ws virt) 4 ;;
  lumo <- float_of_str lumo_token ;;
  Ok (homo, lumo).

(** [get_properties(homo, lumo)] *)
Definition get_properties {L : Libm} (homo lumo : float) : result properties :=
  let kcal_mol_homo := float_mul c27_212 homo in
  let kcal_mol_lumo := float_mul c27_212 lumo in
  electronegativity <-
    float_truediv (float_mul (float_of_int (-1)) (float_add kcal_mol_homo kcal_mol_lumo))
      (float_of_int 2) ;;
  let hardness := float_sub kcal_mol_lumo kcal_mol_homo in
  softness <- float_truediv (float_of_int 1) (float_mul (float_of_int 2) hardness) ;;
  square <- float_pow_2 electronegativity ;;
  global_electrophilicity <-
    float_truediv square (float_mul (float_of_int 2) hardness) ;;
  global_nucleophilicity <- float_truediv (float_of_int 1) global_electrophilicity ;;
  Ok (electronegativity, hardness, softness,
      global_electrophilicity, global_nucleophilicity).

(** The row built from the tokens [entry] of a table line:
    [[f"{entry[0]}{entry[1]}", float(entry[2])]]. *)
Definition make_row (entry : list string) : result atom_charge :=
  e0 <- getitem entry 0 ;;
  e1 <- getitem entry 1 ;;
  e2 <- getitem entry 2 ;;
  q <- float_of_str e2 ;;
  Ok (mk_atom_charge (e0 ++ e1) q []).

(** [entry[0] != "H"] *)
Definition not_hydrogen (entry : list string) : result bool :=
  e0 <- getitem entry 0 ;;
  Ok (negb (String.eqb e0 "H")).

(** [get_charge_table(in_path)] *)
Definition get_charge_table (fs : filesystem) (in_path : string) : result (list atom_charge) :=
  raw_text <- read_lines fs in_path ;;
  let section_start_indices := indices (contains SECTION_HEADER) raw_text in
  section_start <- getitem section_start_indices (-1) ;;
  let raw_text := skipn section_start raw_text in
  let table_start_indices := indices (contains TABLE_HEADER) raw_text in
  table_start <- getitem table_start_indices 0 ;;
  let raw_text := skipn (table_start + 6) raw_text in
  end_index <- getitem (indices (fun x => startswith x TABLE_END) raw_text) 0 ;;
  let raw_text := firstn end_index raw_text in
  let table_text := map split_ws (firstn end_index raw_text) in
  comprehension not_hydrogen make_row table_text.

(** One round of the loop of [combine_tables]. *)
Definition combine_step (neutral_charge_table negative_charge_table
    positive_charge_table : list atom_charge)
    (overall_table : dict (list float)) (i : nat) : result (dict (list float)) :=
  n <- getitem neutral_charge_table (Z.of_nat i) ;;
  a <- getitem negative_charge_table (Z.of_nat i) ;;
  if String.eqb (label n) (label a) then
    c <- getitem positive_charge_table (Z.of_nat i) ;;
    if String.eqb (label n) (label c) then
      Ok (dict_set overall_table (label n)
            [charge n; charge c; charge a;
             float_sub (charge n) (charge c);
             float_sub (charge a) (charge n)])
    else Raise (Exception "Tables do not correspond.")
  else Raise (Exception "Tables do not correspond.").

(** [combine_tables(neutral_charge_table, negative_charge_table,
    positive_charge_table)] *)
Definition combine_tables (neutral_charge_table negative_charge_table
    positive_charge_table : list atom_charge) : result (dict (list float)) :=
  for_each
    (combine_step neutral_charge_table negative_charge_table positive_charge_table)
    (seq 0 (List.length neutral_charge_table)) [].

(** The loop of [write_local_electro] over the keys of the combined
    table: each value gets two more entries. *)
Definition add_local_indices (overall_table : dict (list float))
    (global_electrophilicity global_nucleophilicity : float) : result (dict (list float)) :=
  map_result
    (fun kv : string * list float =>
       x <- getitem (snd kv) 2 ;;
       y <- getitem (snd kv) 2 ;;
       Ok (fst kv, snd kv ++ [float_mul x global_nucleophilicity;
                              float_mul y global_electrophilicity]))
    overall_table.

(** [write_local_electro(path)] up to the table it hands to [pandas]:
    one entry per key, the value being the seven numbers of the row. *)
Definition write_local_electro {L : Libm} (fs : filesystem) (path : string)
    : result (dict (list float)) :=
  neutral_charge_table <- get_charge_table fs path ;;
  negative_charge_table <- get_charge_table fs (drop_last4 path ++ "-1.log") ;;
  positive_charge_table <- get_charge_table fs (drop_last4 path ++ "+1.log") ;;
  overall_table <-
    combine_tables neutral_charge_table negative_charge_table positive_charge_table ;;
  hl <- get_homo_lumo fs path ;;
  props <- get_properties (fst hl) (snd hl) ;;
  let '(_, _, _, global_electrophilicity, global_nucleophilicity) := props in
  add_local_indices overall_table global_electrophilicity global_nucleophilicity.

End Nbo.

(** * write_electro_properties.py *)

Module Mulliken.

(** [get_homo_lumo(path)] *)
Definition get_homo_lumo (fs : filesystem) (path : string) : result (float * float) :=
  raw_text <- read_lines fs path ;;
  let pop_indices :=
    indices (contains "Population analysis using the SCF density.") raw_text in
  start <- getitem pop_indices (-1) ;;
  let raw_text := skipn start raw_text in
  occ <- getitem (filter (contains "Alpha  occ. eigenvalues") raw_text) (-1) ;;
  homo_token <- getitem (split_ws occ) (-1) ;;
  homo <- float_of_str homo_token ;;
  virt <- getitem (filter (contains "Alpha virt. eigenvalues") raw_text) 0 ;;
  lumo_token <- getitem (split_ws virt) 4 ;;
  lumo <- float_of_str lumo_token ;;
  Ok (homo, lumo).

(** [get_properties(homo, lumo)] *)
Definition get_properties {L : Libm} (homo lumo : float) : result properties :=
  let kcal_mol_homo := float_mul c27_212 homo in
  let kcal_mol_lumo := float_mul c27_212 lumo in
  electronegativity <-
    float_truediv (float_mul (float_of_int (-1)) (float_add kcal_mol_homo kcal_mol_lumo))
      (float_of_int 2) ;;
  let hardness := float_sub kcal_mol_lumo kcal_mol_homo in
  softness <- float_truediv (float_of_int 1) (float_mul (float_of_int 2) hardness) ;;
  square <- float_pow_2 electronegativity ;;
  global_electrophilicity <-
    float_truediv square (float_mul (float_of_int 2) hardness) ;;
  global_nucleophilicity <- float_truediv (float_of_int 1) global_electrophilicity ;;
  Ok (electronegativity, hardness, softness,
      global_electrophilicity, global_nucleophilicity).

(** [line[0] != "H"] *)
Definition not_hydrogen (line : list string) : result bool :=
  e0 <- getitem line 0 ;;
  Ok (negb (String.eqb e0 "H")).

(** One round of the numbering loop of [get_charge_table]: the charge
    is converted, the count of the element goes up by one ([KeyError]
    caught: it starts at one), and the label is the element followed by
    its count. *)
Definition number_row (element_dict : dict nat) (line : list string)
    : result (dict nat * atom_charge) :=
  charge_token <- getitem line 1 ;;
  q <- float_of_str charge_token ;;
  element <- getitem line 0 ;;
  let count :=
    match dict_get element_dict element with
    | Some n => n + 1
    | None => 1
    end in
  Ok (dict_set element_dict element count,
      mk_atom_charge (element ++ str_of_nat count) q (skipn 2 line)).

(** The loop [for i in range(len(table_text))]. *)
Fixpoint number_rows (element_dict : dict nat) (table_text : list (list string))
    : result (list atom_charge) :=
  match table_text with
  | [] => Ok []
  | line :: table_text' =>
      dr <- number_row element_dict line ;;
      rows <- number_rows (fst dr) table_text' ;;
      Ok (snd dr :: rows)
  end.

(** [get_charge_table(in_path)] *)
Definition get_charge_table (fs : filesystem) (in_path : string) : result (list atom_charge) :=
  raw_text <- read_lines fs in_path ;;
  let table_start_indices := indices (contains "Mulliken atomic charges:") raw_text in
  table_start <- getitem table_start_indices (-1) ;;
  let raw_text := skipn (table_start + 2) raw_text in
  end_index <- getitem (indices (fun x => startswith x " Sum") raw_text) 0 ;;
  let table_text := map (fun line => skipn 1 (split_ws line)) (firstn end_index raw_text) in
  table_text <- filter_result not_hydrogen table_text ;;
  number_rows [] table_text.

(** One round of the loop of [combine_tables]. *)
Definition combine_step (neutral_charge_table negative_charge_table
    positive_charge_table : list atom_charge)
    (overall_table : dict (list float)) (i : nat) : result (dict (list float)) :=
  n <- getitem neutral_charge_table (Z.of_nat i) ;;
  a <- getitem negative_charge_table (Z.of_nat i) ;;
  if String.eqb (label n) (label a) then
    c <- getitem positive_charge_table (Z.of_nat i) ;;
    if String.eqb (label n) (label c) then
      Ok (dict_set overall_table (label n)
            [charge n; charge c; charge a;
             float_sub (charge n) (charge c);
             float_sub (charge a) (charge n)])
    else Raise (Exception "Tables do not correspond.")
  else Raise (Exception "Tables do not correspond.").

(** [combine_tables(neutral_charge_table, negative_charge_table,
    positive_charge_table)] *)
Definition combine_tables (neutral_charge_table negative_charge_table
    positive_charge_table : list atom_charge) : result (dict (list float)) :=
  for_each
    (combine_step neutral_charge_table negative_charge_table positive_charge_table)
    (seq 0 (List.length neutral_charge_table)) [].

(** The loop of [write_local_electro] over the keys of the combined
    table. *)
Definition add_local_indices (overall_table : dict (list float))
    (global_electrophilicity global_nucleophilicity : float) : result (dict (list float)) :=
  map_result
    (fun kv : string * list float =>
       x <- getitem (snd kv) 2 ;;
       y <- getitem (snd kv) 2 ;;
       Ok (fst kv, snd kv ++ [float_mul x global_nucleophilicity;
                              float_mul y global_electrophilicity]))
    overall_table.

(** [write_local_electro(path)] up to the table it hands to [pandas]. *)
Definition write_local_electro {L : Libm} (fs : filesystem) (path : string)
    : result (dict (list float)) :=
  neutral_charge_table <- get_charge_table fs path ;;
  negative_charge_table <- get_charge_table fs (drop_last4 path ++ "-1.log") ;;
  positive_charge_table <- get_charge_table fs (drop_last4 path ++ "+1.log") ;;
  overall_table <-
    combine_tables neutral_charge_table negative_charge_table positive_charge_table ;;
  hl <- get_homo_lumo fs path ;;
  props <- get_properties (fst hl) (snd hl) ;;
  let '(_, _, _, global_electrophilicity, global_nucleophilicity) := props in
  add_local_indices overall_table global_electrophilicity global_nucleophilicity.

End Mulliken.

(** * Notions used in the statements *)

(** The loop of [combine_tables] read by recursion on the three tables:
    the rows at the head are compared, the entry is stored, and the
    loop goes on with the tails. *)
Fixpoint combine_rec (n a c : list atom_charge) (acc : dict (list float))
    : result (dict (list float)) :=
  match n with
  | [] => Ok acc
  | x :: n' =>
      match a with
      | [] => Raise IndexError
      | y :: a' =>
          if String.eqb (label x) (label y) then
            match c with
            | [] => Raise IndexError
            | z :: c' =>
                if String.eqb (label x) (label z) then
                  combine_rec n' a' c'
                    (dict_set acc (label x)
                       [charge x; charge z; charge y;
                        float_sub (charge x) (charge z);
                        float_sub (charge y) (charge x)])
                else Raise (Exception "Tables do not correspond.")
            end
          else Raise (Exception "Tables do not correspond.")
      end
  end.

(** A row with the label [l] and the charge [q]. *)
Definition atom (l : string) (q : Z) : atom_charge :=
  mk_atom_charge l (float_of_int q) [].

(** The electronegativity and the hardness that [get_properties]
    computes on its way, as the scripts write them. *)
Definition electronegativity_of (homo lumo : float) : float :=
  SFdiv prec emax
    (float_mul (float_of_int (-1))
       (float_add (float_mul c27_212 homo) (float_mul c27_212 lumo)))
    (float_of_int 2).

Definition hardness_of (homo lumo : float) : float :=
  float_sub (float_mul c27_212 lumo) (float_mul c27_212 homo).

(** The hardness as the specification writes it, [27.212*(lumo-homo)]. *)
Definition spec_hardness (homo lumo : float) : float :=
  float_mul c27_212 (float_sub lumo homo).

(** A C library for the examples: [pow(x, 2.0)] is the rounded product
    [x * x].  The scripts call [pow] with no other exponent. *)
Definition square_libm : Libm :=
  {| c_pow := fun x _ => (float_mul x x, ENONE) |}.

(** The three markers of [get_homo_lumo]. *)
Definition POPULATION : string := "Population analysis using the SCF density.".
Definition OCCUPIED : string := "Alpha  occ. eigenvalues".
Definition VIRTUAL : string := "Alpha virt. eigenvalues".

(** No line of the text satisfies [p]: the marker is absent. *)
Definition lacks (p : string -> bool) (text : string) : Prop :=
  forall line, In line (split_lines text) -> p line = false.

(** Line [i], which is [x], is the last line that satisfies [p]. *)
Definition last_match (p : string -> bool) (lines : list string) (i : nat) (x : string)
    : Prop :=
  nth_error lines i = Some x /\ p x = true /\
  forall j y, i < j -> nth_error lines j = Some y -> p y = false.

(** Line [k], which is [x], is the first line at or after line [i] that
    satisfies [p]. *)
Definition first_match_from (i : nat) (p : string -> bool) (lines : list string)
    (k : nat) (x : string) : Prop :=
  i <= k /\ nth_error lines k = Some x /\ p x = true /\
  forall j y, i <= j -> j < k -> nth_error lines j = Some y -> p y = false.

(** The lines of the charge table that [write_electro_nbo.py] reads:
    the scanning part of its [get_charge_table]. *)
Definition nbo_table_lines (fs : filesystem) (in_path : string) : result (list string) :=
  raw_text <- read_lines fs in_path ;;
  section_start <- getitem (indices (contains Nbo.SECTION_HEADER) raw_text) (-1) ;;
  let raw_text := skipn section_start raw_text in
  table_start <- getitem (indices (contains Nbo.TABLE_HEADER) raw_text) 0 ;;
  let raw_text := skipn (table_start + 6) raw_text in
  end_index <- getitem (indices (fun x => startswith x Nbo.TABLE_END) raw_text) 0 ;;
  Ok (firstn end_index (firstn end_index raw_text)).

(** The lines of the charge table that [write_electro_properties.py]
    reads: the scanning part of its [get_charge_table]. *)
Definition mulliken_table_lines (fs : filesystem) (in_path : string)
    : result (list string) :=
  raw_text <- read_lines fs in_path ;;
  table_start <- getitem (indices (contains "Mulliken atomic charges:") raw_text) (-1) ;;
  let raw_text := skipn (table_start + 2) raw_text in
  end_index <- getitem (indices (fun x => startswith x " Sum") raw_text) 0 ;;
  Ok (firstn end_index raw_text).

(** The row [r] of a table of [write_electro_nbo.py] comes from a line
    of the text whose tokens are an element other than "H", an atom
    number and a charge: its label is the element followed by the atom
    number. *)
Definition nbo_row_of (text : string) (r : atom_charge) : Prop :=
  exists line element number q more,
    In line (split_lines text) /\
    split_ws line = element :: number :: q :: more /\
    element <> "H" /\
    label r = (element ++ number)%string /\
    float_of_str q = Ok (charge r).

(** The row [r] of a table of [write_electro_properties.py] comes from a
    line of the text whose tokens are an index, an element other than
    "H" and a charge: its label is the element followed by a count. *)
Definition mulliken_row_of (text : string) (r : atom_charge) : Prop :=
  exists line index element q more n,
    In line (split_lines text) /\
    split_ws line = index :: element :: q :: more /\
    element <> "H" /\
    label r = (element ++ str_of_nat n)%string /\
    float_of_str q = Ok (charge r).

(** How many of the strings [l] are [e]. *)
Definition occurrences (e : string) (l : list string) : nat :=
  List.length (filter (String.eqb e) l).

(** The element of a row of tokens, its first token. *)
Definition element_of (row : list string) : string := hd "" row.

(** ** Example logs *)

Definition unlines (l : list string) : string := String.concat lf l.

Definition example_orbitals : list string :=
  [" Population analysis using the SCF density.";
   " Alpha  occ. eigenvalues --  -10.20000  -0.50000";
   " Alpha  occ. eigenvalues --   -0.40000  -0.30000";
   " Alpha virt. eigenvalues --    0.10000   0.20000";
   " Alpha virt. eigenvalues --    0.30000   0.40000"].

(** A log with the orbital energies and a natural-population table of
    the given rows. *)
Definition example_nbo_log (rows : list string) : string :=
  unlines
    (example_orbitals ++
     [(" " ++ Nbo.SECTION_HEADER)%string;
      Nbo.TABLE_HEADER;
      "";
      "                                       Natural Population";
      "                Natural  -----------------------------------------------";
      "    Atom  No    Charge         Core      Valence    Rydberg      Total";
      " -----------------------------------------------------------------------"]
     ++ rows ++
     [Nbo.TABLE_END;
      "   * Total *  0.00000"]).

(** A log with the orbital energies and a Mulliken table of the given
    rows. *)
Definition example_mulliken_log (rows : list string) : string :=
  unlines
    (example_orbitals ++
     [" Mulliken atomic charges:";
      "              1"]
     ++ rows ++
     [" Sum of Mulliken atomic charges =   0.00000"]).

(** The files of a molecule: the neutral state at [m.log], the anion at
    [m-1.log], the cation at [m+1.log]. *)
Definition example_files (neutral anion cation : string) : filesystem :=
  fun path =>
    if String.eqb path "m.log" then Some neutral
    else if String.eqb path "m-1.log" then Some anion
    else if String.eqb path "m+1.log" then Some cation
    else None.

Definition example_nbo_files : filesystem :=
  example_files
    (example_nbo_log ["      C    1   -0.25000"; "      H    2    0.12500";
                      "      C    3    0.50000"])
    (example_nbo_log ["      C    1   -0.50000"; "      H    2    0.06250";
                      "      C    3    0.25000"])
    (example_nbo_log ["      C    1    0.25000"; "      H    2    0.25000";
                      "      C    3    0.75000"]).

Definition example_mulliken_files : filesystem :=
  example_files
    (example_mulliken_log ["     1  C   -0.25000"; "     2  H    0.12500";
                           "     3  O    0.50000"; "     4  C    0.12500"])
    (example_mulliken_log ["     1  C   -0.50000"; "     2  H    0.06250";
                           "     3  O    0.25000"; "     4  C    0.06250"])
    (example_mulliken_log ["     1  C    0.25000"; "     2  H    0.25000";
                           "     3  O    0.75000"; "     4  C    0.25000"]).

(** The tables that the two scripts read from the neutral example logs. *)
Definition example_nbo_table : list atom_charge :=
  Eval vm_compute in
    match Nbo.get_charge_table example_nbo_files "m.log" with
    | Ok table => table
    | Raise _ => []
    end.

Definition example_mulliken_table : list atom_charge :=
  Eval vm_compute in
    match Mulliken.get_charge_table example_mulliken_files "m.log" with
    | Ok table => table
    | Raise _ => []
    end.

(** * Notions used in the further properties *)

(** The token rows of the table lines that the parser of
    [write_electro_nbo.py] keeps: those whose first token is not "H". *)
Definition nbo_kept_rows (lines : list string) : list (list string) :=
  filter (fun entry => negb (String.eqb (element_of entry) "H")) (map split_ws lines).

(** The token rows of the table lines that the parser of
    [write_electro_properties.py] keeps: the tokens after the first, where
    the element that follows is not "H". *)
Definition mulliken_kept_rows (lines : list string) : list (list string) :=
  filter (fun row => negb (String.eqb (element_of row) "H"))
    (map (fun line => skipn 1 (split_ws line)) lines).

(** No character of [s] is a decimal digit. *)
Definition digit_free (s : string) : Prop :=
  forall c, In c (list_ascii_of_string s) -> is_digit c = false.

(** The part of [get_homo_lumo] that follows the slice: the two tokens
    of the lines from the anchor on, and their floats. *)
Definition homo_lumo_of_region (region : list string) : result (float * float) :=
  occ <- getitem (filter (contains OCCUPIED) region) (-1) ;;
  homo_token <- getitem (split_ws occ) (-1) ;;
  homo <- float_of_str homo_token ;;
  virt <- getitem (filter (contains VIRTUAL) region) 0 ;;
  lumo_token <- getitem (split_ws virt) 4 ;;
  lumo <- float_of_str lumo_token ;;
  Ok (homo, lumo).

(** The tables read from the anion and the cation example logs. *)
Definition example_mulliken_anion_table : list atom_charge :=
  Eval vm_compute in
    match Mulliken.get_charge_table example_mulliken_files "m-1.log" with
    | Ok table => table
    | Raise _ => []
    end.

Definition example_mulliken_cation_table : list atom_charge :=
  Eval vm_compute in
    match Mulliken.get_charge_table example_mulliken_files "m+1.log" with
    | Ok table => table
    | Raise _ => []
    end.

(** * The output files *)

(** ** [f"{x:.4f}"] *)

(** [n / d] rounded to the nearest integer, a tie going to the even one
    (for [0 <= n] and [0 < d]). *)
Definition round_half_even (n d : Z) : Z :=
  let q := (n / d)%Z in
  let r := (n mod d)%Z in
  if (2 * r <? d)%Z then q
  else if (d <? 2 * r)%Z then (q + 1)%Z
  else if Z.even q then q else (q + 1)%Z.

Definition str_of_N (n : N) : string := NilZero.string_of_uint (N.to_uint n).

(** The last four decimal digits of [n], leading zeros included. *)
Definition four_digits (n : N) : string :=
  String.substring 1 4 (str_of_N (10000 + n mod 10000)).

(** [format(x, ".4f")]: the decimal with four digits after the point that
    is nearest to the exact value of [x], a tie going to the even last
    digit; the sign is that of [x], also where every digit is zero. *)
Definition format_4f (x : float) : string :=
  match x with
  | S754_nan => "nan"
  | S754_infinity s => if s then "-inf" else "inf"
  | S754_zero s => (if s then "-" else "") ++ "0.0000"
  | S754_finite s m e =>
      let q :=
        Z.to_N match e with
               | Zneg p => round_half_even (Zpos m * 10000) (Z.pow_pos 2 p)
               | _ => (Zpos m * 10000 * 2 ^ e)%Z
               end in
      (if s then "-" else "") ++ str_of_N (q / 10000) ++ "." ++ four_digits q
  end%string.

(** ** [f"{x}"] *)

(** [repr(x)], which is what an f-string without a format gives for a
    float: the digits come from the interpreter's [dtoa]. *)
Class FloatRepr : Type := { float_repr : float -> string }.

(** ** Writing a file *)

(** Whether the system lets the script open a path for writing. *)
Class Os : Type := { writable : string -> bool }.

(** The file system where [path] holds [content] ([None]: no file). *)
Definition set_file (fs : filesystem) (path : string) (content : option string)
    : filesystem :=
  fun p => if String.eqb p path then content else fs p.

(** [with open(path, "w") as f: f.write(text)]: [OSError] and no change
    where the path cannot be opened; otherwise the file holds [text]. *)
Definition write_text {O : Os} (fs : filesystem) (path text : string)
    : filesystem * result unit :=
  if writable path then (set_file fs path (Some text), Ok tt)
  else (fs, Raise OSError).

(** ** [pandas] *)

(** [pd.DataFrame.from_dict(table).T.reset_index()], rounded to four
    decimals where [round4] is set, with its columns renamed to [columns]
    and sent [to_csv(target, index=False)], in mode "a" where [append] is
    set.  The library is not part of the scripts: what is known of the
    call is that it works on the target file only.  Given what the target
    holds, the result is what it holds afterwards and how the call
    ended. *)
Class Pandas : Type := {
  to_csv : forall (round4 : bool) (columns : list string) (append : bool)
                  (table : dict (list float)) (target : string)
                  (old : option string), option string * result unit
}.

(** * write_electro_nbo.py, the writers *)

Module NboFiles.

(** The text that [write_global_electro] composes. *)
Definition written_text (path : string) (p : properties) : string :=
  let '(electronegativity, hardness, softness,
        global_electrophilicity, global_nucleophilicity) := p in
  (drop_last4 path ++ lf ++
   "electronegativity," ++ format_4f electronegativity ++ lf ++
   "hardness," ++ format_4f hardness ++ lf ++
   "softness," ++ format_4f softness ++ lf ++
   "global_electrophilicity," ++ format_4f global_electrophilicity ++ lf ++
   "global_nucleophilicity," ++ format_4f global_nucleophilicity ++
   lf ++ lf)%string.

Definition output_path (path : string) : string :=
  (drop_last4 path ++ "_electro.csv")%string.

Definition write_global_electro {L : Libm} {O : Os} (fs : filesystem) (path : string)
    : filesystem * result unit :=
  match (hl <- Nbo.get_homo_lumo fs path ;; Nbo.get_properties (fst hl) (snd hl)) with
  | Raise e => (fs, Raise e)
  | Ok p => write_text fs (output_path path) (written_text path p)
  end.

Definition COLUMNS : list string :=
  ["Element"; "Neutral"; "(N-1)e'S=cation(+1)"; "N+1=anion(-1)"; "f-"; "f+";
   "local_nucleophilicity"; "local_electrophilicity"].

Definition write_local_electro {L : Libm} {P : Pandas} (fs : filesystem) (path : string)
    : filesystem * result unit :=
  match Nbo.write_local_electro fs path with
  | Raise e => (fs, Raise e)
  | Ok overall_table =>
      let target := output_path path in
      let (content, outcome) :=
        to_csv true COLUMNS true overall_table target (fs target) in
      (set_file fs target content, outcome)
  end.

(** The script run on [path], the value of the [--path] argument. *)
Definition main {L : Libm} {O : Os} {P : Pandas} (fs : filesystem) (path : string)
    : filesystem * result unit :=
  let (fs1, outcome) := write_global_electro fs path in
  match outcome with
  | Raise e => (fs1, Raise e)
  | Ok _ => write_local_electro fs1 path
  end.

End NboFiles.

(** * write_electro_properties.py, the writers *)

Module MullikenFiles.

Definition written_text {R : FloatRepr} (p : properties) : string :=
  let '(electronegativity, hardness, softness,
        global_electrophilicity, global_nucleophilicity) := p in
  ("electronegativity; " ++ float_repr electronegativity ++ lf ++
   "hardness; " ++ float_repr hardness ++ lf ++
   "softness; " ++ float_repr softness ++ lf ++
   "global_electrophilicity; " ++ float_repr global_electrophilicity ++ lf ++
   "global_nucleophilicity; " ++ float_repr global_nucleophilicity)%string.

Definition global_path (path : string) : string :=
  (drop_last4 path ++ "_global_electro.txt")%string.

Definition local_path (path : string) : string :=
  (drop_last4 path ++ "_local_electro.txt")%string.

Definition write_global_electro {L : Libm} {R : FloatRepr} {O : Os}
    (fs : filesystem) (path : string) : filesystem * result unit :=
  match (hl <- Mulliken.get_homo_lumo fs path ;;
         Mulliken.get_properties (fst hl) (snd hl)) with
  | Raise e => (fs, Raise e)
  | Ok p => write_text fs (global_path path) (written_text p)
  end.

Definition COLUMNS : list string :=
  ["Element"; "Neutral"; "(N-1)e'S=cation(+1)"; "N+1=anion(-1)"; "f-"; "f+";
   "local_nucleophilicity"; "local_elelectrorphilicity"].

Definition write_local_electro {L : Libm} {P : Pandas} (fs : filesystem) (path : string)
    : filesystem * result unit :=
  match Mulliken.write_local_electro fs path with
  | Raise e => (fs, Raise e)
  | Ok overall_table =>
      let target := local_path path in
      let (content, outcome) :=
        to_csv false COLUMNS false overall_table target (fs target) in
      (set_file fs target content, outcome)
  end.

Definition main {L : Libm} {R : FloatRepr} {O : Os} {P : Pandas}
    (fs : filesystem) (path : string) : filesystem * result unit :=
  let (fs1, outcome) := write_global_electro fs path in
  match outcome with
  | Raise e => (fs1, Raise e)
  | Ok _ => write_local_electro fs1 path
  end.

End MullikenFiles.

(** ** An example platform *)

(** Every path can be written. *)
Definition open_os : Os := {| writable := fun _ => true |}.

(** A stand-in for [pandas] in the examples: it appends or writes one
    line per entry of the table, the key only. *)
Definition keys_pandas : Pandas :=
  {| to_csv := fun _ _ append table _ old =>
       (Some ((if append then match old with Some t => t | None => "" end else "")
              ++ String.concat "" (map (fun k => k ++ lf) (keys table)))%string,
        Ok tt) |}.

(** A stand-in for [repr] in the examples: four decimals. *)
Definition short_repr : FloatRepr := {| float_repr := format_4f |}.

(** The global properties of the example logs. *)
Definition example_properties : properties :=
  Eval vm_compute in
    match (hl <- Nbo.get_homo_lumo example_nbo_files "m.log" ;;
           @Nbo.get_properties square_libm (fst hl) (snd hl)) with
    | Ok p => p
    | Raise _ => (S754_nan, S754_nan, S754_nan, S754_nan, S754_nan)
    end.

(** A log whose HOMO and LUMO are the same number. *)
Definition degenerate_log : string :=
  unlines [" Population analysis using the SCF density.";
           " Alpha  occ. eigenvalues --   -0.40000  -0.30000";
           " Alpha virt. eigenvalues --   -0.30000   0.20000"].

(** ** Logs of one atom *)

(** Orbital energies for which the global properties are exact numbers
    and need no [pow]: [27.212 * -0.07349698662354844] is [-2.0] and the
    LUMO is zero, so the electronegativity is 1.0, whose square the
    interpreter answers itself, the hardness is 2.0, the electrophilicity
    0.25 and the nucleophilicity 4.0. *)
Definition exact_orbitals : list string :=
  [" Population analysis using the SCF density.";
   " Alpha  occ. eigenvalues --   -0.50000  -0.07349698662354844";
   " Alpha virt. eigenvalues --    0.00000   0.20000"].

Definition one_atom_nbo_log (q : string) : string :=
  unlines
    (exact_orbitals ++
     [(" " ++ Nbo.SECTION_HEADER)%string;
      Nbo.TABLE_HEADER;
      "";
      "                                       Natural Population";
      "                Natural  -----------------------------------------------";
      "    Atom  No    Charge         Core      Valence    Rydberg      Total";
      " -----------------------------------------------------------------------";
      ("      C    1    " ++ q)%string;
      Nbo.TABLE_END]).

Definition one_atom_mulliken_log (q : string) : string :=
  unlines
    (exact_orbitals ++
     [" Mulliken atomic charges:";
      "              1";
      ("     1  C    " ++ q)%string;
      " Sum of Mulliken atomic charges =   0.00000"]).

(** One carbon atom with the charge 2 in the neutral state, 4 in the
    anion and 1 in the cation. *)
Definition one_atom_nbo_files : filesystem :=
  example_files (one_atom_nbo_log "2.00000") (one_atom_nbo_log "4.00000")
    (one_atom_nbo_log "1.00000").

Definition one_atom_mulliken_files : filesystem :=
  example_files (one_atom_mulliken_log "2.00000") (one_atom_mulliken_log "4.00000")
    (one_atom_mulliken_log "1.00000").

(** ** The table as [pandas] writes it *)

(** What is left to [pandas] and to the [csv] module when a frame is
    written: the text of a number ([number_text true] after
    [round(4)]), the text of a string field with its quoting, and the
    line terminator. *)
Record csv_style : Type := {
  number_text : bool -> float -> string;
  field_text : string -> string;
  line_end : string
}.

Definition csv_line (style : csv_style) (fields : list string) : string :=
  (String.concat "," fields ++ line_end style)%string.

Definition csv_text (style : csv_style) (rows : list (list string)) : string :=
  String.concat "" (map (csv_line style) rows).

(** The row of an entry of the table: its key, then its numbers. *)
Definition data_row (style : csv_style) (round4 : bool) (entry : string * list float)
    : list string :=
  field_text style (fst entry) :: map (number_text style round4) (snd entry).

(** The calls that the scripts make on a table, as the library carries
    them out.  [DataFrame.from_dict(table).T.reset_index()] is a frame of
    one row per entry, in the order of the dict, with the key in the
    first column and the numbers of the value in the columns after it;
    value lists of different lengths are refused, and an empty table
    gives the key column alone.  Renaming the columns needs as many
    names as there are columns.  Both end in [ValueError], before any
    file is opened.  [to_csv(target, index=False)] then writes the header
    and one line per row, after what the file holds in mode "a", in place
    of it otherwise; a target that cannot be opened is [OSError]. *)
Definition frame_to_csv {O : Os} (style : csv_style) : Pandas :=
  {| to_csv := fun round4 columns append table target old =>
       let width :=
         match table with
         | [] => 1
         | entry :: _ => S (List.length (snd entry))
         end in
       if (forallb (fun entry : string * list float =>
                      S (List.length (snd entry)) =? width)%nat table
           && (width =? List.length columns)%nat)%bool then
         if writable target then
           (Some ((if append then match old with Some t => t | None => "" end
                   else "") ++
                  csv_text style
                    (map (field_text style) columns
                     :: map (data_row style round4) table))%string,
            Ok tt)
         else (old, Raise OSError)
       else (old, Raise ValueError) |}.

(** A style for the examples: numbers with four decimals, fields as they
    are, lines ended by a line feed. *)
Definition plain_style : csv_style :=
  {| number_text := fun _ => format_4f;
     field_text := fun s => s;
     line_end := lf |}.

(** * Properties *)

(** ** Lists and dictionaries *)

Section ListFacts.
Context {A : Type}.

Lemma getitem_nat (l : list A) (i : nat) :
  getitem l (Z.of_nat i) =
  match nth_error l i with
  | Some x => Ok x
  | None => Raise IndexError
  end.
Proof.
  unfold getitem. cbv zeta.
  assert (E : (Z.of_nat i <? 0)%Z = false) by (apply Z.ltb_ge; lia).
  rewrite E. cbv iota. rewrite E. rewrite Nat2Z.id. simpl.
  destruct (Z.leb_spec (Z.of_nat (List.length l)) (Z.of_nat i)) as [H|H].
  - assert (Hn : nth_error l i = None) by (apply nth_error_None; lia).
    rewrite Hn. reflexivity.
  - reflexivity.
Qed.

Lemma getitem_last (l : list A) (x : A) : getitem (l ++ [x]) (-1) = Ok x.
Proof.
  unfold getitem. cbv zeta.
  assert (Hn : Z.of_nat (List.length (l ++ [x])) = (Z.of_nat (List.length l) + 1)%Z)
    by (rewrite length_app; simpl; lia).
  rewrite Hn. clear Hn.
  change (-1 <? 0)%Z with true. cbv iota.
  replace (-1 + (Z.of_nat (List.length l) + 1))%Z with (Z.of_nat (List.length l)) by lia.
  assert (E : (Z.of_nat (List.length l) <? 0)%Z = false) by (apply Z.ltb_ge; lia).
  assert (E' : (Z.of_nat (List.length l) + 1 <=? Z.of_nat (List.length l))%Z = false)
    by (apply Z.leb_gt; lia).
  rewrite E, E'. cbv [orb]. rewrite Nat2Z.id.
  rewrite nth_error_app2 by lia. rewrite Nat.sub_diag. reflexivity.
Qed.

Lemma getitem_nil (i : Z) : getitem (@nil A) i = Raise IndexError.
Proof.
  unfold getitem. cbv zeta. change (Z.of_nat (List.length (@nil A))) with 0%Z.
  destruct (Z.ltb_spec i 0) as [H|H].
  - rewrite Z.add_0_r.
    assert (E : (i <? 0)%Z = true) by (apply Z.ltb_lt; lia).
    rewrite E. reflexivity.
  - assert (E : (i <? 0)%Z = false) by (apply Z.ltb_ge; lia).
    assert (E' : (0 <=? i)%Z = true) by (apply Z.leb_le; lia).
    rewrite E, E'. reflexivity.
Qed.

End ListFacts.

Lemma for_each_ext {A S : Type} (f g : S -> A -> result S) (l : list A) :
  (forall acc x, In x l -> f acc x = g acc x) ->
  forall acc, for_each f l acc = for_each g l acc.
Proof.
  induction l as [|x l IH]; intros Hfg acc; simpl; [reflexivity|].
  rewrite (Hfg acc x) by (left; reflexivity).
  destruct (g acc x); simpl; [|reflexivity].
  apply IH. intros acc' y Hy. apply Hfg. right; exact Hy.
Qed.

Lemma for_each_map {A B S : Type} (f : S -> B -> result S) (h : A -> B) (l : list A) :
  forall acc, for_each f (map h l) acc = for_each (fun s x => f s (h x)) l acc.
Proof.
  induction l as [|x l IH]; intros acc; simpl; [reflexivity|].
  destruct (f acc (h x)); simpl; [apply IH|reflexivity].
Qed.

Section DictFacts.
Context {V : Type}.

Lemma dict_get_set_same (d : dict V) (k : string) (v : V) :
  dict_get (dict_set d k v) k = Some v.
Proof.
  induction d as [|[k' v'] d IH]; simpl.
  - rewrite String.eqb_refl. reflexivity.
  - destruct (String.eqb k' k) eqn:E; simpl; rewrite E; [reflexivity|exact IH].
Qed.

Lemma dict_get_set_other (d : dict V) (k k0 : string) (v : V) :
  k <> k0 -> dict_get (dict_set d k v) k0 = dict_get d k0.
Proof.
  intros Hk. induction d as [|[k' v'] d IH]; simpl.
  - destruct (String.eqb_spec k k0); [contradiction|reflexivity].
  - destruct (String.eqb_spec k' k) as [->|Hne]; simpl.
    + destruct (String.eqb_spec k k0); [contradiction|reflexivity].
    + destruct (String.eqb_spec k' k0); [reflexivity|exact IH].
Qed.

Lemma dict_set_fresh (d : dict V) (k : string) (v : V) :
  ~ In k (keys d) -> dict_set d k v = d ++ [(k, v)].
Proof.
  induction d as [|[k' v'] d IH]; simpl; intros Hk; [reflexivity|].
  destruct (String.eqb_spec k' k) as [->|Hne].
  - exfalso. apply Hk. left; reflexivity.
  - rewrite IH; [reflexivity|]. intros Hin. apply Hk. right; exact Hin.
Qed.

Lemma dict_set_keys_incl (d : dict V) (k : string) (v : V) (k0 : string) :
  In k0 (keys (dict_set d k v)) -> k0 = k \/ In k0 (keys d).
Proof.
  induction d as [|[k' v'] d IH]; simpl.
  - intros [H|[]]. left; symmetry; exact H.
  - destruct (String.eqb_spec k' k) as [->|Hne]; simpl.
    + intros [H|H]; [left; symmetry; exact H|right; right; exact H].
    + intros [H|H]; [right; left; exact H|].
      destruct (IH H) as [H1|H1]; [left; exact H1|right; right; exact H1].
Qed.

Lemma dict_set_In (d : dict V) (k : string) (v : V) (kv : string * V) :
  In kv (dict_set d k v) -> kv = (k, v) \/ In kv d.
Proof.
  induction d as [|[k' v'] d IH]; simpl.
  - intros [H|[]]. left; symmetry; exact H.
  - destruct (String.eqb_spec k' k) as [->|Hne]; simpl.
    + intros [H|H]; [left; symmetry; exact H|right; right; exact H].
    + intros [H|H]; [right; left; exact H|].
      destruct (IH H) as [H1|H1]; [left; exact H1|right; right; exact H1].
Qed.

End DictFacts.

Lemma for_each_invariant {A S : Type} (I : S -> Prop) (body : S -> A -> result S)
    (l : list A) :
  (forall acc x acc', In x l -> I acc -> body acc x = Ok acc' -> I acc') ->
  forall acc r, I acc -> for_each body l acc = Ok r -> I r.
Proof.
  induction l as [|x l IH]; intros Hstep acc r Hacc Hrun; simpl in Hrun.
  - injection Hrun as <-. exact Hacc.
  - destruct (body acc x) as [acc'|e] eqn:Hb; simpl in Hrun; [|discriminate].
    apply (IH (fun s y s' Hy => Hstep s y s' (or_intror Hy)) acc' r); [|exact Hrun].
    apply (Hstep acc x acc'); [left; reflexivity|exact Hacc|exact Hb].
Qed.

(** ** The combiner *)

Lemma combine_step_same n a c acc i :
  Mulliken.combine_step n a c acc i = Nbo.combine_step n a c acc i.
Proof. reflexivity. Qed.

Lemma combine_tables_same n a c :
  Mulliken.combine_tables n a c = Nbo.combine_tables n a c.
Proof. reflexivity. Qed.

Lemma add_local_indices_same d ge gn :
  Mulliken.add_local_indices d ge gn = Nbo.add_local_indices d ge gn.
Proof. reflexivity. Qed.

Lemma combine_step_shift x n y a z c acc i :
  Nbo.combine_step (x :: n) (y :: a) (z :: c) acc (S i) = Nbo.combine_step n a c acc i.
Proof.
  unfold Nbo.combine_step. rewrite !getitem_nat. reflexivity.
Qed.

Lemma combine_loop_rec n : forall a c acc,
  for_each (Nbo.combine_step n a c) (seq 0 (List.length n)) acc = combine_rec n a c acc.
Proof.
  induction n as [|x n IH]; intros a c acc; [reflexivity|].
  cbn [List.length seq for_each combine_rec].
  unfold Nbo.combine_step at 1.
  change 0%Z with (Z.of_nat 0). rewrite !getitem_nat.
  cbn [nth_error bind].
  destruct a as [|y a]; [reflexivity|]. cbn [nth_error bind].
  destruct (String.eqb (label x) (label y)); [|reflexivity].
  destruct c as [|z c]; [reflexivity|]. cbn [nth_error bind].
  destruct (String.eqb (label x) (label z)); [|reflexivity].
  cbn [bind].
  rewrite <- seq_shift, for_each_map.
  rewrite (for_each_ext _ (Nbo.combine_step n a c)).
  - apply IH.
  - intros acc' i _. apply combine_step_shift.
Qed.

Lemma combine_tables_rec n a c : Nbo.combine_tables n a c = combine_rec n a c [].
Proof. apply combine_loop_rec. Qed.

(** When the three tables agree on distinct labels, the loop appends one
    entry per row. *)
Lemma combine_rec_distinct n : forall a c acc,
  List.length a = List.length n -> List.length c = List.length n ->
  (forall i x y z, nth_error n i = Some x -> nth_error a i = Some y ->
     nth_error c i = Some z -> label x = label y /\ label x = label z) ->
  NoDup (keys acc ++ map label n) ->
  exists d, combine_rec n a c acc = Ok (acc ++ d) /\
    List.length d = List.length n /\
    forall i x y z, nth_error n i = Some x -> nth_error a i = Some y ->
      nth_error c i = Some z ->
      nth_error d i =
        Some (label x, [charge x; charge z; charge y;
                        float_sub (charge x) (charge z);
                        float_sub (charge y) (charge x)]).
Proof.
  induction n as [|x n IH]; intros a c acc Ha Hc Hlab Hnd.
  - exists []. rewrite app_nil_r. split; [reflexivity|]. split; [reflexivity|].
    intros [|i] ? ? ? H; discriminate H.
  - destruct a as [|y a]; [discriminate Ha|].
    destruct c as [|z c]; [discriminate Hc|].
    destruct (Hlab 0 x y z eq_refl eq_refl eq_refl) as [Hxy Hxz].
    cbn [combine_rec]. rewrite <- Hxy, <- Hxz, String.eqb_refl.
    assert (Hfresh : ~ In (label x) (keys acc)).
    { intros Hin. apply NoDup_remove_2 in Hnd. apply Hnd.
      apply in_or_app. left; exact Hin. }
    rewrite (dict_set_fresh _ _ _ Hfresh).
    destruct (IH a c
                (acc ++ [(label x, [charge x; charge z; charge y;
                                    float_sub (charge x) (charge z);
                                    float_sub (charge y) (charge x)])]))
      as [d [Hd [Hlen Hnth]]].
    + simpl in Ha. lia.
    + simpl in Hc. lia.
    + intros i x' y' z' Hx' Hy' Hz'. apply (Hlab (S i)); assumption.
    + unfold keys in *. rewrite map_app. simpl. rewrite <- app_assoc. exact Hnd.
    + eexists (_ :: d). split; [|split].
      * rewrite Hd, <- app_assoc. reflexivity.
      * simpl. rewrite Hlen. reflexivity.
      * intros [|i] x' y' z' Hx' Hy' Hz'; simpl in *.
        -- injection Hx' as <-. injection Hy' as <-. injection Hz' as <-. reflexivity.
        -- apply Hnth; assumption.
Qed.

Lemma combine_rec_mismatch n : forall a c acc i x,
  nth_error n i = Some x ->
  match nth_error a i, nth_error c i with
  | Some y, Some z => label x <> label y \/ label x <> label z
  | _, _ => True
  end ->
  exists e, combine_rec n a c acc = Raise e /\
    (e = Exception "Tables do not correspond." \/ e = IndexError).
Proof.
  induction n as [|x0 n IH]; intros a c acc i x Hx Hbad.
  - destruct i; discriminate Hx.
  - cbn [combine_rec].
    destruct a as [|y a]; [eexists; split; [reflexivity|right; reflexivity]|].
    destruct (String.eqb_spec (label x0) (label y)) as [Hxy|Hxy];
      [|eexists; split; [reflexivity|left; reflexivity]].
    destruct c as [|z c]; [eexists; split; [reflexivity|right; reflexivity]|].
    destruct (String.eqb_spec (label x0) (label z)) as [Hxz|Hxz];
      [|eexists; split; [reflexivity|left; reflexivity]].
    destruct i as [|i].
    + simpl in Hx, Hbad. injection Hx as <-. destruct Hbad; contradiction.
    + simpl in Hx, Hbad. apply (IH a c _ i x Hx Hbad).
Qed.

(** C4, as stated, fails: two rows with the same label end in one entry
    of the dictionary, so three tables of length 2 with identical labels
    at each index give 1 entry. *)
Lemma combine_tables_duplicate_label :
  List.length [atom "C1" 1; atom "C1" 2] = 2 /\
  (exists d,
     Nbo.combine_tables [atom "C1" 1; atom "C1" 2] [atom "C1" 1; atom "C1" 2]
       [atom "C1" 1; atom "C1" 2] = Ok d /\ List.length d = 1) /\
  (exists d,
     Mulliken.combine_tables [atom "C1" 1; atom "C1" 2] [atom "C1" 1; atom "C1" 2]
       [atom "C1" 1; atom "C1" 2] = Ok d /\ List.length d = 1).
Proof.
  split; [reflexivity|].
  split; eexists; (split; [vm_compute; reflexivity|reflexivity]).
Qed.

(** C4 (amended): for three charge tables of equal length N with
    identical labels at each index, the labels being pairwise distinct,
    [combine_tables] of either script returns exactly N entries, and the
    entry of the atom at index i holds the neutral, cation and anion
    charges followed by f_minus = neutral - cation and
    f_plus = anion - neutral. *)
Theorem combine_tables_entries (neutral anion cation : list atom_charge) :
  List.length anion = List.length neutral ->
  List.length cation = List.length neutral ->
  (forall i x y z, nth_error neutral i = Some x -> nth_error anion i = Some y ->
     nth_error cation i = Some z -> label x = label y /\ label x = label z) ->
  NoDup (map label neutral) ->
  exists d,
    Nbo.combine_tables neutral anion cation = Ok d /\
    Mulliken.combine_tables neutral anion cation = Ok d /\
    List.length d = List.length neutral /\
    forall i x y z, nth_error neutral i = Some x -> nth_error anion i = Some y ->
      nth_error cation i = Some z ->
      nth_error d i =
        Some (label x, [charge x; charge z; charge y;
                        float_sub (charge x) (charge z);
                        float_sub (charge y) (charge x)]).
Proof.
  intros Ha Hc Hlab Hnd.
  destruct (combine_rec_distinct neutral anion cation [] Ha Hc Hlab Hnd)
    as [d [Hd [Hlen Hnth]]].
  exists d. change (Mulliken.combine_tables neutral anion cation)
    with (Nbo.combine_tables neutral anion cation).
  rewrite combine_tables_rec.
  repeat split; assumption.
Qed.

Lemma combine_tables_entries_witness :
  exists d,
    Nbo.combine_tables [atom "C1" 1; atom "N1" 2] [atom "C1" 3; atom "N1" 4]
      [atom "C1" 5; atom "N1" 6] = Ok d /\
    Mulliken.combine_tables [atom "C1" 1; atom "N1" 2] [atom "C1" 3; atom "N1" 4]
      [atom "C1" 5; atom "N1" 6] = Ok d /\
    List.length d = 2 /\
    forall i x y z, nth_error [atom "C1" 1; atom "N1" 2] i = Some x ->
      nth_error [atom "C1" 3; atom "N1" 4] i = Some y ->
      nth_error [atom "C1" 5; atom "N1" 6] i = Some z ->
      nth_error d i =
        Some (label x, [charge x; charge z; charge y;
                        float_sub (charge x) (charge z);
                        float_sub (charge y) (charge x)]).
Proof.
  apply (combine_tables_entries [atom "C1" 1; atom "N1" 2] [atom "C1" 3; atom "N1" 4]
           [atom "C1" 5; atom "N1" 6]).
  - reflexivity.
  - reflexivity.
  - intros [|[|[|i]]] x y z Hx Hy Hz; simpl in Hx, Hy, Hz; try discriminate Hx;
      injection Hx as <-; injection Hy as <-; injection Hz as <-;
      split; reflexivity.
  - simpl. constructor.
    + intros [H|[]]. discriminate H.
    + constructor; [intros []|constructor].
Defined.

(** C2, as stated, fails twice over.  Anion and cation tables longer than
    the neutral one are combined without any error, the rows beyond the
    neutral table being ignored; and the exception raised on a differing
    label carries a fixed text that names neither the position nor a
    label. *)
Lemma combine_tables_longer_tables :
  List.length [atom "C1" 1] <> List.length [atom "C1" 2; atom "N1" 3] /\
  (exists d, Nbo.combine_tables [atom "C1" 1] [atom "C1" 2; atom "N1" 3]
               [atom "C1" 4; atom "N1" 5] = Ok d /\ List.length d = 1) /\
  (exists d, Mulliken.combine_tables [atom "C1" 1] [atom "C1" 2; atom "N1" 3]
               [atom "C1" 4; atom "N1" 5] = Ok d /\ List.length d = 1) /\
  Nbo.combine_tables [atom "C1" 1] [atom "N1" 2] [atom "C1" 3]
    = Raise (Exception "Tables do not correspond.") /\
  Mulliken.combine_tables [atom "C1" 1] [atom "N1" 2] [atom "C1" 3]
    = Raise (Exception "Tables do not correspond.") /\
  contains "C1" "Tables do not correspond." = false /\
  contains "N1" "Tables do not correspond." = false /\
  contains "0" "Tables do not correspond." = false.
Proof.
  split; [discriminate|].
  split; [eexists; split; [vm_compute; reflexivity|reflexivity]|].
  split; [eexists; split; [vm_compute; reflexivity|reflexivity]|].
  repeat split; vm_compute; reflexivity.
Qed.

(** The exception of the first position at which the tables do not
    correspond: the test compares the anion row first, and looks at the
    cation row only when the anion label is the neutral one. *)
Lemma combine_rec_first_mismatch n : forall a c acc i x,
  nth_error n i = Some x ->
  match nth_error a i, nth_error c i with
  | Some y, Some z => label x <> label y \/ label x <> label z
  | _, _ => True
  end ->
  (forall j x', j < i -> nth_error n j = Some x' ->
     exists y z, nth_error a j = Some y /\ nth_error c j = Some z /\
                 label x' = label y /\ label x' = label z) ->
  combine_rec n a c acc
  = Raise match nth_error a i with
          | None => IndexError
          | Some y =>
              if String.eqb (label x) (label y) then
                match nth_error c i with
                | None => IndexError
                | Some _ => Exception "Tables do not correspond."
                end
              else Exception "Tables do not correspond."
          end.
Proof.
  induction n as [|x0 n IH]; intros a c acc i x Hx Hbad Hfirst.
  - destruct i; discriminate Hx.
  - destruct i as [|i].
    + simpl in Hx. injection Hx as ->. cbn [combine_rec].
      destruct a as [|y a]; [reflexivity|]. cbn [nth_error] in *.
      destruct (String.eqb_spec (label x) (label y)) as [Hxy|Hxy]; [|reflexivity].
      destruct c as [|z c]; [reflexivity|]. cbn [nth_error] in *.
      destruct (String.eqb_spec (label x) (label z)) as [Hxz|Hxz]; [|reflexivity].
      destruct Hbad; contradiction.
    + destruct (Hfirst 0 x0 (Nat.lt_0_succ i) eq_refl) as (y & z & Hy & Hz & Hxy & Hxz).
      destruct a as [|y' a]; [discriminate Hy|]. injection Hy as ->.
      destruct c as [|z' c]; [discriminate Hz|]. injection Hz as ->.
      cbn [combine_rec]. rewrite <- Hxy, <- Hxz, String.eqb_refl.
      cbn [nth_error] in *.
      apply (IH a c _ i x Hx Hbad).
      intros j x' Hj Hx'. apply (Hfirst (S j) x'); [lia|exact Hx'].
Qed.

(** C2 (amended): if at some position of the neutral table the anion or
    the cation table has no row, or a row with another label, then
    [combine_tables] of either script raises and returns no table, not a
    partial one.  The exception is [Exception("Tables do not
    correspond.")] or [IndexError]; neither names a position or a label.
    Which of the two is decided at the first such position, by the test
    read from left to right: [IndexError] where the anion table has no
    row; the [Exception] where the anion label differs, the cation table
    not being looked at; with the anion label equal, [IndexError] where
    the cation table has no row and the [Exception] where its label
    differs.  Rows of the anion and cation tables beyond the length of
    the neutral table are not looked at. *)
Theorem combine_tables_mismatch_raises (neutral anion cation : list atom_charge)
    (i : nat) (x : atom_charge) :
  nth_error neutral i = Some x ->
  match nth_error anion i, nth_error cation i with
  | Some y, Some z => label x <> label y \/ label x <> label z
  | _, _ => True
  end ->
  exists e,
    Nbo.combine_tables neutral anion cation = Raise e /\
    Mulliken.combine_tables neutral anion cation = Raise e /\
    (e = Exception "Tables do not correspond." \/ e = IndexError) /\
    ((forall j x', j < i -> nth_error neutral j = Some x' ->
        exists y z, nth_error anion j = Some y /\ nth_error cation j = Some z /\
                    label x' = label y /\ label x' = label z) ->
     e = match nth_error anion i with
         | None => IndexError
         | Some y =>
             if String.eqb (label x) (label y) then
               match nth_error cation i with
               | None => IndexError
               | Some _ => Exception "Tables do not correspond."
               end
             else Exception "Tables do not correspond."
         end).
Proof.
  intros Hx Hbad.
  destruct (combine_rec_mismatch neutral anion cation [] i x Hx Hbad) as [e [He Hk]].
  exists e. change (Mulliken.combine_tables neutral anion cation)
    with (Nbo.combine_tables neutral anion cation).
  rewrite combine_tables_rec.
  split; [exact He|]. split; [exact He|]. split; [exact Hk|].
  intros Hfirst.
  rewrite (combine_rec_first_mismatch neutral anion cation [] i x Hx Hbad Hfirst) in He.
  injection He as <-. reflexivity.
Qed.

Lemma combine_tables_mismatch_raises_witness :
  exists e,
    Nbo.combine_tables [atom "C1" 1; atom "C2" 2] [atom "C1" 3; atom "N1" 4]
      [atom "C1" 5] = Raise e /\
    Mulliken.combine_tables [atom "C1" 1; atom "C2" 2] [atom "C1" 3; atom "N1" 4]
      [atom "C1" 5] = Raise e /\
    (e = Exception "Tables do not correspond." \/ e = IndexError) /\
    ((forall j x', j < 1 -> nth_error [atom "C1" 1; atom "C2" 2] j = Some x' ->
        exists y z, nth_error [atom "C1" 3; atom "N1" 4] j = Some y /\
                    nth_error [atom "C1" 5] j = Some z /\
                    label x' = label y /\ label x' = label z) ->
     e = Exception "Tables do not correspond.").
Proof.
  apply (combine_tables_mismatch_raises [atom "C1" 1; atom "C2" 2]
           [atom "C1" 3; atom "N1" 4] [atom "C1" 5] 1 (atom "C2" 2)).
  - reflexivity.
  - simpl. exact I.
Defined.

(** Every entry of the combined table comes from one position of the
    three tables. *)
Lemma combine_tables_entry_origin n a c ov :
  Nbo.combine_tables n a c = Ok ov ->
  forall k v, In (k, v) ov ->
  exists i x y z,
    nth_error n i = Some x /\ nth_error a i = Some y /\ nth_error c i = Some z /\
    label x = k /\ label y = k /\ label z = k /\
    v = [charge x; charge z; charge y;
         float_sub (charge x) (charge z); float_sub (charge y) (charge x)].
Proof.
  unfold Nbo.combine_tables. intros Hrun.
  refine (for_each_invariant
            (fun acc => forall k v, In (k, v) acc -> _) _ _ _ [] ov _ Hrun).
  - intros acc i acc' _ Hacc Hstep k v Hin.
    unfold Nbo.combine_step in Hstep. rewrite !getitem_nat in Hstep.
    destruct (nth_error n i) as [x|] eqn:Hx; [|discriminate Hstep].
    destruct (nth_error a i) as [y|] eqn:Hy; [|discriminate Hstep].
    cbn [bind] in Hstep.
    destruct (String.eqb_spec (label x) (label y)) as [Hxy|]; [|discriminate Hstep].
    destruct (nth_error c i) as [z|] eqn:Hz; [|discriminate Hstep].
    cbn [bind] in Hstep.
    destruct (String.eqb_spec (label x) (label z)) as [Hxz|]; [|discriminate Hstep].
    injection Hstep as <-.
    apply dict_set_In in Hin. destruct Hin as [Heq|Hin].
    + injection Heq as -> ->. exists i, x, y, z.
      repeat split; try assumption; try reflexivity; symmetry; assumption.
    + apply Hacc. exact Hin.
  - intros k v [].
Qed.

Lemma add_local_indices_rows (ov : dict (list float)) ge gn :
  (forall k v, In (k, v) ov -> exists q0 q1 q2 q3 q4, v = [q0; q1; q2; q3; q4]) ->
  exists out,
    Nbo.add_local_indices ov ge gn = Ok out /\
    keys out = keys ov /\
    forall k w, In (k, w) out ->
      exists q0 q1 q2 q3 q4, In (k, [q0; q1; q2; q3; q4]) ov /\
        w = [q0; q1; q2; q3; q4; float_mul q2 gn; float_mul q2 ge].
Proof.
  unfold Nbo.add_local_indices.
  induction ov as [|[k0 v0] ov IH]; intros Hshape.
  - exists []. repeat split. intros k w [].
  - destruct (Hshape k0 v0 (or_introl eq_refl)) as (q0 & q1 & q2 & q3 & q4 & ->).
    destruct IH as (out & Hout & Hkeys & Hrows).
    { intros k v Hin. apply (Hshape k v). right; exact Hin. }
    eexists (_ :: out). cbn [map_result]. rewrite Hout.
    split; [reflexivity|]. split.
    + simpl. rewrite Hkeys. reflexivity.
    + intros k w [Heq|Hin].
      * injection Heq as <- <-. exists q0, q1, q2, q3, q4.
        split; [left; reflexivity|reflexivity].
      * destruct (Hrows k w Hin) as (p0 & p1 & p2 & p3 & p4 & Hin' & ->).
        exists p0, p1, p2, p3, p4. split; [right; exact Hin'|reflexivity].
Qed.

(** C1, as stated, fails: the two local indices are the anion charge
    (entry 2 of the row) times the global index, not f_minus (entry 3)
    times it.  Three logs of one carbon atom, with the charge 2 in the
    neutral state, 1 in the cation and 4 in the anion, and orbital
    energies that give the neutral state the electrophilicity 0.25 and
    the nucleophilicity 4 on every platform: [write_local_electro] of
    either script ends with the row [2, 1, 4, 1, 2, 16, 1].  f_minus is
    1, so f_minus times the global indices would be 4 and 0.25; the
    local indices of the code are 16 and 1. *)
Lemma local_indices_not_from_f_minus :
  (forall L : Libm,
     (hl <- Nbo.get_homo_lumo one_atom_nbo_files "m.log" ;;
      Nbo.get_properties (fst hl) (snd hl))
     = Ok (float_of_int 1, float_of_int 2,
           SFdiv prec emax (float_of_int 1) (float_of_int 4),
           SFdiv prec emax (float_of_int 1) (float_of_int 4), float_of_int 4)) /\
  (forall L : Libm,
     Nbo.write_local_electro one_atom_nbo_files "m.log"
     = Ok [("C1", [float_of_int 2; float_of_int 1; float_of_int 4;
                   float_of_int 1; float_of_int 2;
                   float_of_int 16; float_of_int 1])]) /\
  (forall L : Libm,
     Mulliken.write_local_electro one_atom_mulliken_files "m.log"
     = Ok [("C1", [float_of_int 2; float_of_int 1; float_of_int 4;
                   float_of_int 1; float_of_int 2;
                   float_of_int 16; float_of_int 1])]) /\
  float_sub (float_of_int 2) (float_of_int 1) = float_of_int 1 /\
  float_mul (float_of_int 1) (float_of_int 4) = float_of_int 4 /\
  float_mul (float_of_int 1) (SFdiv prec emax (float_of_int 1) (float_of_int 4))
  = SFdiv prec emax (float_of_int 1) (float_of_int 4) /\
  float_of_int 16 <> float_of_int 4 /\
  float_of_int 1 <> SFdiv prec emax (float_of_int 1) (float_of_int 4).
Proof.
  split; [intros L; vm_compute; reflexivity|].
  split; [intros L; vm_compute; reflexivity|].
  split; [intros L; vm_compute; reflexivity|].
  repeat split; try (vm_compute; reflexivity); vm_compute; discriminate.
Qed.

(** C1 (amended): for charge tables that [combine_tables] accepts and
    the global indices of the neutral state, the combiner of either
    script gives each atom
    local_nucleophilicity = anion_charge * global_nucleophilicity and
    local_electrophilicity = anion_charge * global_electrophilicity,
    after the neutral, cation and anion charges, f_minus = neutral -
    cation and f_plus = anion - neutral; the local indices are derived
    from the anion charge, from neither f_minus nor f_plus. *)
Theorem local_indices_from_anion_charge (neutral anion cation : list atom_charge)
    (ov : dict (list float)) (global_electrophilicity global_nucleophilicity : float) :
  Nbo.combine_tables neutral anion cation = Ok ov ->
  Mulliken.combine_tables neutral anion cation = Ok ov /\
  exists out,
    Nbo.add_local_indices ov global_electrophilicity global_nucleophilicity = Ok out /\
    Mulliken.add_local_indices ov global_electrophilicity global_nucleophilicity = Ok out /\
    keys out = keys ov /\
    forall k w, In (k, w) out ->
      exists i x y z,
        nth_error neutral i = Some x /\ nth_error anion i = Some y /\
        nth_error cation i = Some z /\
        label x = k /\ label y = k /\ label z = k /\
        w = [charge x; charge z; charge y;
             float_sub (charge x) (charge z); float_sub (charge y) (charge x);
             float_mul (charge y) global_nucleophilicity;
             float_mul (charge y) global_electrophilicity].
Proof.
  intros Hov. split; [exact Hov|].
  pose proof (combine_tables_entry_origin _ _ _ _ Hov) as Horigin.
  destruct (add_local_indices_rows ov global_electrophilicity global_nucleophilicity)
    as (out & Hout & Hkeys & Hrows).
  { intros k v Hin.
    destruct (Horigin k v Hin) as (i & x & y & z & _ & _ & _ & _ & _ & _ & ->).
    do 5 eexists. reflexivity. }
  exists out. split; [exact Hout|]. split; [exact Hout|]. split; [exact Hkeys|].
  intros k w Hin.
  destruct (Hrows k w Hin) as (q0 & q1 & q2 & q3 & q4 & Hin' & ->).
  destruct (Horigin _ _ Hin') as (i & x & y & z & Hx & Hy & Hz & Hlx & Hly & Hlz & Hv).
  injection Hv as -> -> -> -> ->.
  exists i, x, y, z. repeat split; assumption.
Qed.

Lemma local_indices_from_anion_charge_witness :
  Mulliken.combine_tables [atom "C1" 2] [atom "C1" 4] [atom "C1" 1]
  = Ok [("C1", [float_of_int 2; float_of_int 1; float_of_int 4;
                float_of_int 1; float_of_int 2])] /\
  exists out,
    Nbo.add_local_indices
      [("C1", [float_of_int 2; float_of_int 1; float_of_int 4;
               float_of_int 1; float_of_int 2])]
      (SFdiv prec emax (float_of_int 1) (float_of_int 4)) (float_of_int 4) = Ok out /\
    Mulliken.add_local_indices
      [("C1", [float_of_int 2; float_of_int 1; float_of_int 4;
               float_of_int 1; float_of_int 2])]
      (SFdiv prec emax (float_of_int 1) (float_of_int 4)) (float_of_int 4) = Ok out /\
    keys out = keys [("C1", [float_of_int 2; float_of_int 1; float_of_int 4;
                             float_of_int 1; float_of_int 2])] /\
    forall k w, In (k, w) out ->
      exists i x y z,
        nth_error [atom "C1" 2] i = Some x /\ nth_error [atom "C1" 4] i = Some y /\
        nth_error [atom "C1" 1] i = Some z /\
        label x = k /\ label y = k /\ label z = k /\
        w = [charge x; charge z; charge y;
             float_sub (charge x) (charge z); float_sub (charge y) (charge x);
             float_mul (charge y) (float_of_int 4);
             float_mul (charge y) (SFdiv prec emax (float_of_int 1) (float_of_int 4))].
Proof.
  apply (local_indices_from_anion_charge [atom "C1" 2] [atom "C1" 4] [atom "C1" 1]).
  vm_compute. reflexivity.
Defined.

(** ** The two scripts *)

(** C10: the two scripts share the core computation: [get_properties]
    of [write_electro_nbo.py] and of [write_electro_properties.py]
    return the same tuple or raise the same exception for every
    [(homo, lumo)], and so do the two [combine_tables] for every triple
    of charge tables. *)
Theorem scripts_share_core {L : Libm} :
  (forall homo lumo : float,
     Nbo.get_properties homo lumo = Mulliken.get_properties homo lumo) /\
  (forall neutral anion cation : list atom_charge,
     Nbo.combine_tables neutral anion cation
     = Mulliken.combine_tables neutral anion cation).
Proof.
  split.
  - intros homo lumo. unfold Nbo.get_properties, Mulliken.get_properties. reflexivity.
  - intros neutral anion cation.
    unfold Nbo.combine_tables, Mulliken.combine_tables.
    apply for_each_ext. intros acc i _.
    unfold Nbo.combine_step, Mulliken.combine_step. reflexivity.
Qed.

(** ** The global-property calculator *)

Lemma get_properties_same {L : Libm} homo lumo :
  Mulliken.get_properties homo lumo = Nbo.get_properties homo lumo.
Proof. reflexivity. Qed.

Lemma c27_212_literal : float_of_str "27.212" = Ok c27_212.
Proof. vm_compute. reflexivity. Qed.

Lemma truediv_two (x : float) :
  float_truediv x (float_of_int 2) = Ok (SFdiv prec emax x (float_of_int 2)).
Proof. reflexivity. Qed.

Lemma double_zero (x : float) :
  is_zero x = true -> is_zero (float_mul (float_of_int 2) x) = true.
Proof. destruct x as [[|]|[|]| |s m e]; intros H; try discriminate H; reflexivity. Qed.

(** The calculator, unfolded: the first division cannot raise. *)
Lemma get_properties_unfold {L : Libm} homo lumo :
  Nbo.get_properties homo lumo =
  (softness <- float_truediv (float_of_int 1)
                 (float_mul (float_of_int 2) (hardness_of homo lumo)) ;;
   square <- float_pow_2 (electronegativity_of homo lumo) ;;
   global_electrophilicity <-
     float_truediv square (float_mul (float_of_int 2) (hardness_of homo lumo)) ;;
   global_nucleophilicity <- float_truediv (float_of_int 1) global_electrophilicity ;;
   Ok (electronegativity_of homo lumo, hardness_of homo lumo, softness,
       global_electrophilicity, global_nucleophilicity)).
Proof.
  unfold Nbo.get_properties. rewrite truediv_two. reflexivity.
Qed.

(** C3, as stated, fails.  With homo = -1 and lumo = 1 the two converted
    energies differ, yet the electronegativity and with it the
    electrophilicity are zero, and the reciprocal raises
    [ZeroDivisionError] on every platform.  With homo = 1e200 and
    lumo = 2e200 the square of the electronegativity is out of range and
    [OverflowError] is raised, where [pow] is the rounded square.  And
    the hardness that is computed, [27.212*lumo - 27.212*homo], is not
    the binary64 value of [27.212*(lumo-homo)]: at homo = -0.3 and
    lumo = 0.1 the two differ. *)
Lemma get_properties_zero_electrophilicity :
  SFeqb (float_mul c27_212 (float_of_int 1)) (float_mul c27_212 (float_of_int (-1)))
  = false /\
  (forall L : Libm,
     @Nbo.get_properties L (float_of_int (-1)) (float_of_int 1)
     = Raise ZeroDivisionError) /\
  (forall L : Libm,
     @Mulliken.get_properties L (float_of_int (-1)) (float_of_int 1)
     = Raise ZeroDivisionError) /\
  (exists homo lumo,
     float_of_str "1e200" = Ok homo /\ float_of_str "2e200" = Ok lumo /\
     SFeqb (float_mul c27_212 lumo) (float_mul c27_212 homo) = false /\
     @Nbo.get_properties square_libm homo lumo = Raise OverflowError /\
     @Mulliken.get_properties square_libm homo lumo = Raise OverflowError) /\
  (exists homo lumo,
     float_of_str "-0.3" = Ok homo /\ float_of_str "0.1" = Ok lumo /\
     hardness_of homo lumo <> spec_hardness homo lumo).
Proof.
  split; [vm_compute; reflexivity|].
  split; [intros L; vm_compute; reflexivity|].
  split; [intros L; vm_compute; reflexivity|].
  split.
  - eexists. eexists.
    split; [vm_compute; reflexivity|].
    split; [vm_compute; reflexivity|].
    repeat split; vm_compute; reflexivity.
  - eexists. eexists.
    split; [vm_compute; reflexivity|].
    split; [vm_compute; reflexivity|].
    vm_compute. discriminate.
Qed.

(** C3 (amended): for every (homo, lumo) for which the divisor
    [2*hardness] is not zero, the square of the electronegativity does
    not overflow and the electrophilicity is not zero, the calculator of
    either script returns, in binary64 arithmetic,
    electronegativity = (-1*(27.212*homo + 27.212*lumo))/2,
    hardness = 27.212*lumo - 27.212*homo,
    softness = 1/(2*hardness),
    electrophilicity = electronegativity**2/(2*hardness) and
    nucleophilicity = 1/electrophilicity. *)
Theorem get_properties_formulas {L : Libm} (homo lumo square : float) :
  is_zero (float_mul (float_of_int 2) (hardness_of homo lumo)) = false ->
  float_pow_2 (electronegativity_of homo lumo) = Ok square ->
  is_zero (SFdiv prec emax square (float_mul (float_of_int 2) (hardness_of homo lumo)))
  = false ->
  Nbo.get_properties homo lumo =
    Ok (electronegativity_of homo lumo,
        hardness_of homo lumo,
        SFdiv prec emax (float_of_int 1)
          (float_mul (float_of_int 2) (hardness_of homo lumo)),
        SFdiv prec emax square (float_mul (float_of_int 2) (hardness_of homo lumo)),
        SFdiv prec emax (float_of_int 1)
          (SFdiv prec emax square
             (float_mul (float_of_int 2) (hardness_of homo lumo)))) /\
  Mulliken.get_properties homo lumo = Nbo.get_properties homo lumo.
Proof.
  intros Hh Hsq Hw. split; [|reflexivity].
  rewrite get_properties_unfold. unfold float_truediv.
  rewrite Hh. cbn [bind]. rewrite Hsq. cbn [bind]. rewrite Hw. reflexivity.
Qed.

Lemma get_properties_formulas_witness :
  @Nbo.get_properties square_libm (float_of_int (-1)) (float_of_int 2) =
    Ok (electronegativity_of (float_of_int (-1)) (float_of_int 2),
        hardness_of (float_of_int (-1)) (float_of_int 2),
        SFdiv prec emax (float_of_int 1)
          (float_mul (float_of_int 2)
             (hardness_of (float_of_int (-1)) (float_of_int 2))),
        SFdiv prec emax
          (float_mul (electronegativity_of (float_of_int (-1)) (float_of_int 2))
             (electronegativity_of (float_of_int (-1)) (float_of_int 2)))
          (float_mul (float_of_int 2)
             (hardness_of (float_of_int (-1)) (float_of_int 2))),
        SFdiv prec emax (float_of_int 1)
          (SFdiv prec emax
             (float_mul (electronegativity_of (float_of_int (-1)) (float_of_int 2))
                (electronegativity_of (float_of_int (-1)) (float_of_int 2)))
             (float_mul (float_of_int 2)
                (hardness_of (float_of_int (-1)) (float_of_int 2))))) /\
  @Mulliken.get_properties square_libm (float_of_int (-1)) (float_of_int 2)
  = @Nbo.get_properties square_libm (float_of_int (-1)) (float_of_int 2).
Proof.
  apply (@get_properties_formulas square_libm (float_of_int (-1)) (float_of_int 2)).
  - vm_compute. reflexivity.
  - vm_compute. reflexivity.
  - vm_compute. reflexivity.
Defined.

(** C5, as stated, fails: the hardness as written, [27.212*(lumo-homo)],
    can be zero where the hardness the code computes,
    [27.212*lumo - 27.212*homo], is not.  For homo = lumo = 1e308 the
    two products overflow to infinity, their difference is a NaN, and
    [get_properties] of either script returns an infinity and four NaN
    on every platform, raising nothing. *)
Lemma get_properties_overflowing_hardness :
  float_of_str "1e308" = Ok (S754_finite false 5010420900022432 971) /\
  is_zero (spec_hardness (S754_finite false 5010420900022432 971)
             (S754_finite false 5010420900022432 971)) = true /\
  hardness_of (S754_finite false 5010420900022432 971)
    (S754_finite false 5010420900022432 971) = S754_nan /\
  (forall L : Libm,
     Nbo.get_properties (S754_finite false 5010420900022432 971)
       (S754_finite false 5010420900022432 971)
     = Ok (S754_infinity true, S754_nan, S754_nan, S754_nan, S754_nan)) /\
  (forall L : Libm,
     Mulliken.get_properties (S754_finite false 5010420900022432 971)
       (S754_finite false 5010420900022432 971)
     = Ok (S754_infinity true, S754_nan, S754_nan, S754_nan, S754_nan)).
Proof.
  split; [vm_compute; reflexivity|].
  split; [vm_compute; reflexivity|].
  split; [vm_compute; reflexivity|].
  split; intros L; vm_compute; reflexivity.
Qed.

(** C5 (amended): for every (homo, lumo) for which the hardness that the
    code computes, [27.212*lumo - 27.212*homo], is zero, the calculator
    of either script raises [ZeroDivisionError], the interpreter's error
    of a zero denominator (the scripts have no error class of their
    own), and so returns nothing, no infinity and no NaN; when the
    electrophilicity is zero, computing the nucleophilicity raises the
    same error. *)
Theorem get_properties_zero_denominator {L : Libm} (homo lumo : float) :
  is_zero (hardness_of homo lumo) = true \/
  (exists square,
     float_pow_2 (electronegativity_of homo lumo) = Ok square /\
     is_zero (SFdiv prec emax square
                (float_mul (float_of_int 2) (hardness_of homo lumo))) = true) ->
  Nbo.get_properties homo lumo = Raise ZeroDivisionError /\
  Mulliken.get_properties homo lumo = Raise ZeroDivisionError.
Proof.
  intros H.
  assert (Hn : Nbo.get_properties homo lumo = Raise ZeroDivisionError).
  { rewrite get_properties_unfold. unfold float_truediv.
    destruct H as [Hh|(square & Hsq & Hw)].
    - rewrite (double_zero _ Hh). reflexivity.
    - destruct (is_zero (float_mul (float_of_int 2) (hardness_of homo lumo)));
        [reflexivity|].
      cbn [bind]. rewrite Hsq. cbn [bind]. rewrite Hw. reflexivity. }
  split; [exact Hn|exact Hn].
Qed.

Lemma get_properties_zero_denominator_witness :
  (@Nbo.get_properties square_libm (float_of_int 1) (float_of_int 1)
   = Raise ZeroDivisionError /\
   @Mulliken.get_properties square_libm (float_of_int 1) (float_of_int 1)
   = Raise ZeroDivisionError) /\
  (@Nbo.get_properties square_libm (float_of_int (-1)) (float_of_int 1)
   = Raise ZeroDivisionError /\
   @Mulliken.get_properties square_libm (float_of_int (-1)) (float_of_int 1)
   = Raise ZeroDivisionError).
Proof.
  split.
  - apply (@get_properties_zero_denominator square_libm (float_of_int 1)
             (float_of_int 1)).
    left. vm_compute. reflexivity.
  - apply (@get_properties_zero_denominator square_libm (float_of_int (-1))
             (float_of_int 1)).
    right. exists (S754_zero false). split; vm_compute; reflexivity.
Defined.

(** ** The scanner *)

Lemma getitem_raise {A : Type} (l : list A) (i : Z) (e : exn) :
  getitem l i = Raise e -> e = IndexError.
Proof.
  unfold getitem. cbv zeta.
  destruct (_ || _)%bool; [intros H; injection H as <-; reflexivity|].
  destruct (nth_error l _); [discriminate|].
  intros H; injection H as <-; reflexivity.
Qed.

Lemma float_of_str_raise (s : string) (e : exn) :
  float_of_str s = Raise e -> e = ValueError.
Proof.
  unfold float_of_str.
  destruct (rstrip _); [intros H; injection H as <-; reflexivity|].
  destruct (remove_underscores _ _); [|intros H; injection H as <-; reflexivity].
  destruct (parse_decimal _); [discriminate|].
  destruct (parse_inf_or_nan _); [discriminate|].
  intros H; injection H as <-; reflexivity.
Qed.

Lemma indices_from_none {A : Type} (p : A -> bool) (l : list A) :
  (forall x, In x l -> p x = false) -> forall k, indices_from p k l = [].
Proof.
  induction l as [|x l IH]; intros Hp k; simpl; [reflexivity|].
  rewrite (Hp x (or_introl eq_refl)). apply IH.
  intros y Hy. apply Hp. right; exact Hy.
Qed.

Lemma filter_none {A : Type} (p : A -> bool) (l : list A) :
  (forall x, In x l -> p x = false) -> filter p l = [].
Proof.
  induction l as [|x l IH]; intros Hp; simpl; [reflexivity|].
  rewrite (Hp x (or_introl eq_refl)). apply IH.
  intros y Hy. apply Hp. right; exact Hy.
Qed.

Lemma in_skipn {A : Type} (x : A) (n : nat) (l : list A) :
  In x (skipn n l) -> In x l.
Proof.
  revert l. induction n as [|n IH]; intros l; simpl; [auto|].
  destruct l as [|y l]; [auto|]. intros H. right. apply IH. exact H.
Qed.

Lemma in_firstn {A : Type} (x : A) (n : nat) (l : list A) :
  In x (firstn n l) -> In x l.
Proof.
  revert l. induction n as [|n IH]; intros l; simpl; [intros []|].
  destruct l as [|y l]; [auto|]. intros [H|H]; [left; exact H|right; apply IH; exact H].
Qed.

Lemma get_homo_lumo_same fs path :
  Mulliken.get_homo_lumo fs path = Nbo.get_homo_lumo fs path.
Proof. reflexivity. Qed.

(** A missing population or occupied marker stops [get_homo_lumo] at a
    list index. *)
Lemma get_homo_lumo_no_anchor fs path text :
  fs path = Some text ->
  lacks (contains POPULATION) text \/ lacks (contains OCCUPIED) text ->
  Nbo.get_homo_lumo fs path = Raise IndexError.
Proof.
  intros Hfs Hlack. unfold Nbo.get_homo_lumo, read_lines. rewrite Hfs. cbn [bind].
  destruct Hlack as [Hpop|Hocc].
  - unfold indices. rewrite (indices_from_none _ _ Hpop). reflexivity.
  - destruct (getitem _ (-1)) as [start|e] eqn:Hstart; cbn [bind].
    + rewrite filter_none; [reflexivity|].
      intros x Hx. apply Hocc. apply (in_skipn _ _ _ Hx).
    + rewrite (getitem_raise _ _ _ Hstart). reflexivity.
Qed.

Lemma get_homo_lumo_no_virtual fs path text :
  fs path = Some text ->
  lacks (contains VIRTUAL) text ->
  exists e, Nbo.get_homo_lumo fs path = Raise e /\ (e = IndexError \/ e = ValueError).
Proof.
  intros Hfs Hvirt. unfold Nbo.get_homo_lumo, read_lines. rewrite Hfs. cbn [bind].
  destruct (getitem _ (-1)) as [start|e] eqn:Hstart; cbn [bind];
    [|exists e; split; [reflexivity|left; apply (getitem_raise _ _ _ Hstart)]].
  destruct (getitem (filter _ _) (-1)) as [occ|e] eqn:Hocc; cbn [bind];
    [|exists e; split; [reflexivity|left; apply (getitem_raise _ _ _ Hocc)]].
  destruct (getitem (split_ws occ) (-1)) as [tok|e] eqn:Htok; cbn [bind];
    [|exists e; split; [reflexivity|left; apply (getitem_raise _ _ _ Htok)]].
  destruct (float_of_str tok) as [homo|e] eqn:Hhomo; cbn [bind];
    [|exists e; split; [reflexivity|right; apply (float_of_str_raise _ _ Hhomo)]].
  rewrite filter_none.
  - exists IndexError. split; [reflexivity|left; reflexivity].
  - intros x Hx. apply Hvirt. apply (in_skipn _ _ _ Hx).
Qed.

Lemma nbo_get_charge_table_no_marker fs path text :
  fs path = Some text ->
  lacks (contains Nbo.SECTION_HEADER) text \/
  lacks (contains Nbo.TABLE_HEADER) text \/
  lacks (fun x => startswith x Nbo.TABLE_END) text ->
  Nbo.get_charge_table fs path = Raise IndexError.
Proof.
  intros Hfs Hlack. unfold Nbo.get_charge_table, read_lines. rewrite Hfs. cbn [bind].
  destruct (getitem _ (-1)) as [start|e] eqn:Hstart; cbn [bind].
  2: { rewrite (getitem_raise _ _ _ Hstart). reflexivity. }
  destruct Hlack as [Hsec|[Htab|Hend]].
  - unfold indices in Hstart. rewrite (indices_from_none _ _ Hsec) in Hstart.
    discriminate Hstart.
  - unfold indices at 1. rewrite indices_from_none; [reflexivity|].
    intros x Hx. apply Htab. apply (in_skipn _ _ _ Hx).
  - destruct (getitem _ 0) as [tstart|e] eqn:Htstart; cbn [bind].
    2: { rewrite (getitem_raise _ _ _ Htstart). reflexivity. }
    unfold indices at 1. rewrite indices_from_none; [reflexivity|].
    intros x Hx. apply Hend. apply in_skipn in Hx. apply (in_skipn _ _ _ Hx).
Qed.

Lemma mulliken_get_charge_table_no_marker fs path text :
  fs path = Some text ->
  lacks (contains "Mulliken atomic charges:") text \/
  lacks (fun x => startswith x " Sum") text ->
  Mulliken.get_charge_table fs path = Raise IndexError.
Proof.
  intros Hfs Hlack. unfold Mulliken.get_charge_table, read_lines. rewrite Hfs. cbn [bind].
  destruct (getitem _ (-1)) as [start|e] eqn:Hstart; cbn [bind].
  2: { rewrite (getitem_raise _ _ _ Hstart). reflexivity. }
  destruct Hlack as [Htab|Hend].
  - unfold indices in Hstart. rewrite (indices_from_none _ _ Htab) in Hstart.
    discriminate Hstart.
  - unfold indices at 1. rewrite indices_from_none; [reflexivity|].
    intros x Hx. apply Hend. apply (in_skipn _ _ _ Hx).
Qed.

(** C8, as stated, fails: on a log without any marker the extraction
    raises [IndexError], whose text, "list index out of range", names
    neither the marker that was not found nor the path of the file. *)
Lemma missing_marker_error_is_anonymous :
  Nbo.get_homo_lumo (fun _ => Some "") "thiazole.log" = Raise IndexError /\
  Mulliken.get_homo_lumo (fun _ => Some "") "thiazole.log" = Raise IndexError /\
  Nbo.get_charge_table (fun _ => Some "") "thiazole.log" = Raise IndexError /\
  Mulliken.get_charge_table (fun _ => Some "") "thiazole.log" = Raise IndexError /\
  exn_message IndexError = Some "list index out of range" /\
  contains "thiazole.log" "list index out of range" = false /\
  contains POPULATION "list index out of range" = false /\
  contains Nbo.SECTION_HEADER "list index out of range" = false /\
  contains "Mulliken atomic charges:" "list index out of range" = false.
Proof. repeat split; vm_compute; reflexivity. Qed.

(** C8 (amended): for every log in which an expected anchor marker is
    absent, the extraction fails and returns nothing.  [get_homo_lumo]
    raises [IndexError] when the population or the occupied-eigenvalues
    marker is absent, and [IndexError] or, from the HOMO token read
    before, [ValueError] when the virtual-eigenvalues marker is absent;
    [get_charge_table] of either script raises [IndexError] when one of
    its markers is absent.  The [IndexError] is the interpreter's, with
    the text "list index out of range": it names neither the marker nor
    the file path. *)
Theorem missing_marker_raises (fs : filesystem) (path text : string) :
  fs path = Some text ->
  (lacks (contains POPULATION) text \/ lacks (contains OCCUPIED) text ->
   Nbo.get_homo_lumo fs path = Raise IndexError /\
   Mulliken.get_homo_lumo fs path = Raise IndexError) /\
  (lacks (contains VIRTUAL) text ->
   exists e, Nbo.get_homo_lumo fs path = Raise e /\
             Mulliken.get_homo_lumo fs path = Raise e /\
             (e = IndexError \/ e = ValueError)) /\
  (lacks (contains Nbo.SECTION_HEADER) text \/
   lacks (contains Nbo.TABLE_HEADER) text \/
   lacks (fun x => startswith x Nbo.TABLE_END) text ->
   Nbo.get_charge_table fs path = Raise IndexError) /\
  (lacks (contains "Mulliken atomic charges:") text \/
   lacks (fun x => startswith x " Sum") text ->
   Mulliken.get_charge_table fs path = Raise IndexError) /\
  exn_message IndexError = Some "list index out of range".
Proof.
  intros Hfs. split; [|split; [|split; [|split]]].
  - intros H. change (Mulliken.get_homo_lumo fs path) with (Nbo.get_homo_lumo fs path).
    split; apply (get_homo_lumo_no_anchor fs path text Hfs H).
  - intros H. destruct (get_homo_lumo_no_virtual fs path text Hfs H) as [e [He Hk]].
    exists e. change (Mulliken.get_homo_lumo fs path) with (Nbo.get_homo_lumo fs path). repeat split; assumption.
  - apply (nbo_get_charge_table_no_marker fs path text Hfs).
  - apply (mulliken_get_charge_table_no_marker fs path text Hfs).
  - reflexivity.
Qed.

Lemma missing_marker_raises_witness :
  Nbo.get_homo_lumo (fun _ => Some "") "thiazole.log" = Raise IndexError /\
  Mulliken.get_homo_lumo (fun _ => Some "") "thiazole.log" = Raise IndexError.
Proof.
  apply (proj1 (missing_marker_raises (fun _ => Some "") "thiazole.log" "" eq_refl)).
  left. intros line Hin. vm_compute in Hin. destruct Hin as [<-|[]]. reflexivity.
Defined.

Lemma indices_from_app {A : Type} (p : A -> bool) (l1 l2 : list A) :
  forall k, indices_from p k (l1 ++ l2)
            = indices_from p k l1 ++ indices_from p (k + List.length l1) l2.
Proof.
  induction l1 as [|x l1 IH]; intros k; simpl.
  - rewrite Nat.add_0_r. reflexivity.
  - rewrite IH. replace (S k + List.length l1) with (k + S (List.length l1)) by lia.
    destruct (p x); reflexivity.
Qed.

Lemma getitem_head {A : Type} (x : A) (l : list A) : getitem (x :: l) 0 = Ok x.
Proof. change 0%Z with (Z.of_nat 0). rewrite getitem_nat. reflexivity. Qed.

(** The lines after the last match do not match. *)
Lemma last_match_split (p : string -> bool) (lines : list string) (i : nat) (x : string) :
  last_match p lines i x ->
  exists l1 l2, lines = l1 ++ x :: l2 /\ List.length l1 = i /\ p x = true /\
                forall y, In y l2 -> p y = false.
Proof.
  intros (Hx & Hp & Hafter).
  destruct (nth_error_split _ _ Hx) as (l1 & l2 & Hl & Hlen).
  exists l1, l2. repeat split; try assumption.
  intros y Hy. destruct (In_nth_error _ _ Hy) as [j Hj].
  apply (Hafter (i + S j) y); [lia|].
  rewrite Hl, nth_error_app2 by lia.
  replace (i + S j - List.length l1) with (S j) by lia. exact Hj.
Qed.

Lemma first_match_split (i : nat) (p : string -> bool) (lines : list string)
    (k : nat) (x : string) :
  first_match_from i p lines k x ->
  exists l1 l2, lines = l1 ++ x :: l2 /\ List.length l1 = k /\ i <= k /\ p x = true /\
                forall y, In y (skipn i l1) -> p y = false.
Proof.
  intros (Hik & Hx & Hp & Hbefore).
  destruct (nth_error_split _ _ Hx) as (l1 & l2 & Hl & Hlen).
  exists l1, l2. repeat split; try assumption.
  intros y Hy. destruct (In_nth_error _ _ Hy) as [j Hj].
  rewrite nth_error_skipn in Hj.
  assert (Hlt : i + j < List.length l1).
  { apply nth_error_Some. rewrite Hj. discriminate. }
  apply (Hbefore (i + j) y); [lia|lia|].
  rewrite Hl, nth_error_app1 by lia. exact Hj.
Qed.

Lemma indices_last_match (p : string -> bool) (lines : list string) (i : nat) (x : string) :
  last_match p lines i x -> getitem (indices p lines) (-1) = Ok i.
Proof.
  intros H. destruct (last_match_split _ _ _ _ H) as (l1 & l2 & -> & Hlen & Hp & Hl2).
  unfold indices. rewrite indices_from_app. cbn [indices_from]. rewrite Hp.
  rewrite (indices_from_none _ _ Hl2). simpl. rewrite Hlen. apply getitem_last.
Qed.

Lemma filter_last_match (p : string -> bool) (lines : list string) (i j : nat) (x : string) :
  last_match p lines j x -> i <= j ->
  getitem (filter p (skipn i lines)) (-1) = Ok x.
Proof.
  intros H Hij. destruct (last_match_split _ _ _ _ H) as (l1 & l2 & -> & Hlen & Hp & Hl2).
  rewrite skipn_app. replace (i - List.length l1) with 0 by lia.
  cbn [skipn]. rewrite filter_app. cbn [filter]. rewrite Hp.
  rewrite (filter_none _ _ Hl2). apply getitem_last.
Qed.

Lemma filter_first_match (p : string -> bool) (lines : list string) (i k : nat) (x : string) :
  first_match_from i p lines k x ->
  getitem (filter p (skipn i lines)) 0 = Ok x.
Proof.
  intros H.
  destruct (first_match_split _ _ _ _ _ H) as (l1 & l2 & -> & Hlen & Hik & Hp & Hl1).
  rewrite skipn_app. replace (i - List.length l1) with 0 by lia.
  cbn [skipn]. rewrite filter_app. rewrite (filter_none _ _ Hl1).
  cbn [filter app]. rewrite Hp. apply getitem_head.
Qed.

(** C7: in a log that has the markers, the HOMO is parsed from the last
    white-space-delimited token of the last "occupied eigenvalues" line
    at or after the last population-analysis line, and the LUMO from the
    token at zero-based index 4 of the first "virtual eigenvalues" line
    at or after that line: [get_homo_lumo] of either script returns the
    floats of these two tokens, or raises as [float] does on them. *)
Theorem homo_lumo_tokens (fs : filesystem) (path text : string)
    (anchor j k : nat) (anchor_line occupied virtual : string)
    (before : list string) (homo_token lumo_token : string) :
  fs path = Some text ->
  last_match (contains POPULATION) (split_lines text) anchor anchor_line ->
  last_match (contains OCCUPIED) (split_lines text) j occupied ->
  anchor <= j ->
  first_match_from anchor (contains VIRTUAL) (split_lines text) k virtual ->
  split_ws occupied = before ++ [homo_token] ->
  nth_error (split_ws virtual) 4 = Some lumo_token ->
  Nbo.get_homo_lumo fs path
  = (homo <- float_of_str homo_token ;; lumo <- float_of_str lumo_token ;;
     Ok (homo, lumo)) /\
  Mulliken.get_homo_lumo fs path
  = (homo <- float_of_str homo_token ;; lumo <- float_of_str lumo_token ;;
     Ok (homo, lumo)).
Proof.
  intros Hfs Hpop Hocc Hle Hvirt Hhomo Hlumo.
  assert (Hn : Nbo.get_homo_lumo fs path
               = (homo <- float_of_str homo_token ;; lumo <- float_of_str lumo_token ;;
                  Ok (homo, lumo))).
  { unfold Nbo.get_homo_lumo, read_lines. rewrite Hfs. cbn [bind].
    fold POPULATION OCCUPIED VIRTUAL.
    rewrite (indices_last_match _ _ _ _ Hpop). cbn [bind].
    rewrite (filter_last_match _ _ _ _ _ Hocc Hle). cbn [bind].
    rewrite Hhomo, getitem_last. cbn [bind].
    destruct (float_of_str homo_token) as [homo|e]; cbn [bind]; [|reflexivity].
    rewrite (filter_first_match _ _ _ _ _ Hvirt). cbn [bind].
    change 4%Z with (Z.of_nat 4). rewrite getitem_nat, Hlumo. reflexivity. }
  split; [exact Hn|exact Hn].
Qed.

Lemma homo_lumo_tokens_witness :
  Nbo.get_homo_lumo example_nbo_files "m.log"
  = (homo <- float_of_str "-0.30000" ;; lumo <- float_of_str "0.10000" ;;
     Ok (homo, lumo)) /\
  Mulliken.get_homo_lumo example_nbo_files "m.log"
  = (homo <- float_of_str "-0.30000" ;; lumo <- float_of_str "0.10000" ;;
     Ok (homo, lumo)).
Proof.
  apply (homo_lumo_tokens example_nbo_files "m.log"
           (example_nbo_log ["      C    1   -0.25000"; "      H    2    0.12500";
                             "      C    3    0.50000"])
           0 2 3
           " Population analysis using the SCF density."
           " Alpha  occ. eigenvalues --   -0.40000  -0.30000"
           " Alpha virt. eigenvalues --    0.10000   0.20000"
           ["Alpha"; "occ."; "eigenvalues"; "--"; "-0.40000"]
           "-0.30000" "0.10000").
  - reflexivity.
  - split; [reflexivity|]. split; [reflexivity|].
    intros j y Hj Hy.
    do 17 (destruct j as [|j]; [try lia; vm_compute in Hy; injection Hy as <-; reflexivity|]).
    vm_compute in Hy. destruct j; discriminate Hy.
  - split; [reflexivity|]. split; [reflexivity|].
    intros j y Hj Hy.
    do 17 (destruct j as [|j]; [try lia; vm_compute in Hy; injection Hy as <-; reflexivity|]).
    vm_compute in Hy. destruct j; discriminate Hy.
  - lia.
  - split; [lia|]. split; [reflexivity|]. split; [reflexivity|].
    intros j y Hj1 Hj2 Hy.
    do 3 (destruct j as [|j]; [vm_compute in Hy; injection Hy as <-; reflexivity|]).
    lia.
  - reflexivity.
  - reflexivity.
Defined.

(** ** The charge tables *)

Lemma comprehension_In {A B : Type} (p : A -> result bool) (f : A -> result B)
    (l : list A) :
  forall ys, comprehension p f l = Ok ys ->
  forall y, In y ys -> exists x, In x l /\ p x = Ok true /\ f x = Ok y.
Proof.
  induction l as [|x l IH]; intros ys Hrun y Hy; simpl in Hrun.
  - injection Hrun as <-. destruct Hy.
  - destruct (p x) as [[|]|e] eqn:Hp; cbn [bind] in Hrun; [| |discriminate Hrun].
    + destruct (f x) as [y0|e] eqn:Hf; cbn [bind] in Hrun; [|discriminate Hrun].
      destruct (comprehension p f l) as [ys0|e] eqn:Hrest; cbn [bind] in Hrun;
        [|discriminate Hrun].
      injection Hrun as <-. destruct Hy as [<-|Hy].
      * exists x. split; [left; reflexivity|split; assumption].
      * destruct (IH ys0 eq_refl y Hy) as (x' & Hin & Hp' & Hf').
        exists x'. split; [right; exact Hin|split; assumption].
    + destruct (IH ys Hrun y Hy) as (x' & Hin & Hp' & Hf').
      exists x'. split; [right; exact Hin|split; assumption].
Qed.

Lemma nbo_get_charge_table_unfold fs path :
  Nbo.get_charge_table fs path =
  (lines <- nbo_table_lines fs path ;;
   comprehension Nbo.not_hydrogen Nbo.make_row (map split_ws lines)).
Proof.
  unfold Nbo.get_charge_table, nbo_table_lines.
  destruct (read_lines fs path) as [raw|e]; cbn [bind]; [|reflexivity].
  destruct (getitem _ (-1)) as [s|e]; cbn [bind]; [|reflexivity].
  destruct (getitem _ 0) as [t|e]; cbn [bind]; [|reflexivity].
  destruct (getitem _ 0) as [n|e]; cbn [bind]; reflexivity.
Qed.

Lemma mulliken_get_charge_table_unfold fs path :
  Mulliken.get_charge_table fs path =
  (lines <- mulliken_table_lines fs path ;;
   table_text <- filter_result Mulliken.not_hydrogen
                   (map (fun line => skipn 1 (split_ws line)) lines) ;;
   Mulliken.number_rows [] table_text).
Proof.
  unfold Mulliken.get_charge_table, mulliken_table_lines.
  destruct (read_lines fs path) as [raw|e]; cbn [bind]; [|reflexivity].
  destruct (getitem _ (-1)) as [s|e]; cbn [bind]; [|reflexivity].
  destruct (getitem _ 0) as [n|e]; cbn [bind]; reflexivity.
Qed.

Lemma nbo_table_lines_In fs path text lines :
  fs path = Some text -> nbo_table_lines fs path = Ok lines ->
  forall line, In line lines -> In line (split_lines text).
Proof.
  intros Hfs. unfold nbo_table_lines, read_lines. rewrite Hfs. cbn [bind].
  destruct (getitem _ (-1)) as [s|e]; cbn [bind]; [|discriminate].
  destruct (getitem _ 0) as [t|e]; cbn [bind]; [|discriminate].
  destruct (getitem _ 0) as [n|e]; cbn [bind]; [|discriminate].
  intros H line Hin. injection H as <-.
  apply in_firstn, in_firstn, in_skipn, in_skipn in Hin. exact Hin.
Qed.

Lemma mulliken_table_lines_In fs path text lines :
  fs path = Some text -> mulliken_table_lines fs path = Ok lines ->
  forall line, In line lines -> In line (split_lines text).
Proof.
  intros Hfs. unfold mulliken_table_lines, read_lines. rewrite Hfs. cbn [bind].
  destruct (getitem _ (-1)) as [s|e]; cbn [bind]; [|discriminate].
  destruct (getitem _ 0) as [n|e]; cbn [bind]; [|discriminate].
  intros H line Hin. injection H as <-.
  apply in_firstn, in_skipn in Hin. exact Hin.
Qed.

Lemma getitem_0_inv {A : Type} (l : list A) (x : A) :
  getitem l 0 = Ok x -> exists l', l = x :: l'.
Proof.
  destruct l as [|y l]; [rewrite getitem_nil; discriminate|].
  rewrite getitem_head. intros H; injection H as ->. exists l. reflexivity.
Qed.

Lemma nbo_make_row_inv (entry : list string) (r : atom_charge) :
  Nbo.make_row entry = Ok r ->
  exists e0 e1 e2 more,
    entry = e0 :: e1 :: e2 :: more /\ label r = (e0 ++ e1)%string /\
    float_of_str e2 = Ok (charge r) /\ rest r = [].
Proof.
  unfold Nbo.make_row.
  change 0%Z with (Z.of_nat 0). change 1%Z with (Z.of_nat 1). change 2%Z with (Z.of_nat 2).
  rewrite !getitem_nat.
  destruct entry as [|e0 [|e1 [|e2 more]]]; cbn [nth_error bind]; try discriminate.
  destruct (float_of_str e2) as [q|e] eqn:Hq; cbn [bind]; [|discriminate].
  intros H; injection H as <-. exists e0, e1, e2, more.
  repeat split. exact Hq.
Qed.

Lemma nbo_table_rows fs path text table :
  fs path = Some text -> Nbo.get_charge_table fs path = Ok table ->
  Forall (nbo_row_of text) table.
Proof.
  intros Hfs Hrun. rewrite nbo_get_charge_table_unfold in Hrun.
  destruct (nbo_table_lines fs path) as [lines|e] eqn:Hlines; cbn [bind] in Hrun;
    [|discriminate Hrun].
  apply Forall_forall. intros r Hr.
  destruct (comprehension_In _ _ _ _ Hrun r Hr) as (entry & Hin & Hnh & Hrow).
  apply in_map_iff in Hin. destruct Hin as (line & <- & Hline).
  destruct (nbo_make_row_inv _ _ Hrow) as (e0 & e1 & e2 & more & Htok & Hlab & Hq & _).
  exists line, e0, e1, e2, more.
  split; [apply (nbo_table_lines_In fs path text lines Hfs Hlines line Hline)|].
  split; [exact Htok|]. split; [|split; assumption].
  unfold Nbo.not_hydrogen in Hnh. rewrite Htok, getitem_head in Hnh. cbn [bind] in Hnh.
  injection Hnh as Hnh. intros ->. discriminate Hnh.
Qed.

(** The rows that the hydrogen filter keeps: those whose element is not
    "H"; the filter raises on a row without tokens. *)
Lemma filter_not_hydrogen (table_text kept : list (list string)) :
  filter_result Mulliken.not_hydrogen table_text = Ok kept ->
  kept = filter (fun row => negb (String.eqb (element_of row) "H")) table_text /\
  Forall (fun row => row <> []) table_text.
Proof.
  revert kept. induction table_text as [|row l IH]; intros kept Hrun; simpl in Hrun.
  - injection Hrun as <-. split; [reflexivity|constructor].
  - unfold Mulliken.not_hydrogen at 1 in Hrun.
    destruct (getitem row 0) as [e0|e] eqn:H0; cbn [bind] in Hrun; [|discriminate Hrun].
    destruct (getitem_0_inv _ _ H0) as [row' ->].
    destruct (filter_result Mulliken.not_hydrogen l) as [kept0|e]; cbn [bind] in Hrun;
      [|discriminate Hrun].
    destruct (IH kept0 eq_refl) as [-> Hne].
    injection Hrun as <-. split.
    + cbn [filter element_of hd]. reflexivity.
    + constructor; [discriminate|exact Hne].
Qed.

Lemma occurrences_app (e : string) (l1 l2 : list string) :
  occurrences e (l1 ++ l2) = occurrences e l1 + occurrences e l2.
Proof. unfold occurrences. rewrite filter_app, length_app. reflexivity. Qed.

Lemma occurrences_same (e : string) : occurrences e [e] = 1.
Proof. unfold occurrences. simpl. rewrite String.eqb_refl. reflexivity. Qed.

Lemma occurrences_other (e e' : string) : e <> e' -> occurrences e [e'] = 0.
Proof.
  intros H. unfold occurrences. simpl.
  destruct (String.eqb_spec e e'); [contradiction|reflexivity].
Qed.

(** The numbering loop.  [seen] are the elements of the rows already
    numbered; the dictionary holds, for each element, how often it was
    seen. *)
Lemma number_rows_spec (rows : list (list string)) :
  forall (element_dict : dict nat) (seen : list string) (table : list atom_charge),
  (forall e, dict_get element_dict e
             = match occurrences e seen with 0 => None | S n => Some (S n) end) ->
  Mulliken.number_rows element_dict rows = Ok table ->
  List.length table = List.length rows /\
  forall i r row, nth_error table i = Some r -> nth_error rows i = Some row ->
    exists e q more,
      row = e :: q :: more /\ float_of_str q = Ok (charge r) /\
      label r = (e ++ str_of_nat
                        (occurrences e (seen ++ map element_of (firstn (S i) rows))))%string.
Proof.
  induction rows as [|row rows IH]; intros d seen table Hd Hrun; simpl in Hrun.
  - injection Hrun as <-. split; [reflexivity|]. intros [|i] r row H; discriminate H.
  - unfold Mulliken.number_row at 1 in Hrun.
    change 0%Z with (Z.of_nat 0) in Hrun. change 1%Z with (Z.of_nat 1) in Hrun.
    rewrite !getitem_nat in Hrun.
    destruct row as [|e [|q more]]; cbn [nth_error bind] in Hrun; try discriminate Hrun.
    destruct (float_of_str q) as [x|err] eqn:Hq; cbn [bind fst snd] in Hrun;
      [|discriminate Hrun].
    set (count := match dict_get d e with Some n => n + 1 | None => 1 end) in Hrun.
    assert (Hcount : count = occurrences e (seen ++ [e])).
    { unfold count. rewrite Hd, occurrences_app, occurrences_same.
      destruct (occurrences e seen); lia. }
    destruct (Mulliken.number_rows (dict_set d e count) rows) as [table0|err] eqn:Hrest;
      cbn [bind] in Hrun; [|discriminate Hrun].
    injection Hrun as <-.
    destruct (IH (dict_set d e count) (seen ++ [e]) table0) as [Hlen Hrows];
      [|exact Hrest|].
    { intros e'. destruct (String.eqb_spec e e') as [<-|Hne].
      - rewrite dict_get_set_same, <- Hcount.
        unfold count. rewrite Hd. destruct (occurrences e seen); reflexivity.
      - rewrite (dict_get_set_other _ _ _ _ Hne), Hd, occurrences_app.
        rewrite (occurrences_other e' e) by (intros ->; apply Hne; reflexivity).
        rewrite Nat.add_0_r. reflexivity. }
    split; [simpl; rewrite Hlen; reflexivity|].
    intros [|i] r row Hr Hrow; simpl in Hr, Hrow.
    + injection Hr as <-. injection Hrow as <-.
      exists e, q, more. split; [reflexivity|]. split; [exact Hq|].
      cbn [label firstn map element_of hd]. rewrite Hcount. reflexivity.
    + destruct (Hrows i r row Hr Hrow) as (e' & q' & more' & -> & Hq' & Hlab).
      exists e', q', more'. split; [reflexivity|]. split; [exact Hq'|].
      rewrite Hlab. rewrite <- app_assoc. reflexivity.
Qed.

Lemma mulliken_table_rows fs path text table :
  fs path = Some text -> Mulliken.get_charge_table fs path = Ok table ->
  Forall (mulliken_row_of text) table.
Proof.
  intros Hfs Hrun. rewrite mulliken_get_charge_table_unfold in Hrun.
  destruct (mulliken_table_lines fs path) as [lines|e] eqn:Hlines; cbn [bind] in Hrun;
    [|discriminate Hrun].
  destruct (filter_result _ _) as [kept|e] eqn:Hkept; cbn [bind] in Hrun;
    [|discriminate Hrun].
  destruct (filter_not_hydrogen _ _ Hkept) as [Hk _].
  destruct (number_rows_spec kept [] [] table (fun _ => eq_refl) Hrun) as [Hlen Hrows].
  apply Forall_forall. intros r Hr.
  destruct (In_nth_error _ _ Hr) as [i Hi].
  destruct (nth_error kept i) as [row|] eqn:Hrow.
  2: { apply nth_error_None in Hrow.
       assert (i < List.length table) by (apply nth_error_Some; rewrite Hi; discriminate).
       lia. }
  destruct (Hrows i r row Hi Hrow) as (e & q & more & -> & Hq & Hlab).
  apply nth_error_In in Hrow. rewrite Hk in Hrow.
  apply filter_In in Hrow. destruct Hrow as [Hin Hnh].
  apply in_map_iff in Hin. destruct Hin as (line & Hskip & Hline).
  destruct (split_ws line) as [|index toks] eqn:Htoks; [discriminate Hskip|].
  cbn [skipn] in Hskip. subst toks.
  exists line, index, e, q, more. eexists.
  split; [apply (mulliken_table_lines_In fs path text lines Hfs Hlines line Hline)|].
  split; [exact Htoks|]. split; [|split; [exact Hlab|exact Hq]].
  cbn [element_of hd] in Hnh. intros ->. discriminate Hnh.
Qed.

(** C6, as stated, fails for the tables of [write_electro_nbo.py]: the
    suffix of a label there is the atom number printed in the row, not a
    count per element.  In the example log the rows are a carbon numbered
    1, a hydrogen numbered 2 and a carbon numbered 3, and the second
    carbon is labelled "C3", not "C2". *)
Lemma nbo_label_is_atom_number :
  nbo_table_lines example_nbo_files "m.log"
  = Ok ["      C    1   -0.25000"; "      H    2    0.12500";
        "      C    3    0.50000"] /\
  exists table,
    Nbo.get_charge_table example_nbo_files "m.log" = Ok table /\
    map label table = ["C1"; "C3"].
Proof.
  split; [vm_compute; reflexivity|].
  eexists. split; vm_compute; reflexivity.
Qed.

(** C6 (amended): for every charge table that
    [write_electro_properties.py] parses from a log, the label of each
    atom is its element symbol followed by its occurrence index among the
    rows of that table with the same element, hydrogen rows left out: the
    counter starts anew for each table and counts each element on its
    own.  For a table that [write_electro_nbo.py] parses, the label is
    the element symbol followed by the atom number that the row
    prints. *)
Theorem charge_table_labels (fs : filesystem) (path : string) :
  (forall table, Mulliken.get_charge_table fs path = Ok table ->
   exists lines rows,
     mulliken_table_lines fs path = Ok lines /\
     rows = filter (fun row => negb (String.eqb (element_of row) "H"))
              (map (fun line => skipn 1 (split_ws line)) lines) /\
     List.length table = List.length rows /\
     forall i r row, nth_error table i = Some r -> nth_error rows i = Some row ->
       label r = (element_of row ++
                  str_of_nat (occurrences (element_of row)
                                (map element_of (firstn (S i) rows))))%string) /\
  (forall text table, fs path = Some text -> Nbo.get_charge_table fs path = Ok table ->
   Forall (nbo_row_of text) table).
Proof.
  split.
  - intros table Hrun. rewrite mulliken_get_charge_table_unfold in Hrun.
    destruct (mulliken_table_lines fs path) as [lines|e] eqn:Hlines; cbn [bind] in Hrun;
      [|discriminate Hrun].
    destruct (filter_result _ _) as [kept|e] eqn:Hkept; cbn [bind] in Hrun;
      [|discriminate Hrun].
    destruct (filter_not_hydrogen _ _ Hkept) as [Hk _].
    destruct (number_rows_spec kept [] [] table (fun _ => eq_refl) Hrun) as [Hlen Hrows].
    exists lines, kept. split; [reflexivity|]. split; [exact Hk|]. split; [exact Hlen|].
    intros i r row Hr Hrow.
    destruct (Hrows i r row Hr Hrow) as (e & q & more & -> & _ & Hlab).
    exact Hlab.
  - intros text table Hfs Hrun. apply (nbo_table_rows fs path text table Hfs Hrun).
Qed.

Lemma charge_table_labels_witness :
  (exists lines rows,
     mulliken_table_lines example_mulliken_files "m.log" = Ok lines /\
     rows = filter (fun row => negb (String.eqb (element_of row) "H"))
              (map (fun line => skipn 1 (split_ws line)) lines) /\
     List.length example_mulliken_table = List.length rows /\
     forall i r row, nth_error example_mulliken_table i = Some r ->
       nth_error rows i = Some row ->
       label r = (element_of row ++
                  str_of_nat (occurrences (element_of row)
                                (map element_of (firstn (S i) rows))))%string) /\
  map label example_mulliken_table = ["C1"; "O1"; "C2"] /\
  Forall (nbo_row_of
            (example_nbo_log ["      C    1   -0.25000"; "      H    2    0.12500";
                              "      C    3    0.50000"]))
    example_nbo_table.
Proof.
  split; [|split].
  - apply (proj1 (charge_table_labels example_mulliken_files "m.log")).
    vm_compute. reflexivity.
  - reflexivity.
  - apply (proj2 (charge_table_labels example_nbo_files "m.log")).
    + reflexivity.
    + vm_compute. reflexivity.
Defined.

Lemma add_local_indices_keys (ov out : dict (list float)) ge gn :
  Nbo.add_local_indices ov ge gn = Ok out -> keys out = keys ov.
Proof.
  unfold Nbo.add_local_indices. revert out.
  induction ov as [|[k v] ov IH]; intros out Hrun; simpl in Hrun.
  - injection Hrun as <-. reflexivity.
  - destruct (getitem v 2) as [x|e]; cbn [bind] in Hrun; [|discriminate Hrun].
    destruct (map_result _ ov) as [out0|e]; cbn [bind] in Hrun; [|discriminate Hrun].
    injection Hrun as <-. simpl. rewrite (IH out0 eq_refl). reflexivity.
Qed.

Lemma combine_tables_keys n a c d :
  Nbo.combine_tables n a c = Ok d ->
  forall k, In k (keys d) -> exists r, In r n /\ label r = k.
Proof.
  intros Hrun k Hk. apply in_map_iff in Hk. destruct Hk as ([k' v] & <- & Hin).
  destruct (combine_tables_entry_origin _ _ _ _ Hrun k' v Hin)
    as (i & x & _ & _ & Hx & _ & _ & Hl & _).
  exists x. split; [apply (nth_error_In _ _ Hx)|exact Hl].
Qed.

Lemma nbo_write_local_electro_keys {L : Libm} fs path out :
  Nbo.write_local_electro fs path = Ok out ->
  exists neutral, Nbo.get_charge_table fs path = Ok neutral /\
    forall k, In k (keys out) -> exists r, In r neutral /\ label r = k.
Proof.
  unfold Nbo.write_local_electro. intros Hrun.
  destruct (Nbo.get_charge_table fs path) as [n|e]; cbn [bind] in Hrun; [|discriminate Hrun].
  destruct (Nbo.get_charge_table fs _) as [a|e]; cbn [bind] in Hrun; [|discriminate Hrun].
  destruct (Nbo.get_charge_table fs _) as [c|e]; cbn [bind] in Hrun; [|discriminate Hrun].
  destruct (Nbo.combine_tables n a c) as [ov|e] eqn:Hov; cbn [bind] in Hrun;
    [|discriminate Hrun].
  destruct (Nbo.get_homo_lumo fs path) as [hl|e]; cbn [bind] in Hrun; [|discriminate Hrun].
  destruct (Nbo.get_properties _ _) as [[[[[en hd] so] ge] gn]|e]; cbn [bind] in Hrun;
    [|discriminate Hrun].
  exists n. split; [reflexivity|].
  intros k Hk. rewrite (add_local_indices_keys _ _ _ _ Hrun) in Hk.
  apply (combine_tables_keys _ _ _ _ Hov k Hk).
Qed.

Lemma mulliken_write_local_electro_keys {L : Libm} fs path out :
  Mulliken.write_local_electro fs path = Ok out ->
  exists neutral, Mulliken.get_charge_table fs path = Ok neutral /\
    forall k, In k (keys out) -> exists r, In r neutral /\ label r = k.
Proof.
  unfold Mulliken.write_local_electro. intros Hrun.
  destruct (Mulliken.get_charge_table fs path) as [n|e]; cbn [bind] in Hrun;
    [|discriminate Hrun].
  destruct (Mulliken.get_charge_table fs _) as [a|e]; cbn [bind] in Hrun;
    [|discriminate Hrun].
  destruct (Mulliken.get_charge_table fs _) as [c|e]; cbn [bind] in Hrun;
    [|discriminate Hrun].
  destruct (Mulliken.combine_tables n a c) as [ov|e] eqn:Hov; cbn [bind] in Hrun;
    [|discriminate Hrun].
  destruct (Mulliken.get_homo_lumo fs path) as [hl|e]; cbn [bind] in Hrun;
    [|discriminate Hrun].
  destruct (Mulliken.get_properties _ _) as [[[[[en hd] so] ge] gn]|e]; cbn [bind] in Hrun;
    [|discriminate Hrun].
  exists n. split; [reflexivity|].
  intros k Hk.
  change (Mulliken.add_local_indices ov ge gn) with (Nbo.add_local_indices ov ge gn) in Hrun.
  rewrite (add_local_indices_keys _ _ _ _ Hrun) in Hk.
  apply (combine_tables_keys n a c ov Hov k Hk).
Qed.

(** * Further properties *)

(** ** The calculator, read backwards *)

(** X1: whenever [get_properties] returns, no zero was divided by and
    the five values are those of the formulas: the divisor [2*hardness]
    and the electrophilicity it returns are not zero, the square was in
    range, and the softness and the nucleophilicity are the two
    reciprocals. *)
Theorem get_properties_returned {L : Libm} (homo lumo : float)
    (en hd so el nu : float) :
  Nbo.get_properties homo lumo = Ok (en, hd, so, el, nu) ->
  Mulliken.get_properties homo lumo = Ok (en, hd, so, el, nu) /\
  en = electronegativity_of homo lumo /\
  hd = hardness_of homo lumo /\
  is_zero (float_mul (float_of_int 2) hd) = false /\
  so = SFdiv prec emax (float_of_int 1) (float_mul (float_of_int 2) hd) /\
  (exists square,
     float_pow_2 en = Ok square /\
     el = SFdiv prec emax square (float_mul (float_of_int 2) hd)) /\
  is_zero el = false /\
  nu = SFdiv prec emax (float_of_int 1) el.
Proof.
  intros Hrun. split; [exact Hrun|].
  rewrite get_properties_unfold in Hrun. unfold float_truediv in Hrun.
  destruct (is_zero (float_mul (float_of_int 2) (hardness_of homo lumo))) eqn:Hh;
    cbn [bind] in Hrun; [discriminate Hrun|].
  destruct (float_pow_2 (electronegativity_of homo lumo)) as [square|e] eqn:Hsq;
    cbn [bind] in Hrun; [|discriminate Hrun].
  destruct (is_zero (SFdiv prec emax square _)) eqn:Hw; cbn [bind] in Hrun;
    [discriminate Hrun|].
  injection Hrun as <- <- <- <- <-.
  repeat split; try assumption; try reflexivity.
  exists square. split; [exact Hsq|reflexivity].
Qed.

Lemma get_properties_returned_witness :
  @Mulliken.get_properties square_libm (float_of_int (-1)) (float_of_int 2)
  = Ok (S754_finite true 7659497066250371 (-49),
        S754_finite false 5744622799687778 (-46),
        S754_finite false 7061354700174231 (-60),
        S754_finite false 5106331377500247 (-52),
        S754_finite false 7944024037696010 (-53)) /\
  S754_finite true 7659497066250371 (-49)
  = electronegativity_of (float_of_int (-1)) (float_of_int 2) /\
  S754_finite false 5744622799687778 (-46)
  = hardness_of (float_of_int (-1)) (float_of_int 2) /\
  is_zero (float_mul (float_of_int 2) (S754_finite false 5744622799687778 (-46)))
  = false /\
  S754_finite false 7061354700174231 (-60)
  = SFdiv prec emax (float_of_int 1)
      (float_mul (float_of_int 2) (S754_finite false 5744622799687778 (-46))) /\
  (exists square,
     @float_pow_2 square_libm (S754_finite true 7659497066250371 (-49)) = Ok square /\
     S754_finite false 5106331377500247 (-52)
     = SFdiv prec emax square
         (float_mul (float_of_int 2) (S754_finite false 5744622799687778 (-46)))) /\
  is_zero (S754_finite false 5106331377500247 (-52)) = false /\
  S754_finite false 7944024037696010 (-53)
  = SFdiv prec emax (float_of_int 1) (S754_finite false 5106331377500247 (-52)).
Proof.
  apply (@get_properties_returned square_libm (float_of_int (-1)) (float_of_int 2)).
  vm_compute. reflexivity.
Defined.

(** X2: a NaN orbital energy is not refused.  With a NaN for the HOMO or
    for the LUMO, [get_properties] of either script raises nothing and
    returns five NaNs, on every platform; and [float] reads the token
    "nan" as a NaN. *)
Theorem get_properties_nan {L : Libm} (x : float) :
  Nbo.get_properties S754_nan x = Ok (S754_nan, S754_nan, S754_nan, S754_nan, S754_nan) /\
  Nbo.get_properties x S754_nan = Ok (S754_nan, S754_nan, S754_nan, S754_nan, S754_nan) /\
  Mulliken.get_properties S754_nan x
  = Ok (S754_nan, S754_nan, S754_nan, S754_nan, S754_nan) /\
  Mulliken.get_properties x S754_nan
  = Ok (S754_nan, S754_nan, S754_nan, S754_nan, S754_nan) /\
  float_of_str "nan" = Ok S754_nan.
Proof.
  assert (Hl : float_add S754_nan (float_mul c27_212 x) = S754_nan) by reflexivity.
  assert (Hr : float_add (float_mul c27_212 x) S754_nan = S754_nan)
    by (destruct (float_mul c27_212 x); reflexivity).
  assert (Hsl : float_sub (float_mul c27_212 x) S754_nan = S754_nan)
    by (destruct (float_mul c27_212 x); reflexivity).
  assert (Hsr : float_sub S754_nan (float_mul c27_212 x) = S754_nan) by reflexivity.
  assert (H1 : Nbo.get_properties S754_nan x
               = Ok (S754_nan, S754_nan, S754_nan, S754_nan, S754_nan)).
  { rewrite get_properties_unfold. unfold electronegativity_of, hardness_of.
    change (float_mul c27_212 S754_nan) with S754_nan. rewrite Hl, Hsl. reflexivity. }
  assert (H2 : Nbo.get_properties x S754_nan
               = Ok (S754_nan, S754_nan, S754_nan, S754_nan, S754_nan)).
  { rewrite get_properties_unfold. unfold electronegativity_of, hardness_of.
    change (float_mul c27_212 S754_nan) with S754_nan. rewrite Hr, Hsr. reflexivity. }
  repeat split; try assumption. 
Qed.

(** ** The combiner, in full *)

Lemma combine_rec_firstn n : forall a c acc,
  combine_rec n a c acc
  = combine_rec n (firstn (List.length n) a) (firstn (List.length n) c) acc.
Proof.
  induction n as [|x n IH]; intros a c acc; [reflexivity|].
  destruct a as [|y a]; [reflexivity|].
  cbn [List.length firstn combine_rec].
  destruct (String.eqb (label x) (label y)); [|reflexivity].
  destruct c as [|z c]; [reflexivity|].
  cbn [firstn]. destruct (String.eqb (label x) (label z)); [|reflexivity].
  apply IH.
Qed.

(** X3: [combine_tables] walks the positions of the neutral table only:
    the rows of the anion and cation tables beyond its length have no
    effect on the result, whether a table or an exception.  So an empty
    neutral table combines to the empty table, whatever the two other
    tables hold. *)
Theorem combine_tables_ignores_longer (neutral anion cation : list atom_charge) :
  Nbo.combine_tables neutral anion cation
  = Nbo.combine_tables neutral (firstn (List.length neutral) anion)
      (firstn (List.length neutral) cation) /\
  Mulliken.combine_tables neutral anion cation
  = Mulliken.combine_tables neutral (firstn (List.length neutral) anion)
      (firstn (List.length neutral) cation) /\
  Nbo.combine_tables [] anion cation = Ok [] /\
  Mulliken.combine_tables [] anion cation = Ok [].
Proof.
  assert (H : Nbo.combine_tables neutral anion cation
              = Nbo.combine_tables neutral (firstn (List.length neutral) anion)
                  (firstn (List.length neutral) cation)).
  { rewrite !combine_tables_rec. apply combine_rec_firstn. }
  repeat split; exact H.
Qed.

Lemma combine_rec_aligned n : forall a c acc,
  (forall i x, nth_error n i = Some x ->
     exists y z, nth_error a i = Some y /\ nth_error c i = Some z /\
                 label x = label y /\ label x = label z) ->
  exists d, combine_rec n a c acc = Ok d.
Proof.
  induction n as [|x n IH]; intros a c acc Hal; [exists acc; reflexivity|].
  destruct (Hal 0 x eq_refl) as (y & z & Hy & Hz & Hxy & Hxz).
  destruct a as [|y' a]; [discriminate Hy|]. injection Hy as ->.
  destruct c as [|z' c]; [discriminate Hz|]. injection Hz as ->.
  cbn [combine_rec]. rewrite <- Hxy, <- Hxz, String.eqb_refl.
  apply IH. intros i x' Hx'. apply (Hal (S i) x' Hx').
Qed.

(** X4: [combine_tables] returns a table exactly when, at every position
    of the neutral table, the anion and the cation table have a row with
    the same label as the neutral row; otherwise it raises. *)
Theorem combine_tables_returns_iff (neutral anion cation : list atom_charge) :
  (exists d, Nbo.combine_tables neutral anion cation = Ok d /\
             Mulliken.combine_tables neutral anion cation = Ok d) <->
  (forall i x, nth_error neutral i = Some x ->
     exists y z, nth_error anion i = Some y /\ nth_error cation i = Some z /\
                 label x = label y /\ label x = label z).
Proof.
  split.
  - intros (d & Hd & _) i x Hx. rewrite combine_tables_rec in Hd.
    destruct (nth_error anion i) as [y|] eqn:Hy.
    2: { destruct (combine_rec_mismatch neutral anion cation [] i x Hx) as (e & He & _).
         - rewrite Hy. exact I.
         - rewrite He in Hd. discriminate Hd. }
    destruct (nth_error cation i) as [z|] eqn:Hz.
    2: { destruct (combine_rec_mismatch neutral anion cation [] i x Hx) as (e & He & _).
         - rewrite Hy, Hz. exact I.
         - rewrite He in Hd. discriminate Hd. }
    destruct (String.eqb_spec (label x) (label y)) as [Hxy|Hxy].
    2: { destruct (combine_rec_mismatch neutral anion cation [] i x Hx) as (e & He & _).
         - rewrite Hy, Hz. left; exact Hxy.
         - rewrite He in Hd. discriminate Hd. }
    destruct (String.eqb_spec (label x) (label z)) as [Hxz|Hxz].
    2: { destruct (combine_rec_mismatch neutral anion cation [] i x Hx) as (e & He & _).
         - rewrite Hy, Hz. right; exact Hxz.
         - rewrite He in Hd. discriminate Hd. }
    exists y, z. repeat split; assumption.
  - intros Hal. destruct (combine_rec_aligned neutral anion cation [] Hal) as [d Hd].
    exists d. rewrite <- combine_tables_rec in Hd. split; exact Hd.
Qed.

Lemma dict_set_keys_in {V : Type} (d : dict V) (k : string) (v : V) :
  In k (keys d) -> keys (dict_set d k v) = keys d.
Proof.
  induction d as [|[k' v'] d IH]; simpl; [intros []|].
  destruct (String.eqb_spec k' k) as [->|Hne]; [reflexivity|].
  intros [H|H]; [contradiction|]. simpl. rewrite (IH H). reflexivity.
Qed.

Lemma dict_set_keys {V : Type} (d : dict V) (k : string) (v : V) :
  keys (dict_set d k v) = keys d \/
  (~ In k (keys d) /\ keys (dict_set d k v) = keys d ++ [k]).
Proof.
  destruct (in_dec string_dec k (keys d)) as [Hin|Hnin].
  - left. apply dict_set_keys_in. exact Hin.
  - right. split; [exact Hnin|]. rewrite (dict_set_fresh _ _ _ Hnin).
    unfold keys. rewrite map_app. reflexivity.
Qed.

Lemma dict_set_keys_has {V : Type} (d : dict V) (k : string) (v : V) :
  In k (keys (dict_set d k v)).
Proof.
  destruct (dict_set_keys d k v) as [H|[_ H]]; rewrite H.
  - destruct (in_dec string_dec k (keys d)) as [Hin|Hnin]; [exact Hin|].
    rewrite (dict_set_fresh _ _ _ Hnin) in H. unfold keys in H. rewrite map_app in H.
    simpl in H. exfalso. apply (f_equal (@List.length string)) in H.
    rewrite length_app in H. simpl in H. lia.
  - apply in_or_app. right. left. reflexivity.
Qed.

Lemma combine_rec_keys n : forall a c acc d,
  NoDup (keys acc) ->
  combine_rec n a c acc = Ok d ->
  NoDup (keys d) /\
  (forall k, In k (keys d) <-> In k (keys acc) \/ In k (map label n)) /\
  List.length d <= List.length acc + List.length n.
Proof.
  induction n as [|x n IH]; intros a c acc d Hnd Hrun.
  - cbn [combine_rec] in Hrun. injection Hrun as <-.
    split; [exact Hnd|]. split; [|lia].
    intros k. simpl. tauto.
  - cbn [combine_rec] in Hrun.
    destruct a as [|y a]; [discriminate Hrun|].
    destruct (String.eqb (label x) (label y)); [|discriminate Hrun].
    destruct c as [|z c]; [discriminate Hrun|].
    destruct (String.eqb (label x) (label z)); [|discriminate Hrun].
    set (row := [charge x; charge z; charge y; float_sub (charge x) (charge z);
                 float_sub (charge y) (charge x)]) in Hrun.
    assert (Hkeys := dict_set_keys acc (label x) row).
    assert (Hhas := dict_set_keys_has acc (label x) row).
    assert (Hnd' : NoDup (keys (dict_set acc (label x) row))).
    { destruct Hkeys as [H|[Hnin H]]; rewrite H; [exact Hnd|].
      apply NoDup_app; [exact Hnd|constructor; [intros []|constructor]|].
      intros k Hk [<-|[]]. contradiction. }
    assert (Hlen : List.length (dict_set acc (label x) row) <= S (List.length acc)).
    { rewrite <- (length_map fst (dict_set acc (label x) row)).
      fold (keys (dict_set acc (label x) row)).
      destruct Hkeys as [H|[_ H]]; rewrite H; unfold keys.
      - rewrite length_map. lia.
      - rewrite length_app, length_map. simpl. lia. }
    destruct (IH a c _ d Hnd' Hrun) as (Hd1 & Hd2 & Hd3).
    split; [exact Hd1|]. split; [|simpl; lia].
    intros k. rewrite Hd2. simpl. split.
    + intros [Hk|Hk]; [|right; right; exact Hk].
      destruct Hkeys as [H|[_ H]]; rewrite H in Hk.
      * left; exact Hk.
      * apply in_app_or in Hk. destruct Hk as [Hk|[<-|[]]]; [left; exact Hk|].
        right; left; reflexivity.
    + intros [Hk|[<-|Hk]]; [|left; exact Hhas|right; exact Hk].
      left. destruct Hkeys as [H|[_ H]]; rewrite H; [exact Hk|].
      apply in_or_app. left; exact Hk.
Qed.

(** X5: the combined table has one entry for each distinct label of the
    neutral table: its keys are pairwise distinct, they are exactly the
    labels that occur in the neutral table, and so there are at most as
    many entries as neutral rows. *)
Theorem combined_keys_are_the_labels (neutral anion cation : list atom_charge)
    (d : dict (list float)) :
  Nbo.combine_tables neutral anion cation = Ok d \/
  Mulliken.combine_tables neutral anion cation = Ok d ->
  NoDup (keys d) /\
  (forall k, In k (keys d) <-> In k (map label neutral)) /\
  List.length d <= List.length neutral.
Proof.
  intros Hrun.
  assert (Hrec : combine_rec neutral anion cation [] = Ok d).
  { rewrite <- combine_tables_rec. destruct Hrun as [H|H]; exact H. }
  destruct (combine_rec_keys neutral anion cation [] d (NoDup_nil _) Hrec)
    as (H1 & H2 & H3).
  split; [exact H1|]. split; [|exact H3].
  intros k. rewrite H2. simpl. tauto.
Qed.

Lemma combined_keys_are_the_labels_witness :
  NoDup (keys [("C1", [float_of_int 2; float_of_int 2; float_of_int 2;
                       S754_zero false; S754_zero false])]) /\
  (forall k, In k (keys [("C1", [float_of_int 2; float_of_int 2; float_of_int 2;
                                 S754_zero false; S754_zero false])])
             <-> In k (map label [atom "C1" 1; atom "C1" 2])) /\
  List.length [("C1", [float_of_int 2; float_of_int 2; float_of_int 2;
                       S754_zero false; S754_zero false])]
  <= List.length [atom "C1" 1; atom "C1" 2].
Proof.
  apply (combined_keys_are_the_labels [atom "C1" 1; atom "C1" 2]
           [atom "C1" 1; atom "C1" 2] [atom "C1" 1; atom "C1" 2]).
  left. vm_compute. reflexivity.
Defined.

Lemma combine_rec_other_key n : forall a c acc d k,
  combine_rec n a c acc = Ok d ->
  ~ In k (map label n) ->
  dict_get d k = dict_get acc k.
Proof.
  induction n as [|x n IH]; intros a c acc d k Hrun Hk.
  - cbn [combine_rec] in Hrun. injection Hrun as <-. reflexivity.
  - cbn [combine_rec] in Hrun.
    destruct a as [|y a]; [discriminate Hrun|].
    destruct (String.eqb (label x) (label y)); [|discriminate Hrun].
    destruct c as [|z c]; [discriminate Hrun|].
    destruct (String.eqb (label x) (label z)); [|discriminate Hrun].
    rewrite (IH a c _ d k Hrun).
    + apply dict_get_set_other. intros Heq. apply Hk. left. exact Heq.
    + intros Hin. apply Hk. right. exact Hin.
Qed.

Lemma combine_rec_last_wins n : forall a c acc d i x y z,
  combine_rec n a c acc = Ok d ->
  nth_error n i = Some x -> nth_error a i = Some y -> nth_error c i = Some z ->
  (forall j x', i < j -> nth_error n j = Some x' -> label x' <> label x) ->
  dict_get d (label x)
  = Some [charge x; charge z; charge y;
          float_sub (charge x) (charge z); float_sub (charge y) (charge x)].
Proof.
  induction n as [|x0 n IH]; intros a c acc d i x y z Hrun Hx Hy Hz Hlast.
  - destruct i; discriminate Hx.
  - cbn [combine_rec] in Hrun.
    destruct a as [|y0 a]; [discriminate Hrun|].
    destruct (String.eqb (label x0) (label y0)); [|discriminate Hrun].
    destruct c as [|z0 c]; [discriminate Hrun|].
    destruct (String.eqb (label x0) (label z0)); [|discriminate Hrun].
    destruct i as [|i]; simpl in Hx, Hy, Hz.
    + injection Hx as ->. injection Hy as ->. injection Hz as ->.
      rewrite (combine_rec_other_key n a c _ d (label x) Hrun).
      * apply dict_get_set_same.
      * intros Hin. apply in_map_iff in Hin. destruct Hin as (x' & Hl & Hin).
        destruct (In_nth_error _ _ Hin) as [j Hj].
        apply (Hlast (S j) x'); [lia|exact Hj|exact Hl].
    + apply (IH a c _ d i x y z Hrun Hx Hy Hz).
      intros j x' Hij Hj. apply (Hlast (S j) x'); [lia|exact Hj].
Qed.

(** X6: when several rows of the neutral table share a label, the entry
    of that label holds the charges of the last of them: for a position
    whose label does not occur further down the neutral table, looking
    the label up in the combined table gives the neutral, cation and
    anion charges of that position and their two differences. *)
Theorem combined_entry_is_last_row (neutral anion cation : list atom_charge)
    (d : dict (list float)) (i : nat) (x y z : atom_charge) :
  Nbo.combine_tables neutral anion cation = Ok d \/
  Mulliken.combine_tables neutral anion cation = Ok d ->
  nth_error neutral i = Some x ->
  nth_error anion i = Some y ->
  nth_error cation i = Some z ->
  (forall j x', i < j -> nth_error neutral j = Some x' -> label x' <> label x) ->
  dict_get d (label x)
  = Some [charge x; charge z; charge y;
          float_sub (charge x) (charge z); float_sub (charge y) (charge x)].
Proof.
  intros Hrun Hx Hy Hz Hlast.
  assert (Hrec : combine_rec neutral anion cation [] = Ok d).
  { rewrite <- combine_tables_rec. destruct Hrun as [H|H]; exact H. }
  apply (combine_rec_last_wins neutral anion cation [] d i x y z Hrec Hx Hy Hz Hlast).
Qed.

Lemma combined_entry_is_last_row_witness :
  dict_get [("C1", [float_of_int 2; float_of_int 6; float_of_int 4;
                    float_of_int (-4); float_of_int 2])]
    (label (atom "C1" 2))
  = Some [charge (atom "C1" 2); charge (atom "C1" 6); charge (atom "C1" 4);
          float_sub (charge (atom "C1" 2)) (charge (atom "C1" 6));
          float_sub (charge (atom "C1" 4)) (charge (atom "C1" 2))].
Proof.
  apply (combined_entry_is_last_row [atom "C1" 1; atom "C1" 2]
           [atom "C1" 3; atom "C1" 4] [atom "C1" 5; atom "C1" 6]
           [("C1", [float_of_int 2; float_of_int 6; float_of_int 4;
                    float_of_int (-4); float_of_int 2])]
           1 (atom "C1" 2) (atom "C1" 4) (atom "C1" 6)).
  - left. vm_compute. reflexivity.
  - reflexivity.
  - reflexivity.
  - reflexivity.
  - intros j x' Hj Hx'. destruct j as [|[|j]]; [lia|lia|].
    simpl in Hx'. destruct j; discriminate Hx'.
Defined.

(** ** The charge tables, row by row *)

Lemma comprehension_Forall2 {A B : Type} (p : A -> result bool) (q : A -> bool)
    (f : A -> result B) (l : list A) :
  (forall x b, p x = Ok b -> b = q x) ->
  forall ys, comprehension p f l = Ok ys ->
  Forall2 (fun y x => f x = Ok y) ys (filter q l).
Proof.
  intros Hpq. induction l as [|x l IH]; intros ys Hrun; simpl in Hrun.
  - injection Hrun as <-. constructor.
  - destruct (p x) as [b|e] eqn:Hp; cbn [bind] in Hrun; [|discriminate Hrun].
    cbn [filter]. rewrite <- (Hpq x b Hp). destruct b.
    + destruct (f x) as [y|e] eqn:Hf; cbn [bind] in Hrun; [|discriminate Hrun].
      destruct (comprehension p f l) as [ys0|e]; cbn [bind] in Hrun; [|discriminate Hrun].
      injection Hrun as <-. constructor; [exact Hf|apply IH; reflexivity].
    + apply IH. exact Hrun.
Qed.

Lemma nbo_not_hydrogen_spec (entry : list string) (b : bool) :
  Nbo.not_hydrogen entry = Ok b -> b = negb (String.eqb (element_of entry) "H").
Proof.
  unfold Nbo.not_hydrogen. destruct entry as [|e0 entry].
  - rewrite getitem_nil. discriminate.
  - rewrite getitem_head. cbn [bind]. intros H; injection H as <-. reflexivity.
Qed.

(** X7: a table that [get_charge_table] of [write_electro_nbo.py]
    returns has exactly one row for each line of the table region whose
    first token is not "H", in the order of the log: the row's label is
    the first token followed by the second, its charge is [float] of the
    third. *)
Theorem nbo_table_row_per_heavy_line (fs : filesystem) (path : string)
    (table : list atom_charge) :
  Nbo.get_charge_table fs path = Ok table ->
  exists lines,
    nbo_table_lines fs path = Ok lines /\
    Forall2
      (fun r entry =>
         exists element number q more,
           entry = element :: number :: q :: more /\
           label r = (element ++ number)%string /\
           float_of_str q = Ok (charge r))
      table (nbo_kept_rows lines).
Proof.
  intros Hrun. rewrite nbo_get_charge_table_unfold in Hrun.
  destruct (nbo_table_lines fs path) as [lines|e]; cbn [bind] in Hrun; [|discriminate Hrun].
  exists lines. split; [reflexivity|].
  pose proof (comprehension_Forall2 _ _ _ _ nbo_not_hydrogen_spec table Hrun) as Hall.
  unfold nbo_kept_rows. revert Hall. apply Forall2_impl.
  intros r entry Hrow.
  destruct (nbo_make_row_inv _ _ Hrow) as (e0 & e1 & e2 & more & -> & Hl & Hq & _).
  exists e0, e1, e2, more. repeat split; assumption.
Qed.

Lemma nbo_table_row_per_heavy_line_witness :
  exists lines,
    nbo_table_lines example_nbo_files "m.log" = Ok lines /\
    Forall2
      (fun r entry =>
         exists element number q more,
           entry = element :: number :: q :: more /\
           label r = (element ++ number)%string /\
           float_of_str q = Ok (charge r))
      example_nbo_table (nbo_kept_rows lines).
Proof.
  apply (nbo_table_row_per_heavy_line example_nbo_files "m.log" example_nbo_table).
  vm_compute. reflexivity.
Defined.

Lemma nbo_make_row_raise (entry : list string) (e : exn) :
  Nbo.make_row entry = Raise e -> e = IndexError \/ e = ValueError.
Proof.
  unfold Nbo.make_row.
  destruct (getitem entry 0) as [e0|err] eqn:H0; cbn [bind].
  2: { intros H; injection H as <-. left. apply (getitem_raise _ _ _ H0). }
  destruct (getitem entry 1) as [e1|err] eqn:H1; cbn [bind].
  2: { intros H; injection H as <-. left. apply (getitem_raise _ _ _ H1). }
  destruct (getitem entry 2) as [e2|err] eqn:H2; cbn [bind].
  2: { intros H; injection H as <-. left. apply (getitem_raise _ _ _ H2). }
  destruct (float_of_str e2) as [q|err] eqn:Hq; cbn [bind]; [discriminate|].
  intros H; injection H as <-. right. apply (float_of_str_raise _ _ Hq).
Qed.

Lemma filter_result_bad_element {A : Type} (p : A -> result bool) (l : list A) (x : A)
    (e : exn) :
  (forall y e', p y = Raise e' -> e' = e) ->
  In x l -> p x = Raise e ->
  filter_result p l = Raise e.
Proof.
  intros Hp. induction l as [|y l IH]; intros Hin Hbad; [destruct Hin|].
  simpl. destruct (p y) as [b|e'] eqn:Hpy; cbn [bind].
  2: { rewrite (Hp y e' Hpy). reflexivity. }
  destruct Hin as [->|Hin]; [rewrite Hbad in Hpy; discriminate Hpy|].
  rewrite (IH Hin Hbad). reflexivity.
Qed.

Lemma comprehension_stops {A B : Type} (p : A -> result bool) (f : A -> result B)
    (ex : exn) (before : list A) (x : A) (after : list A) :
  p x = Raise ex \/ (p x = Ok true /\ f x = Raise ex) ->
  exists e, comprehension p f (before ++ x :: after) = Raise e /\
    (e = ex \/
     exists y, In y before /\ (p y = Raise e \/ (p y = Ok true /\ f y = Raise e))).
Proof.
  intros Hbad. induction before as [|y before IH]; simpl.
  - exists ex. split; [|left; reflexivity].
    destruct Hbad as [Hp|[Hp Hf]]; rewrite Hp; cbn [bind]; [|rewrite Hf]; reflexivity.
  - destruct IH as (e & He & Hor).
    assert (Hlater : e = ex \/
              exists y', In y' (y :: before) /\
                (p y' = Raise e \/ (p y' = Ok true /\ f y' = Raise e))).
    { destruct Hor as [->|(y' & Hin & Hy')]; [left; reflexivity|].
      right. exists y'. split; [right; exact Hin|exact Hy']. }
    destruct (p y) as [b|e'] eqn:Hpy; cbn [bind].
    + destruct b.
      * destruct (f y) as [r|e'] eqn:Hfy; cbn [bind].
        -- rewrite He. cbn [bind]. exists e. split; [reflexivity|exact Hlater].
        -- exists e'. split; [reflexivity|]. right. exists y.
           split; [left; reflexivity|]. right. split; [exact Hpy|exact Hfy].
      * exists e. split; [exact He|exact Hlater].
    + exists e'. split; [reflexivity|]. right. exists y.
      split; [left; reflexivity|]. left. exact Hpy.
Qed.

Lemma nbo_not_hydrogen_raise (entry : list string) (e : exn) :
  Nbo.not_hydrogen entry = Raise e -> e = IndexError.
Proof.
  unfold Nbo.not_hydrogen. intros He.
  destruct (getitem entry 0) as [e0|err] eqn:H0; cbn [bind] in He; [discriminate He|].
  injection He as <-. apply (getitem_raise _ _ _ H0).
Qed.

(** A [ValueError] of [make_row] is that of [float] on the third token. *)
Lemma nbo_make_row_value_error (entry : list string) :
  Nbo.make_row entry = Raise ValueError ->
  exists e0 e1 e2 more,
    entry = e0 :: e1 :: e2 :: more /\ float_of_str e2 = Raise ValueError.
Proof.
  unfold Nbo.make_row. intros H.
  destruct (getitem entry 0) as [e0|err] eqn:H0; cbn [bind] in H.
  2: { injection H as ->. pose proof (getitem_raise _ _ _ H0). discriminate. }
  destruct (getitem entry 1) as [e1|err] eqn:H1; cbn [bind] in H.
  2: { injection H as ->. pose proof (getitem_raise _ _ _ H1). discriminate. }
  destruct (getitem entry 2) as [e2|err] eqn:H2; cbn [bind] in H.
  2: { injection H as ->. pose proof (getitem_raise _ _ _ H2). discriminate. }
  destruct (float_of_str e2) as [q|err] eqn:Hq; cbn [bind] in H; [discriminate H|].
  injection H as ->.
  change 0%Z with (Z.of_nat 0) in H0. change 1%Z with (Z.of_nat 1) in H1.
  change 2%Z with (Z.of_nat 2) in H2. rewrite getitem_nat in H0, H1, H2.
  destruct entry as [|a0 [|a1 [|a2 more]]]; simpl in H0, H1, H2;
    try discriminate.
  injection H0 as ->. injection H1 as ->. injection H2 as ->.
  exists e0, e1, e2, more. split; [reflexivity|exact Hq].
Qed.

(** X8: a line of the table region that a parser cannot take as a row
    stops it; no table without that row is returned.  In
    [write_electro_nbo.py] a blank line, or a line whose first token is
    not "H" and that has fewer than three tokens, ends in [IndexError],
    unless the charge of a row further up, not of hydrogen, is not a
    number: the exception is [ValueError] only then, and [IndexError]
    when every such charge further up is a number.  In
    [write_electro_properties.py] a line with fewer than two tokens ends
    in [IndexError]. *)
Theorem malformed_table_line_raises (fs : filesystem) (path : string)
    (before after : list string) (line : string) :
  (nbo_table_lines fs path = Ok (before ++ line :: after) ->
   split_ws line = [] \/
   (element_of (split_ws line) <> "H" /\ List.length (split_ws line) < 3) ->
   exists e,
     Nbo.get_charge_table fs path = Raise e /\
     (e = IndexError \/
      (e = ValueError /\
       exists earlier element number q more,
         In earlier before /\
         split_ws earlier = element :: number :: q :: more /\
         element <> "H" /\ float_of_str q = Raise ValueError)) /\
     ((forall earlier element number q more,
         In earlier before ->
         split_ws earlier = element :: number :: q :: more ->
         element <> "H" -> exists c, float_of_str q = Ok c) ->
      e = IndexError)) /\
  (mulliken_table_lines fs path = Ok (before ++ line :: after) ->
   List.length (split_ws line) < 2 ->
   Mulliken.get_charge_table fs path = Raise IndexError).
Proof.
  split.
  - intros Hlines Hbad. rewrite nbo_get_charge_table_unfold, Hlines. cbn [bind].
    rewrite map_app. cbn [map].
    assert (Hx : Nbo.not_hydrogen (split_ws line) = Raise IndexError \/
                 (Nbo.not_hydrogen (split_ws line) = Ok true /\
                  Nbo.make_row (split_ws line) = Raise IndexError)).
    { destruct (split_ws line) as [|e0 [|e1 [|e2 more]]] eqn:Ht.
      - left. reflexivity.
      - right. destruct Hbad as [Hb|[Hnh _]]; [discriminate Hb|].
        cbn [element_of hd] in Hnh. split; [|reflexivity].
        unfold Nbo.not_hydrogen. rewrite getitem_head. cbn [bind].
        destruct (String.eqb_spec e0 "H"); [contradiction|reflexivity].
      - right. destruct Hbad as [Hb|[Hnh _]]; [discriminate Hb|].
        cbn [element_of hd] in Hnh. split; [|reflexivity].
        unfold Nbo.not_hydrogen. rewrite getitem_head. cbn [bind].
        destruct (String.eqb_spec e0 "H"); [contradiction|reflexivity].
      - destruct Hbad as [Hb|[_ Hshort]]; [discriminate Hb|]. simpl in Hshort. lia. }
    destruct (comprehension_stops Nbo.not_hydrogen Nbo.make_row IndexError
                (map split_ws before) (split_ws line) (map split_ws after) Hx)
      as (e & He & Hor).
    assert (Hkind : e = IndexError \/
              (e = ValueError /\
               exists earlier element number q more,
                 In earlier before /\
                 split_ws earlier = element :: number :: q :: more /\
                 element <> "H" /\ float_of_str q = Raise ValueError)).
    { destruct Hor as [->|(y & Hin & Hy)]; [left; reflexivity|].
      destruct Hy as [Hp|[Hp Hf]]; [left; apply (nbo_not_hydrogen_raise y e Hp)|].
      destruct (nbo_make_row_raise y e Hf) as [->| ->]; [left; reflexivity|].
      right. split; [reflexivity|].
      apply in_map_iff in Hin. destruct Hin as (earlier & <- & Hin).
      destruct (nbo_make_row_value_error _ Hf) as (e0 & e1 & e2 & more & Ht & Hq).
      exists earlier, e0, e1, e2, more.
      split; [exact Hin|]. split; [exact Ht|]. split; [|exact Hq].
      rewrite Ht in Hp. unfold Nbo.not_hydrogen in Hp. rewrite getitem_head in Hp.
      cbn [bind] in Hp. intros ->. discriminate Hp. }
    exists e. split; [exact He|]. split; [exact Hkind|].
    intros Hnum. destruct Hkind as [->|[_ Hv]]; [reflexivity|].
    destruct Hv as (earlier & element & number & q & more & Hin & Ht & Hnh & Hq).
    destruct (Hnum earlier element number q more Hin Ht Hnh) as [c Hc].
    rewrite Hc in Hq. discriminate Hq.
  - intros Hlines Hshort. rewrite mulliken_get_charge_table_unfold, Hlines. cbn [bind].
    rewrite (filter_result_bad_element Mulliken.not_hydrogen _
               (skipn 1 (split_ws line)) IndexError).
    + reflexivity.
    + intros y e He. unfold Mulliken.not_hydrogen in He.
      destruct (getitem y 0) as [e0|err] eqn:H0; cbn [bind] in He; [discriminate He|].
      injection He as <-. apply (getitem_raise _ _ _ H0).
    + apply (in_map (fun l => skipn 1 (split_ws l))). apply in_elt.
    + destruct (split_ws line) as [|e0 [|e1 more]]; simpl in Hshort; try lia;
        reflexivity.
Qed.

Lemma malformed_table_line_raises_witness :
  Nbo.get_charge_table
    (fun _ => Some (example_nbo_log ["      C    1   -0.25000"; "";
                                     "      C    3    0.50000"]))
    "m.log" = Raise IndexError /\
  (exists e,
     Nbo.get_charge_table
       (fun _ => Some (example_nbo_log ["      C    1   oops"; "";
                                        "      C    3    0.50000"]))
       "m.log" = Raise e /\
     (e = IndexError \/
      (e = ValueError /\
       exists earlier element number q more,
         In earlier ["      C    1   oops"] /\
         split_ws earlier = element :: number :: q :: more /\
         element <> "H" /\ float_of_str q = Raise ValueError))) /\
  Mulliken.get_charge_table
    (fun _ => Some (example_mulliken_log ["     1  C   -0.25000"; "";
                                          "     3  O    0.50000"]))
    "m.log" = Raise IndexError.
Proof.
  split; [|split].
  - destruct (proj1 (malformed_table_line_raises
                       (fun _ => Some (example_nbo_log ["      C    1   -0.25000"; "";
                                                        "      C    3    0.50000"]))
                       "m.log" ["      C    1   -0.25000"]
                       ["      C    3    0.50000"] ""))
      as (e & He & _ & Hidx).
    + vm_compute. reflexivity.
    + left. reflexivity.
    + rewrite He. f_equal. apply Hidx.
      intros earlier element number q more [<-|[]] Ht _.
      vm_compute in Ht. injection Ht as _ _ <- _.
      eexists. vm_compute. reflexivity.
  - destruct (proj1 (malformed_table_line_raises
                       (fun _ => Some (example_nbo_log ["      C    1   oops"; "";
                                                        "      C    3    0.50000"]))
                       "m.log" ["      C    1   oops"]
                       ["      C    3    0.50000"] ""))
      as (e & He & Hkind & _).
    + vm_compute. reflexivity.
    + left. reflexivity.
    + exists e. split; [exact He|exact Hkind].
  - apply (proj2 (malformed_table_line_raises
                    (fun _ => Some (example_mulliken_log ["     1  C   -0.25000"; "";
                                                          "     3  O    0.50000"]))
                    "m.log" ["     1  C   -0.25000"] ["     3  O    0.50000"] "")).
    + vm_compute. reflexivity.
    + simpl. lia.
Defined.

(** ** The labels of a Mulliken table *)

Lemma mulliken_table_labels (fs : filesystem) (path : string) (table : list atom_charge) :
  Mulliken.get_charge_table fs path = Ok table ->
  exists lines,
    mulliken_table_lines fs path = Ok lines /\
    List.length table = List.length (mulliken_kept_rows lines) /\
    forall i r row, nth_error table i = Some r ->
      nth_error (mulliken_kept_rows lines) i = Some row ->
      label r = (element_of row ++
                 str_of_nat (occurrences (element_of row)
                               (firstn (S i) (map element_of (mulliken_kept_rows lines)))))%string.
Proof.
  intros Hrun. rewrite mulliken_get_charge_table_unfold in Hrun.
  destruct (mulliken_table_lines fs path) as [lines|e]; cbn [bind] in Hrun;
    [|discriminate Hrun].
  destruct (filter_result _ _) as [kept|e] eqn:Hkept; cbn [bind] in Hrun;
    [|discriminate Hrun].
  destruct (filter_not_hydrogen _ _ Hkept) as [Hk _].
  destruct (number_rows_spec kept [] [] table (fun _ => eq_refl) Hrun) as [Hlen Hrows].
  exists lines. fold (mulliken_kept_rows lines) in Hk. rewrite <- Hk.
  split; [reflexivity|]. split; [exact Hlen|].
  intros i r row Hr Hrow.
  destruct (Hrows i r row Hr Hrow) as (e & q & more & -> & _ & Hlab).
  rewrite firstn_map. exact Hlab.
Qed.

Lemma same_elements_same_labels (t1 t2 : list atom_charge) (rows1 rows2 : list (list string)) :
  List.length t1 = List.length rows1 ->
  List.length t2 = List.length rows2 ->
  (forall i r row, nth_error t1 i = Some r -> nth_error rows1 i = Some row ->
     label r = (element_of row ++
                str_of_nat (occurrences (element_of row)
                              (firstn (S i) (map element_of rows1))))%string) ->
  (forall i r row, nth_error t2 i = Some r -> nth_error rows2 i = Some row ->
     label r = (element_of row ++
                str_of_nat (occurrences (element_of row)
                              (firstn (S i) (map element_of rows2))))%string) ->
  map element_of rows1 = map element_of rows2 ->
  forall i x, nth_error t1 i = Some x ->
    exists y, nth_error t2 i = Some y /\ label x = label y.
Proof.
  intros Hl1 Hl2 Hlab1 Hlab2 Hel i x Hx.
  assert (Hi : i < List.length t1) by (apply nth_error_Some; rewrite Hx; discriminate).
  assert (Hlen : List.length rows1 = List.length rows2).
  { rewrite <- (length_map element_of rows1), Hel, length_map. reflexivity. }
  destruct (nth_error rows1 i) as [row1|] eqn:Hr1;
    [|apply nth_error_None in Hr1; lia].
  destruct (nth_error rows2 i) as [row2|] eqn:Hr2;
    [|apply nth_error_None in Hr2; lia].
  destruct (nth_error t2 i) as [y|] eqn:Hy;
    [|apply nth_error_None in Hy; lia].
  exists y. split; [reflexivity|].
  rewrite (Hlab1 i x row1 Hx Hr1), (Hlab2 i y row2 Hy Hr2).
  assert (He : element_of row1 = element_of row2).
  { assert (H : nth_error (map element_of rows1) i = nth_error (map element_of rows2) i)
      by (rewrite Hel; reflexivity).
    rewrite !nth_error_map, Hr1, Hr2 in H. simpl in H. injection H as H. exact H. }
  rewrite He, Hel. reflexivity.
Qed.

Lemma same_elements_aligned (fs : filesystem) (p1 p2 p3 : string)
    (l1 l2 l3 : list string) (t1 t2 t3 : list atom_charge) :
  mulliken_table_lines fs p1 = Ok l1 ->
  mulliken_table_lines fs p2 = Ok l2 ->
  mulliken_table_lines fs p3 = Ok l3 ->
  Mulliken.get_charge_table fs p1 = Ok t1 ->
  Mulliken.get_charge_table fs p2 = Ok t2 ->
  Mulliken.get_charge_table fs p3 = Ok t3 ->
  map element_of (mulliken_kept_rows l2) = map element_of (mulliken_kept_rows l1) ->
  map element_of (mulliken_kept_rows l3) = map element_of (mulliken_kept_rows l1) ->
  List.length t2 = List.length t1 /\
  List.length t3 = List.length t1 /\
  forall i x, nth_error t1 i = Some x ->
    exists y z, nth_error t2 i = Some y /\ nth_error t3 i = Some z /\
                label x = label y /\ label x = label z.
Proof.
  intros Hl1 Hl2 Hl3 Ht1 Ht2 Ht3 He2 He3.
  destruct (mulliken_table_labels fs p1 t1 Ht1) as (l1' & Hl1' & Hn1 & Hlab1).
  destruct (mulliken_table_labels fs p2 t2 Ht2) as (l2' & Hl2' & Hn2 & Hlab2).
  destruct (mulliken_table_labels fs p3 t3 Ht3) as (l3' & Hl3' & Hn3 & Hlab3).
  rewrite Hl1 in Hl1'. injection Hl1' as <-.
  rewrite Hl2 in Hl2'. injection Hl2' as <-.
  rewrite Hl3 in Hl3'. injection Hl3' as <-.
  split; [|split].
  - rewrite Hn1, Hn2, <- (length_map element_of (mulliken_kept_rows l2)), He2.
    apply length_map.
  - rewrite Hn1, Hn3, <- (length_map element_of (mulliken_kept_rows l3)), He3.
    apply length_map.
  - intros i x Hx.
    destruct (same_elements_same_labels t1 t2 _ _ Hn1 Hn2 Hlab1 Hlab2 (eq_sym He2) i x Hx)
      as (y & Hy & Hxy).
    destruct (same_elements_same_labels t1 t3 _ _ Hn1 Hn3 Hlab1 Hlab3 (eq_sym He3) i x Hx)
      as (z & Hz & Hxz).
    exists y, z. repeat split; assumption.
Qed.

Lemma aligned_labels_eq (t1 t2 : list atom_charge) :
  List.length t2 = List.length t1 ->
  (forall i x, nth_error t1 i = Some x ->
     exists y, nth_error t2 i = Some y /\ label x = label y) ->
  map label t2 = map label t1.
Proof.
  intros Hlen Hal. apply nth_error_ext. intros i. rewrite !nth_error_map.
  destruct (nth_error t1 i) as [x|] eqn:Hx.
  - destruct (Hal i x Hx) as (y & Hy & Hxy). rewrite Hy. simpl. rewrite Hxy. reflexivity.
  - apply nth_error_None in Hx.
    assert (Hy : nth_error t2 i = None) by (apply nth_error_None; lia).
    rewrite Hy. reflexivity.
Qed.

(** X9: the labels of a Mulliken table depend on the sequence of its
    elements only, so three logs that list the same elements in the same
    order, hydrogens apart, always combine: the three tables parsed from
    them carry the same labels, and [combine_tables] returns a table for
    them and does not raise. *)
Theorem same_elements_combine (fs : filesystem) (p1 p2 p3 : string)
    (l1 l2 l3 : list string) (t1 t2 t3 : list atom_charge) :
  mulliken_table_lines fs p1 = Ok l1 ->
  mulliken_table_lines fs p2 = Ok l2 ->
  mulliken_table_lines fs p3 = Ok l3 ->
  Mulliken.get_charge_table fs p1 = Ok t1 ->
  Mulliken.get_charge_table fs p2 = Ok t2 ->
  Mulliken.get_charge_table fs p3 = Ok t3 ->
  map element_of (mulliken_kept_rows l2) = map element_of (mulliken_kept_rows l1) ->
  map element_of (mulliken_kept_rows l3) = map element_of (mulliken_kept_rows l1) ->
  map label t2 = map label t1 /\
  map label t3 = map label t1 /\
  exists d, Mulliken.combine_tables t1 t2 t3 = Ok d.
Proof.
  intros Hl1 Hl2 Hl3 Ht1 Ht2 Ht3 He2 He3.
  destruct (same_elements_aligned fs p1 p2 p3 l1 l2 l3 t1 t2 t3
              Hl1 Hl2 Hl3 Ht1 Ht2 Ht3 He2 He3) as (Hlen2 & Hlen3 & Hal).
  split; [|split].
  - apply (aligned_labels_eq t1 t2 Hlen2). intros i x Hx.
    destruct (Hal i x Hx) as (y & z & Hy & _ & Hxy & _). exists y. split; assumption.
  - apply (aligned_labels_eq t1 t3 Hlen3). intros i x Hx.
    destruct (Hal i x Hx) as (y & z & _ & Hz & _ & Hxz). exists z. split; assumption.
  - change (Mulliken.combine_tables t1 t2 t3) with (Nbo.combine_tables t1 t2 t3).
    rewrite combine_tables_rec. apply combine_rec_aligned. exact Hal.
Qed.

Lemma same_elements_combine_witness :
  map label example_mulliken_anion_table = map label example_mulliken_table /\
  map label example_mulliken_cation_table = map label example_mulliken_table /\
  exists d,
    Mulliken.combine_tables example_mulliken_table example_mulliken_anion_table
      example_mulliken_cation_table = Ok d.
Proof.
  apply (same_elements_combine example_mulliken_files "m.log" "m-1.log" "m+1.log"
           ["     1  C   -0.25000"; "     2  H    0.12500";
            "     3  O    0.50000"; "     4  C    0.12500"]
           ["     1  C   -0.50000"; "     2  H    0.06250";
            "     3  O    0.25000"; "     4  C    0.06250"]
           ["     1  C    0.25000"; "     2  H    0.25000";
            "     3  O    0.75000"; "     4  C    0.25000"]).
  - vm_compute. reflexivity.
  - vm_compute. reflexivity.
  - vm_compute. reflexivity.
  - vm_compute. reflexivity.
  - vm_compute. reflexivity.
  - vm_compute. reflexivity.
  - vm_compute. reflexivity.
  - vm_compute. reflexivity.
Defined.

Lemma uint_string_digits (d : Decimal.uint) :
  forall c, In c (list_ascii_of_string (NilEmpty.string_of_uint d)) -> is_digit c = true.
Proof.
  induction d; simpl; intros c Hc; try contradiction;
    (destruct Hc as [<-|Hc]; [reflexivity|apply IHd; exact Hc]).
Qed.

Lemma str_of_nat_digits (n : nat) :
  forall c, In c (list_ascii_of_string (str_of_nat n)) -> is_digit c = true.
Proof.
  unfold str_of_nat, NilZero.string_of_uint. intros c Hc.
  destruct (Nat.to_uint n) eqn:E; try (apply (uint_string_digits _ c Hc)).
  simpl in Hc. destruct Hc as [<-|[]]. reflexivity.
Qed.

Lemma to_uint_not_nil (n : nat) : Nat.to_uint n <> Decimal.Nil.
Proof.
  intros H. assert (Hn : n = 0).
  { rewrite <- (DecimalNat.Unsigned.of_to n), H. reflexivity. }
  subst n. discriminate H.
Qed.

Lemma str_of_nat_inj (n m : nat) : str_of_nat n = str_of_nat m -> n = m.
Proof.
  unfold str_of_nat. intros H.
  apply (f_equal NilZero.uint_of_string) in H.
  rewrite !NilZero.usu in H by apply to_uint_not_nil.
  injection H as H. apply DecimalNat.Unsigned.to_uint_inj. exact H.
Qed.

(** A text without digits followed by digits splits in one way only. *)
Lemma digit_free_append (e1 e2 s1 s2 : string) :
  digit_free e1 -> digit_free e2 ->
  (forall c, In c (list_ascii_of_string s1) -> is_digit c = true) ->
  (forall c, In c (list_ascii_of_string s2) -> is_digit c = true) ->
  (e1 ++ s1)%string = (e2 ++ s2)%string -> e1 = e2 /\ s1 = s2.
Proof.
  revert e2. induction e1 as [|c1 e1 IH]; intros [|c2 e2] Hf1 Hf2 Hd1 Hd2 Heq;
    simpl in Heq.
  - split; [reflexivity|exact Heq].
  - exfalso. subst s1.
    assert (Ht : is_digit c2 = true) by (apply Hd1; left; reflexivity).
    assert (Hf : is_digit c2 = false) by (apply Hf2; left; reflexivity).
    congruence.
  - exfalso. subst s2.
    assert (Ht : is_digit c1 = true) by (apply Hd2; left; reflexivity).
    assert (Hf : is_digit c1 = false) by (apply Hf1; left; reflexivity).
    congruence.
  - injection Heq as -> Heq.
    destruct (IH e2) as [-> ->]; try assumption.
    + intros c Hc. apply Hf1. right. exact Hc.
    + intros c Hc. apply Hf2. right. exact Hc.
    + split; reflexivity.
Qed.

Lemma firstn_add {A : Type} (n m : nat) (l : list A) :
  firstn (n + m) l = firstn n l ++ firstn m (skipn n l).
Proof.
  revert l. induction n as [|n IH]; intros l; [reflexivity|].
  destruct l as [|x l]; simpl; [rewrite firstn_nil; reflexivity|].
  rewrite IH. reflexivity.
Qed.

Lemma occurrences_In (e : string) (l : list string) : In e l -> 1 <= occurrences e l.
Proof.
  unfold occurrences. induction l as [|x l IH]; intros Hin; [destruct Hin|].
  simpl. destruct (String.eqb_spec e x) as [_|Hne]; [simpl; lia|].
  destruct Hin as [->|Hin]; [contradiction|]. apply IH. exact Hin.
Qed.

(** The count of an element grows from one of its rows to the next. *)
Lemma occurrences_grow (e : string) (elements : list string) (i j : nat) :
  i < j -> nth_error elements j = Some e ->
  occurrences e (firstn (S i) elements) < occurrences e (firstn (S j) elements).
Proof.
  intros Hij Hj.
  replace (S j) with (S i + (j - i)) by lia.
  rewrite firstn_add, occurrences_app.
  assert (Hin : In e (firstn (j - i) (skipn (S i) elements))).
  { apply (nth_error_In _ (j - S i)).
    rewrite nth_error_firstn.
    destruct (Nat.ltb_spec (j - S i) (j - i)) as [_|H]; [|lia].
    rewrite nth_error_skipn. replace (S i + (j - S i)) with j by lia. exact Hj. }
  pose proof (occurrences_In _ _ Hin). lia.
Qed.

Lemma labels_distinct (table : list atom_charge) (rows : list (list string)) :
  List.length table = List.length rows ->
  (forall i r row, nth_error table i = Some r -> nth_error rows i = Some row ->
     label r = (element_of row ++
                str_of_nat (occurrences (element_of row)
                              (firstn (S i) (map element_of rows))))%string) ->
  (forall row, In row rows -> digit_free (element_of row)) ->
  forall i j ri rj, i < j -> nth_error table i = Some ri -> nth_error table j = Some rj ->
    label ri <> label rj.
Proof.
  intros Hlen Hlab Hfree i j ri rj Hij Hi Hj Heq.
  assert (Hjl : j < List.length table) by (apply nth_error_Some; rewrite Hj; discriminate).
  destruct (nth_error rows i) as [rowi|] eqn:Hri; [|apply nth_error_None in Hri; lia].
  destruct (nth_error rows j) as [rowj|] eqn:Hrj; [|apply nth_error_None in Hrj; lia].
  rewrite (Hlab i ri rowi Hi Hri), (Hlab j rj rowj Hj Hrj) in Heq.
  apply digit_free_append in Heq.
  - destruct Heq as [He Hc]. apply str_of_nat_inj in Hc. rewrite He in Hc.
    assert (Hel : nth_error (map element_of rows) j = Some (element_of rowj))
      by (rewrite nth_error_map, Hrj; reflexivity).
    pose proof (occurrences_grow _ _ i j Hij Hel). lia.
  - apply Hfree. apply (nth_error_In _ _ Hri).
  - apply Hfree. apply (nth_error_In _ _ Hrj).
  - apply str_of_nat_digits.
  - apply str_of_nat_digits.
Qed.

Lemma labels_NoDup (table : list atom_charge) :
  (forall i j ri rj, i < j -> nth_error table i = Some ri -> nth_error table j = Some rj ->
     label ri <> label rj) ->
  NoDup (map label table).
Proof.
  intros Hd. apply NoDup_nth_error. intros i j Hi Heq.
  rewrite length_map in Hi. rewrite !nth_error_map in Heq.
  destruct (nth_error table i) as [ri|] eqn:Hri; [|apply nth_error_None in Hri; lia].
  destruct (nth_error table j) as [rj|] eqn:Hrj; [|discriminate Heq].
  simpl in Heq. injection Heq as Heq.
  destruct (Nat.lt_trichotomy i j) as [Hlt|[Heqij|Hgt]]; [|exact Heqij|].
  - exfalso. apply (Hd i j ri rj Hlt Hri Hrj Heq).
  - exfalso. apply (Hd j i rj ri Hgt Hrj Hri (eq_sym Heq)).
Qed.

(** X10: the labels of a table of [write_electro_properties.py] are
    pairwise distinct, provided no element token of a row that is kept
    holds a digit: two rows of one element differ in their counts, two
    rows of different elements in their elements. *)
Theorem mulliken_labels_distinct (fs : filesystem) (path : string)
    (lines : list string) (table : list atom_charge) :
  mulliken_table_lines fs path = Ok lines ->
  Mulliken.get_charge_table fs path = Ok table ->
  (forall row, In row (mulliken_kept_rows lines) -> digit_free (element_of row)) ->
  NoDup (map label table).
Proof.
  intros Hlines Hrun Hfree.
  destruct (mulliken_table_labels fs path table Hrun) as (lines' & Hl' & Hlen & Hlab).
  rewrite Hlines in Hl'. injection Hl' as <-.
  apply labels_NoDup.
  apply (labels_distinct table (mulliken_kept_rows lines) Hlen Hlab Hfree).
Qed.

Lemma mulliken_labels_distinct_witness : NoDup (map label example_mulliken_table).
Proof.
  apply (mulliken_labels_distinct example_mulliken_files "m.log"
           ["     1  C   -0.25000"; "     2  H    0.12500";
            "     3  O    0.50000"; "     4  C    0.12500"]).
  - vm_compute. reflexivity.
  - vm_compute. reflexivity.
  - intros row Hrow. vm_compute in Hrow.
    destruct Hrow as [<-|[<-|[<-|[]]]]; intros c Hc; vm_compute in Hc;
      destruct Hc as [<-|[]]; reflexivity.
Defined.

(** X11: the two steps together.  For three logs of
    [write_electro_properties.py] that list the same elements in the
    same order, hydrogens apart, no element holding a digit, the
    combined table has exactly one entry per atom that is kept, in the
    order of the log: the entry at position i holds the three charges of
    atom i and their two differences. *)
Theorem mulliken_tables_combine_fully (fs : filesystem) (p1 p2 p3 : string)
    (l1 l2 l3 : list string) (t1 t2 t3 : list atom_charge) :
  mulliken_table_lines fs p1 = Ok l1 ->
  mulliken_table_lines fs p2 = Ok l2 ->
  mulliken_table_lines fs p3 = Ok l3 ->
  Mulliken.get_charge_table fs p1 = Ok t1 ->
  Mulliken.get_charge_table fs p2 = Ok t2 ->
  Mulliken.get_charge_table fs p3 = Ok t3 ->
  map element_of (mulliken_kept_rows l2) = map element_of (mulliken_kept_rows l1) ->
  map element_of (mulliken_kept_rows l3) = map element_of (mulliken_kept_rows l1) ->
  (forall row, In row (mulliken_kept_rows l1) -> digit_free (element_of row)) ->
  exists d,
    Mulliken.combine_tables t1 t2 t3 = Ok d /\
    List.length d = List.length (mulliken_kept_rows l1) /\
    forall i x y z, nth_error t1 i = Some x -> nth_error t2 i = Some y ->
      nth_error t3 i = Some z ->
      nth_error d i =
        Some (label x, [charge x; charge z; charge y;
                        float_sub (charge x) (charge z);
                        float_sub (charge y) (charge x)]).
Proof.
  intros Hl1 Hl2 Hl3 Ht1 Ht2 Ht3 He2 He3 Hfree.
  destruct (same_elements_aligned fs p1 p2 p3 l1 l2 l3 t1 t2 t3
              Hl1 Hl2 Hl3 Ht1 Ht2 Ht3 He2 He3) as (Hlen2 & Hlen3 & Hal).
  destruct (mulliken_table_labels fs p1 t1 Ht1) as (l1' & Hl1' & Hn1 & Hlab1).
  rewrite Hl1 in Hl1'. injection Hl1' as <-.
  pose proof (labels_NoDup t1
                (labels_distinct t1 (mulliken_kept_rows l1) Hn1 Hlab1 Hfree)) as Hnd.
  destruct (combine_rec_distinct t1 t2 t3 [] Hlen2 Hlen3) as (d & Hd & Hlen & Hnth).
  - intros i x y z Hx Hy Hz.
    destruct (Hal i x Hx) as (y' & z' & Hy' & Hz' & Hxy & Hxz).
    rewrite Hy in Hy'. injection Hy' as <-. rewrite Hz in Hz'. injection Hz' as <-.
    split; assumption.
  - exact Hnd.
  - exists d.
    change (Mulliken.combine_tables t1 t2 t3) with (Nbo.combine_tables t1 t2 t3).
    rewrite combine_tables_rec. split; [exact Hd|].
    split; [rewrite Hlen; exact Hn1|exact Hnth].
Qed.

Lemma mulliken_tables_combine_fully_witness :
  exists d,
    Mulliken.combine_tables example_mulliken_table example_mulliken_anion_table
      example_mulliken_cation_table = Ok d /\
    List.length d
    = List.length (mulliken_kept_rows
                     ["     1  C   -0.25000"; "     2  H    0.12500";
                      "     3  O    0.50000"; "     4  C    0.12500"]) /\
    forall i x y z, nth_error example_mulliken_table i = Some x ->
      nth_error example_mulliken_anion_table i = Some y ->
      nth_error example_mulliken_cation_table i = Some z ->
      nth_error d i =
        Some (label x, [charge x; charge z; charge y;
                        float_sub (charge x) (charge z);
                        float_sub (charge y) (charge x)]).
Proof.
  apply (mulliken_tables_combine_fully example_mulliken_files "m.log" "m-1.log" "m+1.log"
           ["     1  C   -0.25000"; "     2  H    0.12500";
            "     3  O    0.50000"; "     4  C    0.12500"]
           ["     1  C   -0.50000"; "     2  H    0.06250";
            "     3  O    0.25000"; "     4  C    0.06250"]
           ["     1  C    0.25000"; "     2  H    0.25000";
            "     3  O    0.75000"; "     4  C    0.25000"]).
  - vm_compute. reflexivity.
  - vm_compute. reflexivity.
  - vm_compute. reflexivity.
  - vm_compute. reflexivity.
  - vm_compute. reflexivity.
  - vm_compute. reflexivity.
  - vm_compute. reflexivity.
  - vm_compute. reflexivity.
  - intros row Hrow. vm_compute in Hrow.
    destruct Hrow as [<-|[<-|[<-|[]]]]; intros c Hc; vm_compute in Hc;
      destruct Hc as [<-|[]]; reflexivity.
Defined.

(** ** The orbital energies, at the edges *)

Lemma get_homo_lumo_region fs path text i x :
  fs path = Some text ->
  last_match (contains POPULATION) (split_lines text) i x ->
  Nbo.get_homo_lumo fs path = homo_lumo_of_region (skipn i (split_lines text)).
Proof.
  intros Hfs Hpop. unfold Nbo.get_homo_lumo, read_lines. rewrite Hfs. cbn [bind].
  fold POPULATION. rewrite (indices_last_match _ _ _ _ Hpop). reflexivity.
Qed.

Lemma split_lines_aux_app (s1 s2 : string) : forall cur,
  split_lines_aux cur (s1 ++ String "010"%char s2)
  = split_lines_aux cur s1 ++ split_lines_aux [] s2.
Proof.
  induction s1 as [|c s1 IH]; intros cur; simpl.
  - reflexivity.
  - destruct (Ascii.eqb c "010"%char); simpl; rewrite IH; reflexivity.
Qed.

Lemma split_lines_app (s1 s2 : string) :
  split_lines (s1 ++ lf ++ s2) = split_lines s1 ++ split_lines s2.
Proof. unfold split_lines, lf. simpl. apply split_lines_aux_app. Qed.

Lemma exists_last_match (p : string -> bool) (l : list string) :
  (exists y, In y l /\ p y = true) -> exists i x, last_match p l i x.
Proof.
  induction l as [|y l IH]; intros (w & Hin & Hw); [destruct Hin|].
  destruct (existsb p l) eqn:Hex.
  - apply existsb_exists in Hex. destruct (IH Hex) as (i & x & Hx & Hp & Hafter).
    exists (S i), x. split; [exact Hx|]. split; [exact Hp|].
    intros j z Hj Hz. destruct j as [|j]; [lia|]. apply (Hafter j z); [lia|exact Hz].
  - assert (Hnone : forall z, In z l -> p z = false).
    { intros z Hz. destruct (p z) eqn:Hpz; [|reflexivity].
      assert (Ht : existsb p l = true) by (apply existsb_exists; exists z; split; assumption).
      congruence. }
    destruct Hin as [->|Hin]; [|rewrite (Hnone w Hin) in Hw; discriminate Hw].
    exists 0, w. split; [reflexivity|]. split; [exact Hw|].
    intros j z Hj Hz. destruct j as [|j]; [lia|]. simpl in Hz.
    apply Hnone. apply (nth_error_In _ _ Hz).
Qed.

Lemma last_match_app (p : string -> bool) (l1 l2 : list string) (i : nat) (x : string) :
  last_match p l2 i x -> last_match p (l1 ++ l2) (List.length l1 + i) x.
Proof.
  intros (Hx & Hp & Hafter). split; [|split; [exact Hp|]].
  - rewrite nth_error_app2 by lia.
    replace (List.length l1 + i - List.length l1) with i by lia. exact Hx.
  - intros j y Hj Hy. rewrite nth_error_app2 in Hy by lia.
    apply (Hafter (j - List.length l1) y); [lia|exact Hy].
Qed.

(** X12: what precedes the last population-analysis line is ignored.
    When a text holds a population-analysis line, putting any lines
    before it changes nothing: [get_homo_lumo] of either script gives,
    for the longer log, what it gives for the text alone. *)
Theorem get_homo_lumo_ignores_earlier_lines (fs fs' : filesystem) (path path' : string)
    (before text : string) :
  fs path = Some (before ++ lf ++ text)%string ->
  fs' path' = Some text ->
  (exists line, In line (split_lines text) /\ contains POPULATION line = true) ->
  Nbo.get_homo_lumo fs path = Nbo.get_homo_lumo fs' path' /\
  Mulliken.get_homo_lumo fs path = Mulliken.get_homo_lumo fs' path'.
Proof.
  intros Hfs Hfs' Hex.
  destruct (exists_last_match _ _ Hex) as (i & x & Hlast).
  assert (H : Nbo.get_homo_lumo fs path = Nbo.get_homo_lumo fs' path').
  { rewrite (get_homo_lumo_region fs' path' text i x Hfs' Hlast).
    rewrite (get_homo_lumo_region fs path _ (List.length (split_lines before) + i) x Hfs).
    - rewrite split_lines_app, skipn_app.
      replace (List.length (split_lines before) + i - List.length (split_lines before))
        with i by lia.
      rewrite skipn_all2 by lia. reflexivity.
    - rewrite split_lines_app. apply last_match_app. exact Hlast. }
  split; exact H.
Qed.

Lemma get_homo_lumo_ignores_earlier_lines_witness :
  Nbo.get_homo_lumo
    (fun _ => Some (" Alpha  occ. eigenvalues --   -0.90000  -0.80000" ++ lf ++
                    example_nbo_log [])%string) "long.log"
  = Nbo.get_homo_lumo (fun _ => Some (example_nbo_log [])) "m.log" /\
  Mulliken.get_homo_lumo
    (fun _ => Some (" Alpha  occ. eigenvalues --   -0.90000  -0.80000" ++ lf ++
                    example_nbo_log [])%string) "long.log"
  = Mulliken.get_homo_lumo (fun _ => Some (example_nbo_log [])) "m.log".
Proof.
  apply (get_homo_lumo_ignores_earlier_lines
           (fun _ => Some (" Alpha  occ. eigenvalues --   -0.90000  -0.80000" ++ lf ++
                           example_nbo_log [])%string)
           (fun _ => Some (example_nbo_log [])) "long.log" "m.log"
           " Alpha  occ. eigenvalues --   -0.90000  -0.80000" (example_nbo_log [])).
  - reflexivity.
  - reflexivity.
  - exists " Population analysis using the SCF density.".
    split; [left; reflexivity|reflexivity].
Defined.

(** X13: an occupied-eigenvalues line helps only at or after the last
    population-analysis line.  If no line from that line on holds the
    occupied marker, [get_homo_lumo] raises [IndexError], whatever
    comes before. *)
Theorem occupied_before_anchor_is_not_used (fs : filesystem) (path text : string)
    (anchor : nat) (anchor_line : string) :
  fs path = Some text ->
  last_match (contains POPULATION) (split_lines text) anchor anchor_line ->
  (forall j y, anchor <= j -> nth_error (split_lines text) j = Some y ->
     contains OCCUPIED y = false) ->
  Nbo.get_homo_lumo fs path = Raise IndexError /\
  Mulliken.get_homo_lumo fs path = Raise IndexError.
Proof.
  intros Hfs Hpop Hnone.
  assert (H : Nbo.get_homo_lumo fs path = Raise IndexError).
  { rewrite (get_homo_lumo_region fs path text anchor anchor_line Hfs Hpop).
    unfold homo_lumo_of_region. rewrite filter_none; [reflexivity|].
    intros y Hy. destruct (In_nth_error _ _ Hy) as [j Hj].
    rewrite nth_error_skipn in Hj. apply (Hnone (anchor + j) y); [lia|exact Hj]. }
  split; exact H.
Qed.

Lemma occupied_before_anchor_is_not_used_witness :
  Nbo.get_homo_lumo
    (fun _ => Some (unlines [" Alpha  occ. eigenvalues --   -0.40000  -0.30000";
                             " Population analysis using the SCF density.";
                             " Alpha virt. eigenvalues --    0.10000   0.20000"]))
    "m.log" = Raise IndexError /\
  Mulliken.get_homo_lumo
    (fun _ => Some (unlines [" Alpha  occ. eigenvalues --   -0.40000  -0.30000";
                             " Population analysis using the SCF density.";
                             " Alpha virt. eigenvalues --    0.10000   0.20000"]))
    "m.log" = Raise IndexError.
Proof.
  apply (occupied_before_anchor_is_not_used
           (fun _ => Some (unlines [" Alpha  occ. eigenvalues --   -0.40000  -0.30000";
                                    " Population analysis using the SCF density.";
                                    " Alpha virt. eigenvalues --    0.10000   0.20000"]))
           "m.log" _ 1 " Population analysis using the SCF density." eq_refl).
  - split; [reflexivity|]. split; [reflexivity|].
    intros j y Hj Hy. destruct j as [|[|[|j]]]; try lia.
    + vm_compute in Hy. injection Hy as <-. reflexivity.
    + vm_compute in Hy. destruct j; discriminate Hy.
  - intros j y Hj Hy. destruct j as [|[|[|j]]]; try lia.
    + vm_compute in Hy. injection Hy as <-. reflexivity.
    + vm_compute in Hy. injection Hy as <-. reflexivity.
    + vm_compute in Hy. destruct j; discriminate Hy.
Defined.

(** X14: the two tokens must be there and must be numbers.  With the
    anchor, the last occupied line and the first virtual line found:
    a HOMO token that [float] refuses ends in [ValueError]; with a HOMO
    that is read, a virtual line of fewer than five tokens ends in
    [IndexError], and a LUMO token that [float] refuses in
    [ValueError]. *)
Theorem homo_lumo_token_errors (fs : filesystem) (path text : string)
    (anchor j k : nat) (anchor_line occupied virtual : string)
    (before : list string) (homo_token : string) :
  fs path = Some text ->
  last_match (contains POPULATION) (split_lines text) anchor anchor_line ->
  last_match (contains OCCUPIED) (split_lines text) j occupied ->
  anchor <= j ->
  first_match_from anchor (contains VIRTUAL) (split_lines text) k virtual ->
  split_ws occupied = before ++ [homo_token] ->
  (float_of_str homo_token = Raise ValueError ->
   Nbo.get_homo_lumo fs path = Raise ValueError /\
   Mulliken.get_homo_lumo fs path = Raise ValueError) /\
  (forall homo, float_of_str homo_token = Ok homo ->
   List.length (split_ws virtual) < 5 ->
   Nbo.get_homo_lumo fs path = Raise IndexError /\
   Mulliken.get_homo_lumo fs path = Raise IndexError) /\
  (forall homo lumo_token, float_of_str homo_token = Ok homo ->
   nth_error (split_ws virtual) 4 = Some lumo_token ->
   float_of_str lumo_token = Raise ValueError ->
   Nbo.get_homo_lumo fs path = Raise ValueError /\
   Mulliken.get_homo_lumo fs path = Raise ValueError).
Proof.
  intros Hfs Hpop Hocc Hle Hvirt Htok.
  assert (Hreg : Nbo.get_homo_lumo fs path
                 = (homo <- float_of_str homo_token ;;
                    lumo_token <- getitem (split_ws virtual) 4 ;;
                    lumo <- float_of_str lumo_token ;;
                    Ok (homo, lumo))).
  { rewrite (get_homo_lumo_region fs path text anchor anchor_line Hfs Hpop).
    unfold homo_lumo_of_region.
    rewrite (filter_last_match _ _ _ _ _ Hocc Hle). cbn [bind].
    rewrite Htok, getitem_last. cbn [bind].
    destruct (float_of_str homo_token) as [homo|e]; cbn [bind]; [|reflexivity].
    rewrite (filter_first_match _ _ _ _ _ Hvirt). reflexivity. }
  change (Mulliken.get_homo_lumo fs path) with (Nbo.get_homo_lumo fs path).
  rewrite Hreg. split; [|split].
  - intros Hbad. rewrite Hbad. split; reflexivity.
  - intros homo Hhomo Hshort. rewrite Hhomo. cbn [bind].
    change 4%Z with (Z.of_nat 4). rewrite getitem_nat.
    assert (Hn : nth_error (split_ws virtual) 4 = None) by (apply nth_error_None; lia).
    rewrite Hn. split; reflexivity.
  - intros homo lumo_token Hhomo Hlt Hbad. rewrite Hhomo. cbn [bind].
    change 4%Z with (Z.of_nat 4). rewrite getitem_nat, Hlt. cbn [bind].
    rewrite Hbad. split; reflexivity.
Qed.

Lemma homo_lumo_token_errors_witness :
  Nbo.get_homo_lumo
    (fun _ => Some (unlines [" Population analysis using the SCF density.";
                             " Alpha  occ. eigenvalues --   -0.40000  -0.30000";
                             " Alpha virt. eigenvalues --"]))
    "m.log" = Raise IndexError /\
  Mulliken.get_homo_lumo
    (fun _ => Some (unlines [" Population analysis using the SCF density.";
                             " Alpha  occ. eigenvalues --   -0.40000  -0.30000";
                             " Alpha virt. eigenvalues --"]))
    "m.log" = Raise IndexError.
Proof.
  destruct (homo_lumo_token_errors
              (fun _ => Some (unlines [" Population analysis using the SCF density.";
                                       " Alpha  occ. eigenvalues --   -0.40000  -0.30000";
                                       " Alpha virt. eigenvalues --"]))
              "m.log" _ 0 1 2
              " Population analysis using the SCF density."
              " Alpha  occ. eigenvalues --   -0.40000  -0.30000"
              " Alpha virt. eigenvalues --"
              ["Alpha"; "occ."; "eigenvalues"; "--"; "-0.40000"] "-0.30000" eq_refl)
    as (_ & Hshort & _).
  - split; [reflexivity|]. split; [reflexivity|].
    intros j y Hj Hy. destruct j as [|[|[|j]]]; try lia.
    + vm_compute in Hy. injection Hy as <-. reflexivity.
    + vm_compute in Hy. injection Hy as <-. reflexivity.
    + vm_compute in Hy. destruct j; discriminate Hy.
  - split; [reflexivity|]. split; [reflexivity|].
    intros j y Hj Hy. destruct j as [|[|[|j]]]; try lia.
    + vm_compute in Hy. injection Hy as <-. reflexivity.
    + vm_compute in Hy. destruct j; discriminate Hy.
  - lia.
  - vm_compute. repeat split; try lia.
    intros j y Hj1 Hj2 Hy. destruct j as [|[|j]]; try lia.
    + injection Hy as <-. reflexivity.
    + injection Hy as <-. reflexivity.
  - reflexivity.
  - apply (Hshort (S754_finite true 5404319552844595 (-54))).
    + vm_compute. reflexivity.
    + vm_compute. lia.
Defined.

(** ** The output files *)

Lemma length_substring_0 (s : string) : forall n,
  n <= String.length s -> String.length (String.substring 0 n s) = n.
Proof.
  induction s as [|c s IH]; intros n Hn; simpl in *.
  - destruct n; [reflexivity|lia].
  - destruct n as [|n]; [reflexivity|]. simpl. rewrite IH by lia. reflexivity.
Qed.

Lemma length_drop_last4 (s : string) :
  String.length (drop_last4 s) = String.length s - 4.
Proof. unfold drop_last4. apply length_substring_0. lia. Qed.

Lemma length_append (s1 s2 : string) :
  String.length (s1 ++ s2) = String.length s1 + String.length s2.
Proof. induction s1 as [|c s1 IH]; simpl; [reflexivity|rewrite IH; reflexivity]. Qed.

(** A name made from the stem of [path] and a suffix of more than four
    characters is not [path]. *)
Lemma stem_suffix_not_path (path suffix : string) :
  4 < String.length suffix -> (drop_last4 path ++ suffix)%string <> path.
Proof.
  intros Hlen Heq. apply (f_equal String.length) in Heq.
  rewrite length_append, length_drop_last4 in Heq. lia.
Qed.

Lemma stem_suffixes_differ (path s1 s2 : string) :
  String.length s1 <> String.length s2 ->
  (drop_last4 path ++ s1)%string <> (drop_last4 path ++ s2)%string.
Proof.
  intros Hlen Heq. apply (f_equal String.length) in Heq.
  rewrite !length_append in Heq. lia.
Qed.

Lemma set_file_other (fs : filesystem) (target : string) (content : option string)
    (p : string) :
  p <> target -> set_file fs target content p = fs p.
Proof.
  intros Hne. unfold set_file.
  destruct (String.eqb p target) eqn:E; [|reflexivity].
  apply String.eqb_eq in E. contradiction.
Qed.

Lemma set_file_same (fs : filesystem) (target : string) (content : option string) :
  set_file fs target content target = content.
Proof. unfold set_file. rewrite String.eqb_refl. reflexivity. Qed.

(** The readers depend on the file system through the files they name. *)
Lemma get_homo_lumo_reads_path (fs fs' : filesystem) (path : string) :
  fs' path = fs path -> Nbo.get_homo_lumo fs' path = Nbo.get_homo_lumo fs path.
Proof. intros H. unfold Nbo.get_homo_lumo, read_lines. rewrite H. reflexivity. Qed.

Lemma nbo_get_charge_table_reads_path (fs fs' : filesystem) (path : string) :
  fs' path = fs path -> Nbo.get_charge_table fs' path = Nbo.get_charge_table fs path.
Proof. intros H. unfold Nbo.get_charge_table, read_lines. rewrite H. reflexivity. Qed.

Lemma mulliken_get_charge_table_reads_path (fs fs' : filesystem) (path : string) :
  fs' path = fs path ->
  Mulliken.get_charge_table fs' path = Mulliken.get_charge_table fs path.
Proof. intros H. unfold Mulliken.get_charge_table, read_lines. rewrite H. reflexivity. Qed.

Lemma nbo_write_local_electro_reads_logs {L : Libm} (fs fs' : filesystem) (path : string) :
  fs' path = fs path ->
  fs' (drop_last4 path ++ "-1.log")%string = fs (drop_last4 path ++ "-1.log")%string ->
  fs' (drop_last4 path ++ "+1.log")%string = fs (drop_last4 path ++ "+1.log")%string ->
  Nbo.write_local_electro fs' path = Nbo.write_local_electro fs path.
Proof.
  intros H0 H1 H2. unfold Nbo.write_local_electro.
  rewrite (nbo_get_charge_table_reads_path fs fs' path H0).
  rewrite (nbo_get_charge_table_reads_path fs fs' _ H1).
  rewrite (nbo_get_charge_table_reads_path fs fs' _ H2).
  rewrite (get_homo_lumo_reads_path fs fs' path H0). reflexivity.
Qed.

Lemma mulliken_write_local_electro_reads_logs {L : Libm} (fs fs' : filesystem)
    (path : string) :
  fs' path = fs path ->
  fs' (drop_last4 path ++ "-1.log")%string = fs (drop_last4 path ++ "-1.log")%string ->
  fs' (drop_last4 path ++ "+1.log")%string = fs (drop_last4 path ++ "+1.log")%string ->
  Mulliken.write_local_electro fs' path = Mulliken.write_local_electro fs path.
Proof.
  intros H0 H1 H2. unfold Mulliken.write_local_electro.
  rewrite (mulliken_get_charge_table_reads_path fs fs' path H0).
  rewrite (mulliken_get_charge_table_reads_path fs fs' _ H1).
  rewrite (mulliken_get_charge_table_reads_path fs fs' _ H2).
  change (Mulliken.get_homo_lumo fs' path) with (Nbo.get_homo_lumo fs' path).
  change (Mulliken.get_homo_lumo fs path) with (Nbo.get_homo_lumo fs path).
  rewrite (get_homo_lumo_reads_path fs fs' path H0). reflexivity.
Qed.

(** The three logs that a run reads. *)
Lemma nbo_output_is_no_input (path : string) :
  path <> NboFiles.output_path path /\
  (drop_last4 path ++ "-1.log")%string <> NboFiles.output_path path /\
  (drop_last4 path ++ "+1.log")%string <> NboFiles.output_path path.
Proof.
  unfold NboFiles.output_path. split; [|split].
  - intros H. symmetry in H. revert H. apply stem_suffix_not_path. simpl. lia.
  - apply stem_suffixes_differ. simpl. lia.
  - apply stem_suffixes_differ. simpl. lia.
Qed.

Lemma mulliken_outputs_are_no_inputs (path : string) :
  (path <> MullikenFiles.global_path path /\
   (drop_last4 path ++ "-1.log")%string <> MullikenFiles.global_path path /\
   (drop_last4 path ++ "+1.log")%string <> MullikenFiles.global_path path) /\
  (path <> MullikenFiles.local_path path /\
   (drop_last4 path ++ "-1.log")%string <> MullikenFiles.local_path path /\
   (drop_last4 path ++ "+1.log")%string <> MullikenFiles.local_path path) /\
  MullikenFiles.local_path path <> MullikenFiles.global_path path.
Proof.
  unfold MullikenFiles.global_path, MullikenFiles.local_path.
  repeat match goal with |- _ /\ _ => split end;
    try (apply stem_suffixes_differ; simpl; lia);
    intros H; symmetry in H; revert H; apply stem_suffix_not_path; simpl; lia.
Qed.

Lemma nbo_main_frame {L : Libm} {O : Os} {P : Pandas} (fs : filesystem)
    (path p : string) :
  p <> NboFiles.output_path path -> fst (NboFiles.main fs path) p = fs p.
Proof.
  intros Hp. unfold NboFiles.main, NboFiles.write_global_electro.
  destruct (hl <- Nbo.get_homo_lumo fs path ;; Nbo.get_properties (fst hl) (snd hl))
    as [props|e]; [|reflexivity].
  unfold write_text. destruct (writable (NboFiles.output_path path)); [|reflexivity].
  unfold NboFiles.write_local_electro.
  destruct (Nbo.write_local_electro _ path) as [table|e]; cbn [fst].
  - destruct (to_csv true NboFiles.COLUMNS true table _ _) as [content outcome].
    cbn [fst]. rewrite !set_file_other by exact Hp. reflexivity.
  - apply set_file_other. exact Hp.
Qed.

Lemma mulliken_main_frame {L : Libm} {R : FloatRepr} {O : Os} {P : Pandas}
    (fs : filesystem) (path p : string) :
  p <> MullikenFiles.global_path path -> p <> MullikenFiles.local_path path ->
  fst (MullikenFiles.main fs path) p = fs p.
Proof.
  intros Hg Hl. unfold MullikenFiles.main, MullikenFiles.write_global_electro.
  destruct (hl <- Mulliken.get_homo_lumo fs path ;;
            Mulliken.get_properties (fst hl) (snd hl)) as [props|e]; [|reflexivity].
  unfold write_text. destruct (writable (MullikenFiles.global_path path)); [|reflexivity].
  unfold MullikenFiles.write_local_electro.
  destruct (Mulliken.write_local_electro _ path) as [table|e]; cbn [fst].
  - destruct (to_csv false MullikenFiles.COLUMNS false table _ _) as [content outcome].
    cbn [fst]. rewrite set_file_other by exact Hl. apply set_file_other. exact Hg.
  - apply set_file_other. exact Hg.
Qed.

(** X15: a run changes its output files only, and these are never among
    the logs it reads.  Whatever the files hold and however the run ends
    (also by an exception), every path other than
    [<stem>_electro.csv] holds after [main] of [write_electro_nbo.py]
    what it held before, and so does every path other than
    [<stem>_global_electro.txt] and [<stem>_local_electro.txt] after
    [main] of [write_electro_properties.py]; in particular the logs of
    the neutral state, the anion and the cation are as they were. *)
Theorem main_changes_only_its_outputs {L : Libm} {R : FloatRepr} {O : Os} {P : Pandas}
    (fs : filesystem) (path : string) :
  (forall p, p <> NboFiles.output_path path ->
     fst (NboFiles.main fs path) p = fs p) /\
  (forall p, p <> MullikenFiles.global_path path ->
     p <> MullikenFiles.local_path path ->
     fst (MullikenFiles.main fs path) p = fs p) /\
  (forall p, p = path \/ p = (drop_last4 path ++ "-1.log")%string \/
             p = (drop_last4 path ++ "+1.log")%string ->
     fst (NboFiles.main fs path) p = fs p /\
     fst (MullikenFiles.main fs path) p = fs p).
Proof.
  split; [|split].
  - intros p Hp. apply nbo_main_frame. exact Hp.
  - intros p Hg Hl. apply mulliken_main_frame; assumption.
  - intros p Hp.
    destruct (nbo_output_is_no_input path) as (N0 & N1 & N2).
    destruct (mulliken_outputs_are_no_inputs path)
      as ((G0 & G1 & G2) & (L0 & L1 & L2) & _).
    destruct Hp as [->|[->| ->]]; split;
      first [apply nbo_main_frame; assumption | apply mulliken_main_frame; assumption].
Qed.

(** X16: nothing is written before the global properties are there.  If
    reading the orbital energies or computing the properties raises, or
    if the global output cannot be opened, [main] of either script ends
    with that exception and no file has changed. *)
Theorem main_writes_nothing_on_early_failure {L : Libm} {R : FloatRepr} {O : Os}
    {P : Pandas} (fs : filesystem) (path : string) :
  (forall e,
     (hl <- Nbo.get_homo_lumo fs path ;; Nbo.get_properties (fst hl) (snd hl)) = Raise e ->
     NboFiles.main fs path = (fs, Raise e) /\
     MullikenFiles.main fs path = (fs, Raise e)) /\
  (forall props,
     (hl <- Nbo.get_homo_lumo fs path ;; Nbo.get_properties (fst hl) (snd hl))
     = Ok props ->
     (writable (NboFiles.output_path path) = false ->
      NboFiles.main fs path = (fs, Raise OSError)) /\
     (writable (MullikenFiles.global_path path) = false ->
      MullikenFiles.main fs path = (fs, Raise OSError))).
Proof.
  split.
  - intros e He. unfold NboFiles.main, NboFiles.write_global_electro,
      MullikenFiles.main, MullikenFiles.write_global_electro.
    change (hl <- Mulliken.get_homo_lumo fs path ;;
            Mulliken.get_properties (fst hl) (snd hl))
      with (hl <- Nbo.get_homo_lumo fs path ;; Nbo.get_properties (fst hl) (snd hl)).
    rewrite He. split; reflexivity.
  - intros props Hp. unfold NboFiles.main, NboFiles.write_global_electro,
      MullikenFiles.main, MullikenFiles.write_global_electro.
    change (hl <- Mulliken.get_homo_lumo fs path ;;
            Mulliken.get_properties (fst hl) (snd hl))
      with (hl <- Nbo.get_homo_lumo fs path ;; Nbo.get_properties (fst hl) (snd hl)).
    rewrite Hp. unfold write_text. split; intros Hw; rewrite Hw; reflexivity.
Qed.

(** X17: the local stage of [write_electro_nbo.py] works from the logs as
    they were, and on top of the global block.  When the global
    properties [props] are computed and the output can be opened, the
    output holds the global block; the table of the local stage is the
    one the logs gave before that write.  If building it raises, [main]
    ends with that exception and the output holds the global block
    alone; otherwise [pandas] is called once, in append mode, on the
    output holding the global block, and [main] ends as that call
    does. *)
Theorem nbo_main_after_global_stage {L : Libm} {O : Os} {P : Pandas}
    (fs : filesystem) (path : string) (props : properties) :
  (hl <- Nbo.get_homo_lumo fs path ;; Nbo.get_properties (fst hl) (snd hl)) = Ok props ->
  writable (NboFiles.output_path path) = true ->
  (forall e, Nbo.write_local_electro fs path = Raise e ->
     NboFiles.main fs path
     = (set_file fs (NboFiles.output_path path)
          (Some (NboFiles.written_text path props)), Raise e)) /\
  (forall table, Nbo.write_local_electro fs path = Ok table ->
     exists content outcome,
       to_csv true NboFiles.COLUMNS true table (NboFiles.output_path path)
         (Some (NboFiles.written_text path props)) = (content, outcome) /\
       snd (NboFiles.main fs path) = outcome /\
       fst (NboFiles.main fs path) (NboFiles.output_path path) = content).
Proof.
  intros Hp Hw.
  destruct (nbo_output_is_no_input path) as (N0 & N1 & N2).
  set (fs1 := set_file fs (NboFiles.output_path path)
                (Some (NboFiles.written_text path props))).
  assert (Hsame : Nbo.write_local_electro fs1 path = Nbo.write_local_electro fs path).
  { apply nbo_write_local_electro_reads_logs; apply set_file_other; assumption. }
  assert (Hmain : NboFiles.main fs path = NboFiles.write_local_electro fs1 path).
  { unfold NboFiles.main, NboFiles.write_global_electro. rewrite Hp.
    unfold write_text. rewrite Hw. reflexivity. }
  rewrite Hmain. unfold NboFiles.write_local_electro. rewrite Hsame. split.
  - intros e He. rewrite He. reflexivity.
  - intros table Ht. rewrite Ht.
    assert (Hold : fs1 (NboFiles.output_path path)
                   = Some (NboFiles.written_text path props)) by apply set_file_same.
    rewrite Hold.
    destruct (to_csv true NboFiles.COLUMNS true table _ _) as [content outcome].
    exists content, outcome. split; [reflexivity|]. split; [reflexivity|].
    cbn [fst]. apply set_file_same.
Qed.

(** X18: the same for [write_electro_properties.py], whose two outputs
    are two files.  When the global properties are computed and the
    global output can be opened, it holds the five lines; the table of
    the local stage is the one the logs gave before that write.  If
    building it raises, [main] ends with that exception, the global
    output is there and the local output is as it was; otherwise
    [pandas] is called once, in write mode, on the local output, [main]
    ends as that call does, and the global output keeps the five
    lines. *)
Theorem mulliken_main_after_global_stage {L : Libm} {R : FloatRepr} {O : Os}
    {P : Pandas} (fs : filesystem) (path : string) (props : properties) :
  (hl <- Mulliken.get_homo_lumo fs path ;; Mulliken.get_properties (fst hl) (snd hl))
  = Ok props ->
  writable (MullikenFiles.global_path path) = true ->
  (forall e, Mulliken.write_local_electro fs path = Raise e ->
     MullikenFiles.main fs path
     = (set_file fs (MullikenFiles.global_path path)
          (Some (MullikenFiles.written_text props)), Raise e)) /\
  (forall table, Mulliken.write_local_electro fs path = Ok table ->
     exists content outcome,
       to_csv false MullikenFiles.COLUMNS false table (MullikenFiles.local_path path)
         (fs (MullikenFiles.local_path path)) = (content, outcome) /\
       snd (MullikenFiles.main fs path) = outcome /\
       fst (MullikenFiles.main fs path) (MullikenFiles.local_path path) = content /\
       fst (MullikenFiles.main fs path) (MullikenFiles.global_path path)
       = Some (MullikenFiles.written_text props)).
Proof.
  intros Hp Hw.
  destruct (mulliken_outputs_are_no_inputs path) as ((G0 & G1 & G2) & _ & Hlg).
  set (fs1 := set_file fs (MullikenFiles.global_path path)
                (Some (MullikenFiles.written_text props))).
  assert (Hsame : Mulliken.write_local_electro fs1 path
                  = Mulliken.write_local_electro fs path).
  { apply mulliken_write_local_electro_reads_logs; apply set_file_other; assumption. }
  assert (Hmain : MullikenFiles.main fs path = MullikenFiles.write_local_electro fs1 path).
  { unfold MullikenFiles.main, MullikenFiles.write_global_electro. rewrite Hp.
    unfold write_text. rewrite Hw. reflexivity. }
  rewrite Hmain. unfold MullikenFiles.write_local_electro. rewrite Hsame. split.
  - intros e He. rewrite He. reflexivity.
  - intros table Ht. rewrite Ht.
    assert (Hold : fs1 (MullikenFiles.local_path path)
                   = fs (MullikenFiles.local_path path))
      by (apply set_file_other; exact Hlg).
    rewrite Hold.
    destruct (to_csv false MullikenFiles.COLUMNS false table _ _) as [content outcome].
    exists content, outcome. split; [reflexivity|]. split; [reflexivity|].
    cbn [fst]. split; [apply set_file_same|].
    rewrite set_file_other by (intros H; apply Hlg; symmetry; exact H).
    apply set_file_same.
Qed.

Lemma main_writes_nothing_on_early_failure_witness :
  @NboFiles.main square_libm open_os keys_pandas (fun _ => Some degenerate_log) "m.log"
  = (fun _ => Some degenerate_log, Raise ZeroDivisionError) /\
  @MullikenFiles.main square_libm short_repr open_os keys_pandas
    (fun _ => Some degenerate_log) "m.log"
  = (fun _ => Some degenerate_log, Raise ZeroDivisionError).
Proof.
  apply (proj1 (@main_writes_nothing_on_early_failure square_libm short_repr open_os
                  keys_pandas (fun _ => Some degenerate_log) "m.log")
           ZeroDivisionError).
  vm_compute. reflexivity.
Defined.

Lemma nbo_main_after_global_stage_witness :
  (forall e, @Nbo.write_local_electro square_libm example_nbo_files "m.log" = Raise e ->
     @NboFiles.main square_libm open_os keys_pandas example_nbo_files "m.log"
     = (set_file example_nbo_files (NboFiles.output_path "m.log")
          (Some (NboFiles.written_text "m.log" example_properties)), Raise e)) /\
  (forall table,
     @Nbo.write_local_electro square_libm example_nbo_files "m.log" = Ok table ->
     exists content outcome,
       @to_csv keys_pandas true NboFiles.COLUMNS true table (NboFiles.output_path "m.log")
         (Some (NboFiles.written_text "m.log" example_properties)) = (content, outcome) /\
       snd (@NboFiles.main square_libm open_os keys_pandas example_nbo_files "m.log")
       = outcome /\
       fst (@NboFiles.main square_libm open_os keys_pandas example_nbo_files "m.log")
         (NboFiles.output_path "m.log") = content).
Proof.
  apply (@nbo_main_after_global_stage square_libm open_os keys_pandas
           example_nbo_files "m.log" example_properties).
  - vm_compute. reflexivity.
  - reflexivity.
Defined.

Lemma mulliken_main_after_global_stage_witness :
  (forall e,
     @Mulliken.write_local_electro square_libm example_mulliken_files "m.log" = Raise e ->
     @MullikenFiles.main square_libm short_repr open_os keys_pandas
       example_mulliken_files "m.log"
     = (set_file example_mulliken_files (MullikenFiles.global_path "m.log")
          (Some (@MullikenFiles.written_text short_repr example_properties)), Raise e)) /\
  (forall table,
     @Mulliken.write_local_electro square_libm example_mulliken_files "m.log" = Ok table ->
     exists content outcome,
       @to_csv keys_pandas false MullikenFiles.COLUMNS false table
         (MullikenFiles.local_path "m.log")
         (example_mulliken_files (MullikenFiles.local_path "m.log"))
       = (content, outcome) /\
       snd (@MullikenFiles.main square_libm short_repr open_os keys_pandas
              example_mulliken_files "m.log") = outcome /\
       fst (@MullikenFiles.main square_libm short_repr open_os keys_pandas
              example_mulliken_files "m.log") (MullikenFiles.local_path "m.log")
       = content /\
       fst (@MullikenFiles.main square_libm short_repr open_os keys_pandas
              example_mulliken_files "m.log") (MullikenFiles.global_path "m.log")
       = Some (@MullikenFiles.written_text short_repr example_properties)).
Proof.
  apply (@mulliken_main_after_global_stage square_libm short_repr open_os keys_pandas
           example_mulliken_files "m.log" example_properties).
  - vm_compute. reflexivity.
  - reflexivity.
Defined.

Lemma substring_0_append (s t : string) :
  String.substring 0 (String.length s) (s ++ t) = s.
Proof.
  induction s as [|c s IH]; simpl.
  - destruct t; reflexivity.
  - rewrite IH. reflexivity.
Qed.

Lemma drop_last4_append (stem ext : string) :
  String.length ext = 4 -> drop_last4 (stem ++ ext) = stem.
Proof.
  intros Hlen. unfold drop_last4. rewrite length_append, Hlen.
  replace (String.length stem + 4 - 4) with (String.length stem) by lia.
  apply substring_0_append.
Qed.

(** X19: the files of a run are named by the stem, and the local stage
    reads three of them and no other.  For a path made of a stem and any
    four characters (".log" or not), the tables of [write_local_electro]
    of either script depend on the files [<stem><the four>],
    [<stem>-1.log] and [<stem>+1.log] only: two file systems that agree
    on these give the same table or the same exception.  The outputs are
    [<stem>_electro.csv], and [<stem>_global_electro.txt] with
    [<stem>_local_electro.txt]. *)
Theorem local_stage_reads_three_logs {L : Libm} (fs fs' : filesystem)
    (stem ext : string) :
  String.length ext = 4 ->
  fs' (stem ++ ext)%string = fs (stem ++ ext)%string ->
  fs' (stem ++ "-1.log")%string = fs (stem ++ "-1.log")%string ->
  fs' (stem ++ "+1.log")%string = fs (stem ++ "+1.log")%string ->
  Nbo.write_local_electro fs' (stem ++ ext) = Nbo.write_local_electro fs (stem ++ ext) /\
  Mulliken.write_local_electro fs' (stem ++ ext)
  = Mulliken.write_local_electro fs (stem ++ ext) /\
  NboFiles.output_path (stem ++ ext) = (stem ++ "_electro.csv")%string /\
  MullikenFiles.global_path (stem ++ ext) = (stem ++ "_global_electro.txt")%string /\
  MullikenFiles.local_path (stem ++ ext) = (stem ++ "_local_electro.txt")%string.
Proof.
  intros Hlen H0 H1 H2.
  pose proof (drop_last4_append stem ext Hlen) as Hstem.
  split; [|split; [|split; [|split]]].
  - apply nbo_write_local_electro_reads_logs; rewrite ?Hstem; assumption.
  - apply mulliken_write_local_electro_reads_logs; rewrite ?Hstem; assumption.
  - unfold NboFiles.output_path. rewrite Hstem. reflexivity.
  - unfold MullikenFiles.global_path. rewrite Hstem. reflexivity.
  - unfold MullikenFiles.local_path. rewrite Hstem. reflexivity.
Qed.

Lemma local_stage_reads_three_logs_witness :
  @Nbo.write_local_electro square_libm
    (set_file example_nbo_files "notes.txt" (Some "x")) ("m" ++ ".log")
  = @Nbo.write_local_electro square_libm example_nbo_files ("m" ++ ".log") /\
  @Mulliken.write_local_electro square_libm
    (set_file example_nbo_files "notes.txt" (Some "x")) ("m" ++ ".log")
  = @Mulliken.write_local_electro square_libm example_nbo_files ("m" ++ ".log") /\
  NboFiles.output_path ("m" ++ ".log") = ("m" ++ "_electro.csv")%string /\
  MullikenFiles.global_path ("m" ++ ".log") = ("m" ++ "_global_electro.txt")%string /\
  MullikenFiles.local_path ("m" ++ ".log") = ("m" ++ "_local_electro.txt")%string.
Proof.
  apply (@local_stage_reads_three_logs square_libm example_nbo_files
           (set_file example_nbo_files "notes.txt" (Some "x")) "m" ".log");
    reflexivity.
Defined.

(** ** Hydrogen, from the logs to the files *)

Lemma nbo_main_returns {L : Libm} {O : Os} {P : Pandas} (fs : filesystem)
    (path : string) :
  snd (NboFiles.main fs path) = Ok tt ->
  exists props table content,
    Nbo.write_local_electro fs path = Ok table /\
    to_csv true NboFiles.COLUMNS true table (NboFiles.output_path path)
      (Some (NboFiles.written_text path props)) = (content, Ok tt) /\
    fst (NboFiles.main fs path) (NboFiles.output_path path) = content.
Proof.
  unfold NboFiles.main, NboFiles.write_global_electro.
  destruct (hl <- Nbo.get_homo_lumo fs path ;; Nbo.get_properties (fst hl) (snd hl))
    as [props|e]; [|discriminate].
  unfold write_text. destruct (writable (NboFiles.output_path path)); [|discriminate].
  destruct (nbo_output_is_no_input path) as (N0 & N1 & N2).
  unfold NboFiles.write_local_electro.
  rewrite (nbo_write_local_electro_reads_logs fs
             (set_file fs (NboFiles.output_path path)
                (Some (NboFiles.written_text path props))) path)
    by (apply set_file_other; assumption).
  destruct (Nbo.write_local_electro fs path) as [table|e]; [|discriminate].
  rewrite set_file_same.
  destruct (to_csv true NboFiles.COLUMNS true table _ _) as [content outcome] eqn:Hcsv.
  cbn [fst snd]. intros ->. exists props, table, content.
  split; [reflexivity|]. split; [exact Hcsv|]. apply set_file_same.
Qed.

Lemma mulliken_main_returns {L : Libm} {R : FloatRepr} {O : Os} {P : Pandas}
    (fs : filesystem) (path : string) :
  snd (MullikenFiles.main fs path) = Ok tt ->
  exists table content,
    Mulliken.write_local_electro fs path = Ok table /\
    to_csv false MullikenFiles.COLUMNS false table (MullikenFiles.local_path path)
      (fs (MullikenFiles.local_path path)) = (content, Ok tt) /\
    fst (MullikenFiles.main fs path) (MullikenFiles.local_path path) = content.
Proof.
  unfold MullikenFiles.main, MullikenFiles.write_global_electro.
  destruct (hl <- Mulliken.get_homo_lumo fs path ;;
            Mulliken.get_properties (fst hl) (snd hl)) as [props|e]; [|discriminate].
  unfold write_text. destruct (writable (MullikenFiles.global_path path));
    [|discriminate].
  destruct (mulliken_outputs_are_no_inputs path) as ((G0 & G1 & G2) & _ & Hlg).
  unfold MullikenFiles.write_local_electro.
  rewrite (mulliken_write_local_electro_reads_logs fs
             (set_file fs (MullikenFiles.global_path path)
                (Some (MullikenFiles.written_text props))) path)
    by (apply set_file_other; assumption).
  destruct (Mulliken.write_local_electro fs path) as [table|e]; [|discriminate].
  rewrite (set_file_other fs _ _ _ Hlg).
  destruct (to_csv false MullikenFiles.COLUMNS false table _ _)
    as [content outcome] eqn:Hcsv.
  cbn [fst snd]. intros ->. exists table, content.
  split; [reflexivity|]. split; [exact Hcsv|]. apply set_file_same.
Qed.

(** What [frame_to_csv] leaves in the file when it returns. *)
Lemma frame_to_csv_returns {O : Os} (style : csv_style) (round4 : bool)
    (columns : list string) (append : bool) (table : dict (list float))
    (target : string) (old content : option string) :
  @to_csv (frame_to_csv style) round4 columns append table target old
  = (content, Ok tt) ->
  content
  = Some ((if append then match old with Some t => t | None => "" end else "") ++
          csv_text style
            (map (field_text style) columns :: map (data_row style round4) table))%string.
Proof.
  unfold frame_to_csv. cbn [to_csv].
  destruct (_ && _)%bool; [|intros H; discriminate H].
  destruct (writable target); [|intros H; discriminate H].
  intros H. injection H as <-. reflexivity.
Qed.

Lemma data_rows_of_keys (style : csv_style) (round4 : bool) (Q : string -> Prop)
    (table : dict (list float)) :
  (forall k, In k (keys table) -> Q k) ->
  Forall (fun row => exists k, Q k /\ hd "" row = field_text style k)
    (map (data_row style round4) table).
Proof.
  intros HQ. apply Forall_forall. intros row Hrow.
  apply in_map_iff in Hrow. destruct Hrow as (entry & <- & Hin).
  exists (fst entry). split; [|reflexivity].
  apply HQ. unfold keys. apply in_map. exact Hin.
Qed.

(** C9: hydrogen rows of the raw table never reach a result.  Every row
    of a parsed charge table, of either script, comes from a line of the
    log whose element token is not "H"; every key of a combined table is
    the label of a row of the neutral table; every key of the table
    that [write_local_electro] hands on to be written is the label of
    such a line of the neutral log; and when a run of either script
    returns, the file it wrote holds, after the global block (in
    [write_electro_nbo.py]) and the header, one line per entry of that
    table, each beginning with the label of such a line: no row of the
    output is a hydrogen row. *)
Theorem no_hydrogen_rows (fs : filesystem) (path text : string) :
  fs path = Some text ->
  (forall table, Nbo.get_charge_table fs path = Ok table ->
     Forall (nbo_row_of text) table) /\
  (forall table, Mulliken.get_charge_table fs path = Ok table ->
     Forall (mulliken_row_of text) table) /\
  (forall neutral anion cation d,
     Nbo.combine_tables neutral anion cation = Ok d \/
     Mulliken.combine_tables neutral anion cation = Ok d ->
     forall k, In k (keys d) -> exists r, In r neutral /\ label r = k) /\
  (forall (L : Libm) out, Nbo.write_local_electro fs path = Ok out ->
     forall k, In k (keys out) -> exists r, nbo_row_of text r /\ label r = k) /\
  (forall (L : Libm) out, Mulliken.write_local_electro fs path = Ok out ->
     forall k, In k (keys out) -> exists r, mulliken_row_of text r /\ label r = k) /\
  (forall (L : Libm) (O : Os) (style : csv_style),
     snd (@NboFiles.main L O (frame_to_csv style) fs path) = Ok tt ->
     exists props rows,
       fst (@NboFiles.main L O (frame_to_csv style) fs path) (NboFiles.output_path path)
       = Some (NboFiles.written_text path props ++
               csv_text style (map (field_text style) NboFiles.COLUMNS :: rows))%string /\
       Forall (fun row => exists k,
                 (exists r, nbo_row_of text r /\ label r = k) /\
                 hd "" row = field_text style k) rows) /\
  (forall (L : Libm) (R : FloatRepr) (O : Os) (style : csv_style),
     snd (@MullikenFiles.main L R O (frame_to_csv style) fs path) = Ok tt ->
     exists rows,
       fst (@MullikenFiles.main L R O (frame_to_csv style) fs path)
         (MullikenFiles.local_path path)
       = Some (csv_text style (map (field_text style) MullikenFiles.COLUMNS :: rows)) /\
       Forall (fun row => exists k,
                 (exists r, mulliken_row_of text r /\ label r = k) /\
                 hd "" row = field_text style k) rows).
Proof.
  intros Hfs.
  assert (Hnbo : forall (L : Libm) out, Nbo.write_local_electro fs path = Ok out ->
            forall k, In k (keys out) -> exists r, nbo_row_of text r /\ label r = k).
  { intros L out Hrun k Hk.
    destruct (nbo_write_local_electro_keys fs path out Hrun) as (n & Hn & Hkeys).
    destruct (Hkeys k Hk) as (r & Hr & Hl).
    exists r. split; [|exact Hl].
    pose proof (nbo_table_rows fs path text n Hfs Hn) as Hall.
    rewrite Forall_forall in Hall. apply Hall. exact Hr. }
  assert (Hmul : forall (L : Libm) out, Mulliken.write_local_electro fs path = Ok out ->
            forall k, In k (keys out) ->
            exists r, mulliken_row_of text r /\ label r = k).
  { intros L out Hrun k Hk.
    destruct (mulliken_write_local_electro_keys fs path out Hrun) as (n & Hn & Hkeys).
    destruct (Hkeys k Hk) as (r & Hr & Hl).
    exists r. split; [|exact Hl].
    pose proof (mulliken_table_rows fs path text n Hfs Hn) as Hall.
    rewrite Forall_forall in Hall. apply Hall. exact Hr. }
  split; [|split; [|split; [|split; [|split; [|split]]]]].
  - intros table Hrun. apply (nbo_table_rows fs path text table Hfs Hrun).
  - intros table Hrun. apply (mulliken_table_rows fs path text table Hfs Hrun).
  - intros n a c d [Hrun|Hrun] k Hk; apply (combine_tables_keys n a c d Hrun k Hk).
  - exact Hnbo.
  - exact Hmul.
  - intros L O style Hret.
    destruct (nbo_main_returns fs path Hret) as (props & table & content & Ht & Hcsv & Hf).
    exists props, (map (data_row style true) table). split.
    + rewrite Hf. apply (frame_to_csv_returns _ _ _ _ _ _ _ _ Hcsv).
    + apply data_rows_of_keys. apply (Hnbo L table Ht).
  - intros L R O style Hret.
    destruct (mulliken_main_returns fs path Hret) as (table & content & Ht & Hcsv & Hf).
    exists (map (data_row style false) table). split.
    + rewrite Hf. apply (frame_to_csv_returns _ _ _ _ _ _ _ _ Hcsv).
    + apply data_rows_of_keys. apply (Hmul L table Ht).
Qed.

Lemma no_hydrogen_rows_witness :
  Forall (nbo_row_of
            (example_nbo_log ["      C    1   -0.25000"; "      H    2    0.12500";
                              "      C    3    0.50000"]))
    example_nbo_table /\
  map label example_nbo_table = ["C1"; "C3"] /\
  Forall (mulliken_row_of
            (example_mulliken_log ["     1  C   -0.25000"; "     2  H    0.12500";
                                   "     3  O    0.50000"; "     4  C    0.12500"]))
    example_mulliken_table /\
  map label example_mulliken_table = ["C1"; "O1"; "C2"] /\
  (exists props rows,
     fst (@NboFiles.main square_libm open_os (@frame_to_csv open_os plain_style)
            example_nbo_files "m.log") "m_electro.csv"
     = Some (NboFiles.written_text "m.log" props ++
             csv_text plain_style (NboFiles.COLUMNS :: rows))%string /\
     Forall (fun row => exists k,
               (exists r,
                  nbo_row_of
                    (example_nbo_log ["      C    1   -0.25000";
                                      "      H    2    0.12500";
                                      "      C    3    0.50000"]) r /\
                  label r = k) /\
               hd "" row = k) rows) /\
  (exists rows,
     fst (@MullikenFiles.main square_libm short_repr open_os (@frame_to_csv open_os plain_style)
            example_mulliken_files "m.log") "m_local_electro.txt"
     = Some (csv_text plain_style (MullikenFiles.COLUMNS :: rows)) /\
     Forall (fun row => exists k,
               (exists r,
                  mulliken_row_of
                    (example_mulliken_log ["     1  C   -0.25000";
                                           "     2  H    0.12500";
                                           "     3  O    0.50000";
                                           "     4  C    0.12500"]) r /\
                  label r = k) /\
               hd "" row = k) rows).
Proof.
  split; [|split; [|split; [|split; [|split]]]].
  - apply (proj1 (no_hydrogen_rows example_nbo_files "m.log" _ eq_refl)).
    vm_compute. reflexivity.
  - reflexivity.
  - apply (proj1 (proj2 (no_hydrogen_rows example_mulliken_files "m.log" _ eq_refl))).
    vm_compute. reflexivity.
  - reflexivity.
  - destruct (no_hydrogen_rows example_nbo_files "m.log" _ eq_refl)
      as (_ & _ & _ & _ & _ & Hmain & _).
    destruct (Hmain square_libm open_os plain_style) as (props & rows & Hfile & Hrows).
    + vm_compute. reflexivity.
    + exists props, rows. split; [|exact Hrows].
      rewrite <- (map_id NboFiles.COLUMNS) at 1. exact Hfile.
  - destruct (no_hydrogen_rows example_mulliken_files "m.log" _ eq_refl)
      as (_ & _ & _ & _ & _ & _ & Hmain).
    destruct (Hmain square_libm short_repr open_os plain_style) as (rows & Hfile & Hrows).
    + vm_compute. reflexivity.
    + exists rows. split; [|exact Hrows].
      rewrite <- (map_id MullikenFiles.COLUMNS) at 1. exact Hfile.
Defined.
